(** * ECScope performance analysis: result loader, regression detector, exit codes

    A shallow embedding of [scripts/analyze_performance_results.py]
    (class [PerformanceAnalyzer] and [main]) and the properties its
    specification states about it.

    Python floats are IEEE 754 binary64 numbers: they are embedded as Rocq's
    primitive [float], whose operations are specified by [FloatAxioms] in
    terms of [SpecFloat].  Float powers go through the C library's [pow],
    which is a parameter of the model.  Exceptions are explicit: a
    computation that can raise returns a [result].  What the script prints, and the files it
    tries to write, form a list of [event]s. *)

From Stdlib Require Import ZArith List String Ascii Bool Lia Floats.
From Stdlib Require Import Sorting.Sorted Sorting.Permutation DecimalString.
Import ListNotations.

Set Implicit Arguments.
Set Warnings "-register-all".

(** ** Exceptions *)

Module Py.

(** The exception classes the script can meet. *)
Inductive exn : Type :=
  | Exception
  | OSError
  | FileNotFoundError
  | PermissionError
  | IsADirectoryError
  | ValueError
  | JSONDecodeError
  | UnicodeDecodeError
  | KeyError
  | TypeError
  | AttributeError
  | ArithmeticError
  | OverflowError
  | ZeroDivisionError.

Definition exn_eqb (a b : exn) : bool :=
  match a, b with
  | Exception, Exception | OSError, OSError
  | FileNotFoundError, FileNotFoundError | PermissionError, PermissionError
  | IsADirectoryError, IsADirectoryError | ValueError, ValueError
  | JSONDecodeError, JSONDecodeError | UnicodeDecodeError, UnicodeDecodeError
  | KeyError, KeyError | TypeError, TypeError | AttributeError, AttributeError
  | ArithmeticError, ArithmeticError | OverflowError, OverflowError
  | ZeroDivisionError, ZeroDivisionError => true
  | _, _ => false
  end.

(** The direct base class, as in Python's built-in hierarchy
    ([json.JSONDecodeError] derives from [ValueError]). *)
Definition base (e : exn) : option exn :=
  match e with
  | Exception => None
  | OSError | ValueError | KeyError | TypeError | AttributeError
  | ArithmeticError => Some Exception
  | FileNotFoundError | PermissionError | IsADirectoryError => Some OSError
  | JSONDecodeError | UnicodeDecodeError => Some ValueError
  | OverflowError | ZeroDivisionError => Some ArithmeticError
  end.

(** [isinstance e cls]: the hierarchy is three levels deep. *)
Definition isinstance (e cls : exn) : bool :=
  exn_eqb e cls
  || match base e with
     | None => false
     | Some b =>
         exn_eqb b cls
         || match base b with
            | None => false
            | Some b' => exn_eqb b' cls
            end
     end.

(** [except (c1, c2, ...)]: does the clause catch [e]? *)
Definition catches (classes : list exn) (e : exn) : bool :=
  existsb (isinstance e) classes.

(** A computation that returns a value or raises. *)
Inductive result (A : Type) : Type :=
  | Ok (a : A)
  | Raise (e : exn).

Arguments Ok {A} a.
Arguments Raise {A} e.

Definition bind {A B : Type} (c : result A) (k : A -> result B) : result B :=
  match c with
  | Ok a => k a
  | Raise e => Raise e
  end.

Definition raises {A : Type} (c : result A) : bool :=
  match c with
  | Ok _ => false
  | Raise _ => true
  end.

End Py.

Import Py.

Declare Scope py_scope.
Delimit Scope py_scope with py.
Notation "x <- c ;; k" := (bind c (fun x => k))
  (at level 61, c at next level, right associativity) : py_scope.
Open Scope py_scope.

(** ** Python's float operations *)

(** ** The C library

    CPython computes a float power with C's [pow].  The C standard does not
    ask for a correctly rounded result, and the libraries in use are within
    an ulp of it, not on it: [pow(x, 2.0)] is not always the rounded product
    [x * x], nor [pow(x, 0.5)] the rounded square root.  So [pow] is a
    parameter.  What is assumed of it is what C11 (7.12.7.4, F.10.4.4) gives
    for a positive base: the result has no sign, and no domain error
    occurs. *)
Module C.

(** The values [pow] can leave in [errno]. *)
Inductive errno : Type := ERANGE | EDOM.

Class Libm : Type := {
  (** the value [pow(x, y)] returns *)
  pow : float -> float -> float;
  (** the value it leaves in [errno]; [None] when it leaves it alone *)
  pow_errno : float -> float -> option errno;
  pow_sign : forall x y : float,
    (0 <? x)%float = true -> abs (pow x y) = pow x y;
  pow_range : forall x y : float,
    (0 <? x)%float = true -> pow_errno x y <> Some EDOM
}.

End C.

Module PyFloat.

Local Open Scope float_scope.

(** The literals of the script, each the binary64 value nearest to the
    decimal the source writes. *)
Definition f0_99 : float := 0x1.fae147ae147aep-1.   (* 0.99  *)
Definition f1em10 : float := 0x1.b7cdfd9d7bdbbp-34. (* 1e-10 *)
Definition f3 : float := 3.                          (* 3.0   *)
Definition f0_5 : float := 0.5.                      (* 0.5   *)

(** [x / y]: Python raises where IEEE 754 would return an infinity or NaN. *)
Definition truediv (x y : float) : result float :=
  if y =? 0 then Raise ZeroDivisionError else Ok (x / y).

(** [x > y] and [x < y] on floats; both are false when either side is NaN. *)
Definition gt (x y : float) : bool := y <? x.
Definition lt (x y : float) : bool := x <? y.

(** [min(a, b)]: the built-in keeps its first argument unless the second is
    strictly smaller. *)
Definition min (a b : float) : float := if b <? a then b else a.

Section Pow.
Context {M : C.Libm}.

(** The end of CPython's [float_pow], reached with a finite positive base
    other than 1 and a finite exponent other than 0: the call of C's [pow],
    [_Py_ADJUST_ERANGE1] (an infinite result counts as a range error, and a
    range error with a zero result is forgiven), and the test of [errno]. *)
Definition libm_pow (iv iw : float) : result float :=
  let ix := C.pow iv iw in
  let errno :=
    match C.pow_errno iv iw with
    | None => if is_infinity ix then Some C.ERANGE else None
    | Some C.ERANGE => if ix =? 0 then None else Some C.ERANGE
    | Some C.EDOM => Some C.EDOM
    end in
  match errno with
  | None => Ok ix
  | Some C.ERANGE => Raise OverflowError
  | Some C.EDOM => Raise ValueError
  end.

(** [v ** 2] on a float, after [float_pow]: NaN, infinities, zeros and one
    are answered without calling the C library; otherwise a negative base is
    replaced by its absolute value (the exponent is an even integer) and C's
    [pow] is called. *)
Definition pow2 (iv : float) : result float :=
  if is_nan iv then Ok iv
  else if is_infinity iv then Ok (abs iv)
  else if iv =? 0 then Ok 0
  else
    let iv := if iv <? 0 then - iv else iv in
    if iv =? 1 then Ok 1
    else libm_pow iv 2.

(** [v ** 0.5] on a float, after the same function.  A negative base with a
    fractional exponent yields a complex number; the only use the script makes
    of the value ends in [min(0.99, _)], which refuses a complex operand with
    [TypeError], and nothing observable happens in between, so that branch
    raises [TypeError] here. *)
Definition pow_half (iv : float) : result float :=
  if is_nan iv then Ok iv
  else if is_infinity iv then Ok (abs iv)
  else if iv =? 0 then Ok 0
  else if iv <? 0 then Raise TypeError
  else if iv =? 1 then Ok 1
  else libm_pow iv 0.5.

End Pow.

End PyFloat.

(** ** Data model *)

(** The values [json.load] produces: [None], [bool], [int], [float], [str],
    [list] and [dict] (members in document order, keys distinct). *)
Inductive json : Type :=
  | JNull
  | JBool (b : bool)
  | JInt (n : Z)
  | JFloat (x : float)
  | JStr (s : string)
  | JList (items : list json)
  | JDict (members : list (string * json)).

(** [PerformanceResult]: the dataclass annotates the text fields as [str],
    but nothing converts them, so they hold whatever value the document had. *)
Record PerformanceResult : Type := {
  test_name : json;
  category : json;
  architecture : json;
  entity_count : Z;
  average_time_us : float;
  min_time_us : float;
  max_time_us : float;
  std_deviation_us : float;
  entities_per_second : float;
  memory_usage : Z;
  cache_hit_ratio : float;
  timestamp : json;
  platform : json;
  build_config : json
}.

Record RegressionResult : Type := {
  rr_test_name : json;
  baseline_performance : float;
  current_performance : float;
  change_percentage : float;
  is_regression : bool;
  is_improvement : bool;
  statistical_significance : float;
  confidence_level : float
}.

(** [PerformanceAnalysis], with the parts of [summary] that [main] reads.  The
    report texts (memory analysis, insights, recommendations) are not
    represented: see [analysis_rest] below. *)
Record PerformanceAnalysis : Type := {
  total_tests : nat;
  regressions_detected : nat;
  improvements_detected : nat;
  has_baseline : bool;
  regressions : list RegressionResult;
  improvements : list RegressionResult
}.

(** Built-in functions of Python that the script calls and whose full
    definition is outside it: [str(v)], and [int(s)] and [float(s)] on a
    string ([None] stands for their [ValueError]). *)
Class Builtins : Type := {
  str : json -> string;
  int_of_str : string -> option Z;
  float_of_str : string -> option float
}.

(** What [open] and [json.load] find at a path. *)
Inductive file_content : Type :=
  | Missing                 (* [open] raises FileNotFoundError *)
  | Unreadable (e : exn)    (* [open] or [read] raises something else *)
  | Malformed               (* [json.load] raises JSONDecodeError *)
  | Document (data : json).

(** The environment of one run. *)
Record World : Type := {
  (** the files the run can read *)
  fs : string -> file_content;
  (** [datetime.now().isoformat()] *)
  clock : string;
  (** the rest of [run_analysis] after detection (memory analysis, insights,
      recommendations, summary statistics): it only builds report text, but
      it can raise, for instance on a division by a zero mean *)
  analysis_rest : list PerformanceResult -> list RegressionResult ->
                  list RegressionResult -> option exn;
  (** the outcome of opening a path for writing and writing it out *)
  write : string -> option exn
}.

(** What a run prints or does to the file system, in order. *)
Inductive event : Type :=
  | ErrorLoading (file_path : string) (e : exn)
  | WarningFailedItem (item : json) (e : exn)
  | Running
  | WriteAttempt (path : string) (outcome : option exn)
  | Exported (path : string)
  | ReportGenerated (path : string)
  | Summary (tests regressions improvements : nat)
  | RegressionsWarning (n : nat)
  | NoRegressions
  | ErrorDuringAnalysis (e : exn).

(** A computation that prints and may raise. *)
Definition io (A : Type) : Type := (list event * result A)%type.

Definition io_ret {A : Type} (a : A) : io A := ([], Ok a).

Definition io_raise {A : Type} (e : exn) : io A := ([], Raise e).

Definition emit (ev : event) : io unit := ([ev], Ok tt).

Definition lift {A : Type} (c : result A) : io A := ([], c).

Definition io_bind {A B : Type} (c : io A) (k : A -> io B) : io B :=
  match c with
  | (log, Ok a) => (log ++ fst (k a), snd (k a))
  | (log, Raise e) => (log, Raise e)
  end.

(** [try: c  except classes as e: handler e] *)
Definition try_except {A : Type} (c : io A) (classes : list exn)
    (handler : exn -> io A) : io A :=
  match c with
  | (log, Raise e) =>
      if catches classes e then (log ++ fst (handler e), snd (handler e)) else c
  | _ => c
  end.

Notation "x <-- c ;;; k" := (io_bind c (fun x => k))
  (at level 61, c at next level, right associativity) : py_scope.

(** A [dict] with string keys: the newest binding of a key comes first and
    hides the older ones. *)
Definition dict (V : Type) : Type := list (string * V).

Definition dict_set {V : Type} (k : string) (v : V) (d : dict V) : dict V :=
  (k, v) :: d.

Fixpoint dict_get {V : Type} (k : string) (d : dict V) : option V :=
  match d with
  | [] => None
  | (k', v) :: d' => if String.eqb k k' then Some v else dict_get k d'
  end.

(** ** Python's operations on loaded values *)

Module PyValue.

Fixpoint is_substring (needle hay : string) : bool :=
  String.prefix needle hay
  || match hay with
     | EmptyString => false
     | String _ hay' => is_substring needle hay'
     end.

(** [k in data] *)
Definition contains (k : string) (data : json) : result bool :=
  match data with
  | JDict members =>
      Ok (match dict_get k members with Some _ => true | None => false end)
  | JStr s => Ok (is_substring k s)
  | JList items =>
      Ok (existsb (fun v => match v with
                            | JStr s => String.eqb s k
                            | _ => false
                            end) items)
  | _ => Raise TypeError
  end.

(** [data[k]] with a string [k] *)
Definition subscript (data : json) (k : string) : result json :=
  match data with
  | JDict members =>
      match dict_get k members with
      | Some v => Ok v
      | None => Raise KeyError
      end
  | _ => Raise TypeError
  end.

(** The items a [for] loop visits: a dict yields its keys and a string its
    characters. *)
Definition iterate (v : json) : result (list json) :=
  match v with
  | JList items => Ok items
  | JDict members => Ok (map (fun kv => JStr (fst kv)) members)
  | JStr s => Ok (map (fun c => JStr (String c EmptyString)) (list_ascii_of_string s))
  | _ => Raise TypeError
  end.

(** What [get] finds in the members of a dict. *)
Definition field (members : dict json) (k : string) (default : json) : json :=
  match dict_get k members with
  | Some v => v
  | None => default
  end.

(** [item.get(k, default)]: only a dict has the method. *)
Definition get (item : json) (k : string) (default : json) : result json :=
  match item with
  | JDict members => Ok (field members k default)
  | _ => Raise AttributeError
  end.

(** [item.get(k1, item.get(k2, default))] *)
Definition get2 (item : json) (k1 k2 : string) (default : json) : result json :=
  inner <- get item k2 default ;;
  get item k1 inner.

(** The integer part of a finite float, towards zero. *)
Definition trunc (x : float) : Z :=
  match Prim2SF x with
  | S754_finite s m e =>
      let a := Z.shiftl (Zpos m) e in if s then (- a)%Z else a
  | _ => 0%Z
  end.

(** The float nearest to an integer, ties to even. *)
Definition nearest_float (n : Z) : float :=
  SF2Prim (binary_normalize prec emax n 0%Z false).

Section Conversions.
Context {B : Builtins}.

(** [int(v)] *)
Definition py_int (v : json) : result Z :=
  match v with
  | JInt n => Ok n
  | JBool b => Ok (if b then 1%Z else 0%Z)
  | JFloat x =>
      if is_nan x then Raise ValueError
      else if is_infinity x then Raise OverflowError
      else Ok (trunc x)
  | JStr s =>
      match int_of_str s with
      | Some n => Ok n
      | None => Raise ValueError
      end
  | JNull | JList _ | JDict _ => Raise TypeError
  end.

(** [float(v)] *)
Definition py_float (v : json) : result float :=
  match v with
  | JFloat x => Ok x
  | JInt n =>
      let x := nearest_float n in
      if is_infinity x then Raise OverflowError else Ok x
  | JBool b => Ok (if b then 1%float else 0%float)
  | JStr s =>
      match float_of_str s with
      | Some x => Ok x
      | None => Raise ValueError
      end
  | JNull | JList _ | JDict _ => Raise TypeError
  end.

End Conversions.

End PyValue.

(** ** [list.sort(key=..., reverse=...)]

    A stable sort that compares keys with [<] only.  With [reverse=True]
    CPython reverses the list, sorts it, and reverses it again, which keeps
    equal keys in their original order. *)
Section ListSort.
Variable A : Type.
Variable key : A -> float.

Fixpoint insert (x : A) (l : list A) : list A :=
  match l with
  | [] => [x]
  | y :: l' =>
      if PyFloat.lt (key y) (key x) then y :: insert x l' else x :: y :: l'
  end.

Definition sort_ascending (l : list A) : list A := fold_right insert [] l.

Definition list_sort (reverse : bool) (l : list A) : list A :=
  if reverse then rev (sort_ascending (rev l)) else sort_ascending l.

End ListSort.

(** ** [PerformanceAnalyzer.load_results] *)

Section Loader.
Context {B : Builtins}.
Variable w : World.

Import PyValue.

(** The keyword arguments of [PerformanceResult(...)], evaluated in the order
    the source writes them. *)
Definition parse_item (item : json) : result PerformanceResult :=
  v_test_name <- get2 item "name" "test_name" (JStr "Unknown") ;;
  v_category <- get item "category" (JStr "Unknown") ;;
  v_architecture <- get2 item "architecture" "architecture_type" (JStr "Unknown") ;;
  v_entity_count <- (v <- get item "entity_count" (JInt 0) ;; py_int v) ;;
  v_average_time_us <- (v <- get2 item "real_time" "average_time_us" (JInt 0) ;; py_float v) ;;
  v_min_time_us <- (v <- get2 item "min_time" "min_time_us" (JInt 0) ;; py_float v) ;;
  v_max_time_us <- (v <- get2 item "max_time" "max_time_us" (JInt 0) ;; py_float v) ;;
  v_std_deviation_us <- (v <- get2 item "stddev" "std_deviation_us" (JInt 0) ;; py_float v) ;;
  v_entities_per_second <- (v <- get item "entities_per_second" (JInt 0) ;; py_float v) ;;
  v_memory_usage <- (v <- get2 item "memory_usage" "peak_memory_usage" (JInt 0) ;; py_int v) ;;
  v_cache_hit_ratio <- (v <- get item "cache_hit_ratio" (JFloat 0) ;; py_float v) ;;
  v_timestamp <- get item "timestamp" (JStr (clock w)) ;;
  v_platform <- get item "platform" (JStr "unknown") ;;
  v_build_config <- get item "build_config" (JStr "unknown") ;;
  Ok {| test_name := v_test_name;
        category := v_category;
        architecture := v_architecture;
        entity_count := v_entity_count;
        average_time_us := v_average_time_us;
        min_time_us := v_min_time_us;
        max_time_us := v_max_time_us;
        std_deviation_us := v_std_deviation_us;
        entities_per_second := v_entities_per_second;
        memory_usage := v_memory_usage;
        cache_hit_ratio := v_cache_hit_ratio;
        timestamp := v_timestamp;
        platform := v_platform;
        build_config := v_build_config |}.

(** The inner [try]: one item is parsed and appended, or skipped with a
    warning when parsing raises [KeyError], [ValueError] or [TypeError]. *)
Definition load_item (results : list PerformanceResult) (item : json)
  : io (list PerformanceResult) :=
  try_except
    (result <-- lift (parse_item item) ;;;
     io_ret (results ++ [result]))
    [KeyError; ValueError; TypeError]
    (fun e => _ <-- emit (WarningFailedItem item e) ;;; io_ret results).

(** [for item in benchmark_data: ...] *)
Fixpoint load_items (items : list json) (results : list PerformanceResult)
  : io (list PerformanceResult) :=
  match items with
  | [] => io_ret results
  | item :: rest =>
      results' <-- load_item results item ;;;
      load_items rest results'
  end.

(** The dispatch on the document's shape. *)
Definition benchmark_data_of (data : json) : result json :=
  match data with
  | JList _ => Ok data
  | _ =>
      has_benchmarks <- contains "benchmarks" data ;;
      if has_benchmarks : bool then subscript data "benchmarks"
      else
        has_results <- contains "results" data ;;
        if has_results : bool then subscript data "results"
        else Ok (JList [data])
  end.

(** [with open(file_path, 'r') as f: data = json.load(f)] *)
Definition json_load (file_path : string) : result json :=
  match fs w file_path with
  | Missing => Raise FileNotFoundError
  | Unreadable e => Raise e
  | Malformed => Raise JSONDecodeError
  | Document data => Ok data
  end.

(** What the outer [try] does with the loaded document. *)
Definition load_document (data : json) : io (list PerformanceResult) :=
  benchmark_data <-- lift (benchmark_data_of data) ;;;
  items <-- lift (iterate benchmark_data) ;;;
  load_items items [].

Definition load_results (file_path : string) : io (list PerformanceResult) :=
  try_except
    (data <-- lift (json_load file_path) ;;;
     load_document data)
    [FileNotFoundError; JSONDecodeError]
    (fun e => _ <-- emit (ErrorLoading file_path e) ;;; io_ret []).

End Loader.

(** ** [PerformanceAnalyzer.detect_regressions] *)

Section Detector.
Context {B : Builtins}.
Context {M : C.Libm}.
(** [self.regression_threshold] *)
Variable regression_threshold : float.

Local Open Scope float_scope.

(** [f"{result.test_name}_{result.architecture}_{result.entity_count}"] *)
Definition key_of (r : PerformanceResult) : string :=
  (str (test_name r) ++ "_" ++ str (architecture r) ++ "_"
     ++ str (JInt (entity_count r)))%string.

Definition baseline_lookup (baseline : list PerformanceResult)
  : dict PerformanceResult :=
  fold_left (fun d r => dict_set (key_of r) r d) baseline [].

(** [std / perf if perf > 0 else 0].  The [else] branch is the integer [0] in
    Python; squaring it and adding it to a float give the same values as the
    float [0.0] does. *)
Definition cv_of (std perf : float) : result float :=
  if PyFloat.gt perf 0 then PyFloat.truediv std perf else Ok 0.

(** The body of the loop for one current result whose key is in the baseline;
    [None] is the [continue] of a zero baseline. *)
Definition compare (baseline_result current_result : PerformanceResult)
  : result (option RegressionResult) :=
  let baseline_perf := average_time_us baseline_result in
  let current_perf := average_time_us current_result in
  if baseline_perf =? 0 then Ok None
  else
    change_percentage <- PyFloat.truediv (current_perf - baseline_perf) baseline_perf ;;
    baseline_cv <- cv_of (std_deviation_us baseline_result) baseline_perf ;;
    current_cv <- cv_of (std_deviation_us current_result) current_perf ;;
    baseline_sq <- PyFloat.pow2 baseline_cv ;;
    current_sq <- PyFloat.pow2 current_cv ;;
    combined_variance <- PyFloat.pow_half (baseline_sq + current_sq) ;;
    statistical_significance <-
      PyFloat.truediv (abs change_percentage) (combined_variance + PyFloat.f1em10) ;;
    scaled <- PyFloat.truediv statistical_significance PyFloat.f3 ;;
    let confidence_level := PyFloat.min PyFloat.f0_99 scaled in
    Ok (Some {| rr_test_name := test_name current_result;
                baseline_performance := baseline_perf;
                current_performance := current_perf;
                change_percentage := change_percentage;
                is_regression := PyFloat.gt change_percentage regression_threshold;
                is_improvement := PyFloat.lt change_percentage (- regression_threshold);
                statistical_significance := statistical_significance;
                confidence_level := confidence_level |}).

(** The two [append]s that end the loop body. *)
Definition classify (acc : list RegressionResult * list RegressionResult)
    (r : RegressionResult) : list RegressionResult * list RegressionResult :=
  if is_regression r && PyFloat.gt (confidence_level r) PyFloat.f0_5
  then (fst acc ++ [r], snd acc)
  else if is_improvement r && PyFloat.gt (confidence_level r) PyFloat.f0_5
  then (fst acc, snd acc ++ [r])
  else acc.

Definition detect_step (lookup : dict PerformanceResult)
    (acc : list RegressionResult * list RegressionResult)
    (current_result : PerformanceResult)
  : result (list RegressionResult * list RegressionResult) :=
  match dict_get (key_of current_result) lookup with
  | None => Ok acc
  | Some baseline_result =>
      o <- compare baseline_result current_result ;;
      match o with
      | None => Ok acc
      | Some r => Ok (classify acc r)
      end
  end.

Fixpoint detect_loop (lookup : dict PerformanceResult)
    (current : list PerformanceResult)
    (acc : list RegressionResult * list RegressionResult)
  : result (list RegressionResult * list RegressionResult) :=
  match current with
  | [] => Ok acc
  | current_result :: rest =>
      acc' <- detect_step lookup acc current_result ;;
      detect_loop lookup rest acc'
  end.

Definition detect_regressions (baseline current : list PerformanceResult)
  : result (list RegressionResult * list RegressionResult) :=
  found <- detect_loop (baseline_lookup baseline) current ([], []) ;;
  Ok (list_sort change_percentage true (fst found),
      list_sort change_percentage false (snd found)).

End Detector.

(** ** [run_analysis], the two writers and [main] *)

Record Args : Type := {
  arg_current : list string;
  arg_baseline : option string;
  arg_output : string;
  arg_report : option string;
  arg_threshold : float
}.

Section Main.
Context {B : Builtins}.
Context {M : C.Libm}.
Variable w : World.

(** Truth value of an optional path: [None] and the empty string are false. *)
Definition truthy (p : option string) : bool :=
  match p with
  | Some s => negb (String.eqb s "")
  | None => false
  end.

(** [os.path.exists] *)
Definition path_exists (p : string) : bool :=
  match fs w p with
  | Missing => false
  | _ => true
  end.

Fixpoint load_all (files : list string) (current_results : list PerformanceResult)
  : io (list PerformanceResult) :=
  match files with
  | [] => io_ret current_results
  | file_path :: rest =>
      results <-- load_results w file_path ;;;
      load_all rest (current_results ++ results)
  end.

(** The baseline part of [run_analysis]: the loaded baseline and what
    detection finds. *)
Definition compare_with_baseline (threshold : float) (baseline_file : option string)
    (current_results : list PerformanceResult)
  : io (list PerformanceResult * (list RegressionResult * list RegressionResult)) :=
  match baseline_file with
  | Some p =>
      if truthy baseline_file && path_exists p then
        baseline_results <-- load_results w p ;;;
        match baseline_results with
        | [] => io_ret (baseline_results, ([], []))
        | _ =>
            found <-- lift (detect_regressions threshold baseline_results current_results) ;;;
            io_ret (baseline_results, found)
        end
      else io_ret ([], ([], []))
  | None => io_ret ([], ([], []))
  end.

Definition run_analysis (threshold : float) (current_files : list string)
    (baseline_file : option string) : io PerformanceAnalysis :=
  current_results <-- load_all current_files [] ;;;
  match current_results with
  | [] => io_raise ValueError
  | _ =>
      compared <-- compare_with_baseline threshold baseline_file current_results ;;;
      let baseline_results := fst compared in
      let found := snd compared in
      _ <-- lift (match analysis_rest w current_results (fst found) (snd found) with
                  | Some e => Raise e
                  | None => Ok tt
                  end) ;;;
      io_ret {| total_tests := List.length current_results;
                regressions_detected := List.length (fst found);
                improvements_detected := List.length (snd found);
                has_baseline :=
                  match baseline_file with
                  | Some _ => negb (Nat.eqb (List.length baseline_results) 0)
                  | None => false
                  end;
                regressions := fst found;
                improvements := snd found |}
  end.

(** Opening [path] for writing and writing the whole text. *)
Definition write_file (path : string) : io unit :=
  _ <-- emit (WriteAttempt path (write w path)) ;;;
  match write w path with
  | Some e => io_raise e
  | None => io_ret tt
  end.

Definition export_analysis (analysis : PerformanceAnalysis) (output_file : string)
  : io unit :=
  _ <-- write_file output_file ;;;
  emit (Exported output_file).

Definition generate_report (analysis : PerformanceAnalysis) (report_file : string)
  : io unit :=
  _ <-- write_file report_file ;;;
  emit (ReportGenerated report_file).

(** The part of the [try] in [main] that follows [run_analysis]: the export,
    the report when one is asked for, and the printed summary. *)
Definition write_outputs (args : Args) (analysis : PerformanceAnalysis)
  : io PerformanceAnalysis :=
  _ <-- export_analysis analysis (arg_output args) ;;;
  _ <-- match arg_report args with
        | Some p => if truthy (arg_report args) then generate_report analysis p
                    else io_ret tt
        | None => io_ret tt
        end ;;;
  _ <-- emit (Summary (total_tests analysis) (regressions_detected analysis)
                      (improvements_detected analysis)) ;;;
  io_ret analysis.

(** The body of the [try] in [main], up to the choice of the exit code. *)
Definition main_body (args : Args) : io PerformanceAnalysis :=
  _ <-- emit Running ;;;
  analysis <-- run_analysis (arg_threshold args) (arg_current args) (arg_baseline args) ;;;
  write_outputs args analysis.

(** [main]: what is printed and written, and the exit code.  [exit] raises
    [SystemExit], which [except Exception] does not catch; every class of
    [exn] derives from [Exception], so the handler catches whatever the body
    raises. *)
Definition main (args : Args) : list event * Z :=
  match main_body args with
  | (log, Ok analysis) =>
      if Nat.ltb 0 (regressions_detected analysis)
      then (log ++ [RegressionsWarning (regressions_detected analysis)], 1%Z)
      else (log ++ [NoRegressions], 0%Z)
  | (log, Raise e) => (log ++ [ErrorDuringAnalysis e], 2%Z)
  end.

End Main.

(** ** Parts of the insights, of the summary and of the report

    The texts of [generate_educational_insights] and [generate_report] are not
    modelled; what follows is what they select from their inputs. *)

Section Selection.
Variable A : Type.
Variable key : A -> float.

(** [max(items, key=key)] once a first candidate is there: the built-in
    replaces its candidate only by an item whose key is strictly greater. *)
Fixpoint max_from (best : A) (l : list A) : A :=
  match l with
  | [] => best
  | x :: l' => max_from (if PyFloat.gt (key x) (key best) then x else best) l'
  end.

(** [min(items, key=key)], likewise with strictly smaller keys. *)
Fixpoint min_from (best : A) (l : list A) : A :=
  match l with
  | [] => best
  | x :: l' => min_from (if PyFloat.lt (key x) (key best) then x else best) l'
  end.

End Selection.

(** [if regressions: worst_regression = max(regressions, key=lambda x:
    x.change_percentage)]: the record the regression alert names. *)
Definition worst_regression (regressions : list RegressionResult)
  : option RegressionResult :=
  match regressions with
  | [] => None
  | r :: rest => Some (max_from change_percentage r rest)
  end.

(** [if improvements: best_improvement = min(improvements, key=lambda x:
    x.change_percentage)] *)
Definition best_improvement (improvements : list RegressionResult)
  : option RegressionResult :=
  match improvements with
  | [] => None
  | r :: rest => Some (min_from change_percentage r rest)
  end.

(** [analysis.regressions[:10]] and [analysis.improvements[:10]]: the rows of
    a table of the report. *)
Definition table_rows (records : list RegressionResult) : list RegressionResult :=
  firstn 10 records.

(** [sorted(set(xs))] on integers: the distinct values in increasing order. *)
Fixpoint insert_unique (x : Z) (l : list Z) : list Z :=
  match l with
  | [] => [x]
  | y :: l' =>
      if (x <? y)%Z then x :: l
      else if (x =? y)%Z then l
      else y :: insert_unique x l'
  end.

Definition sorted_set (xs : list Z) : list Z := fold_right insert_unique [] xs.

(** [sorted(set(r.entity_count for r in results if r.entity_count > 0))] *)
Definition entity_counts (results : list PerformanceResult) : list Z :=
  sorted_set (filter (fun n => (0 <? n)%Z) (map entity_count results)).

(** [sum(xs)] on integers. *)
Definition sum_int (xs : list Z) : Z := fold_left Z.add xs 0%Z.

(** [n * sum_x2 - sum_x * sum_x], the divisor of the least-squares slope,
    where [xs] are the entity counts of [scaling_data]. *)
Definition slope_divisor (xs : list Z) : Z :=
  (Z.of_nat (List.length xs) * sum_int (map (fun x => x * x) xs)
   - sum_int xs * sum_int xs)%Z.

(** ** Sample values for the examples *)

Module Sample.

Local Open Scope string_scope.

(** [str()] on the values the examples use as names, and parsers that accept
    no string: the examples keep numbers out of strings. *)
Definition str_of (v : json) : string :=
  match v with
  | JStr s => s
  | JInt n => NilZero.string_of_int (Z.to_int n)
  | JNull => "None"
  | JBool true => "True"
  | JBool false => "False"
  | _ => "?"
  end.

#[export] Instance builtins : Builtins :=
  {| str := str_of;
     int_of_str := fun _ => None;
     float_of_str := fun _ => None |}.

Definition perf (name : string) (count : Z) (avg std : float) : PerformanceResult :=
  {| test_name := JStr name; category := JStr "Unknown";
     architecture := JStr "archetype"; entity_count := count;
     average_time_us := avg; min_time_us := 0; max_time_us := 0;
     std_deviation_us := std; entities_per_second := 0; memory_usage := 0%Z;
     cache_hit_ratio := 0; timestamp := JStr "2024-01-01T00:00:00";
     platform := JStr "unknown"; build_config := JStr "unknown" |}.

Definition baseline_45 : PerformanceResult := perf "create_entity" 1000 45 0.
Definition current_54 : PerformanceResult := perf "create_entity" 1000 54 0.
Definition steady : PerformanceResult := perf "update" 1000 1 0.
Definition noisy_negative : PerformanceResult := perf "update" 1000 (-1) 1.

(** 0.05, the default threshold *)
Definition threshold : float := 0x1.999999999999ap-5.

(** 1e200 *)
Definition huge : float := 0x1.4e718d7d7625ap+664.

(** A baseline whose average time is 0. *)
Definition zero_baseline : PerformanceResult := perf "update" 1000 0 0.

(** A mean of 1 with a standard deviation of 1e200. *)
Definition wild : PerformanceResult := perf "update" 1000 1 huge.

(** The same test at twice the time. *)
Definition doubled : PerformanceResult := perf "update" 1000 2 0.

(** A world with the given files, in which nothing else fails. *)
Definition world (files : dict file_content) : World :=
  {| fs := fun p => match dict_get p files with Some c => c | None => Missing end;
     clock := "2024-01-01T00:00:00";
     analysis_rest := fun _ _ _ => None;
     write := fun _ => None |}.

(** The same world on a read-only disk. *)
Definition read_only_world (files : dict file_content) : World :=
  {| fs := fs (world files);
     clock := clock (world files);
     analysis_rest := analysis_rest (world files);
     write := fun _ => Some PermissionError |}.

(** [{"name": "create_entity", "architecture": "archetype",
      "entity_count": 1000, "average_time_us": avg}] *)
Definition entry (avg : json) : json :=
  JDict [("name", JStr "create_entity"); ("architecture", JStr "archetype");
         ("entity_count", JInt 1000); ("average_time_us", avg)].

(** A world whose one file is [current.json] with the given content. *)
Definition current_only (content : file_content) : World :=
  world [("current.json", content)].

(** Scenario A: the current run and its baseline. *)
Definition scenario_a : dict file_content :=
  [("current.json", Document (JList [entry (JInt 54)]));
   ("baseline.json", Document (JList [entry (JInt 45)]))].

(** The document [[1]]: an array whose entry is not an object. *)
Definition doc_number_entry : json := JList [JInt 1].

(** The document [42]. *)
Definition doc_scalar : json := JInt 42.

(** The document [[{}]]: one entry without any field. *)
Definition doc_empty_entry : json := JList [JDict []].

(** The document [[{"real_time": -1.0}]]. *)
Definition doc_negative_time : json :=
  JList [JDict [("real_time", JFloat (-1))]].

(** The document [{"real_time": -1.0}]: a bare object. *)
Definition doc_bare_negative : json := JDict [("real_time", JFloat (-1))].

(** An entry whose second key holds text that the first key shadows. *)
Definition shadowed_text : dict json :=
  [("real_time", JInt 5); ("average_time_us", JStr "abc")].

(** [{"benchmarks": [e54], "results": [e45, e45]}] *)
Definition doc_both_keys : json :=
  JDict [("benchmarks", JList [entry (JInt 54)]);
         ("results", JList [entry (JInt 45); entry (JInt 45)])].

(** [[{"real_time": null}, {"real_time": 3}]] *)
Definition doc_one_bad_entry : json :=
  JList [JDict [("real_time", JNull)]; JDict [("real_time", JInt 3)]].

(** Results of one test for 1, 2, ... entities with the given averages. *)
Fixpoint numbered (count : Z) (averages : list float) : list PerformanceResult :=
  match averages with
  | [] => []
  | avg :: rest => perf "create_entity" count avg 0 :: numbered (count + 1) rest
  end.

(** Eleven baseline results at 45 and eleven current ones from 50 to 60. *)
Definition baseline_run : list PerformanceResult :=
  numbered 1 [45; 45; 45; 45; 45; 45; 45; 45; 45; 45; 45]%float.

Definition current_run : list PerformanceResult :=
  numbered 1 [50; 51; 52; 53; 54; 55; 56; 57; 58; 59; 60]%float.

Definition args (report : option string) : Args :=
  {| arg_current := ["current.json"%string];
     arg_baseline := Some "baseline.json"%string;
     arg_output := "analysis.json";
     arg_report := report;
     arg_threshold := threshold |}.

End Sample.

(** ** Definitions used to state the properties *)

(** *** The order of binary64 numbers

    [SFcompare] orders the numbers that are not NaN like triples of integers
    ordered lexicographically: the class (negative, zero, positive, with the
    infinities outside), then the exponent, then the mantissa, the last two
    negated for negative numbers. *)
Module SF.

Local Open Scope Z_scope.

Definition rank (x : spec_float) : Z * Z * Z :=
  match x with
  | S754_nan => (0, 0, 0)
  | S754_zero _ => (0, 0, 0)
  | S754_infinity true => (-2, 0, 0)
  | S754_infinity false => (2, 0, 0)
  | S754_finite true m e => (-1, - e, Zneg m)
  | S754_finite false m e => (1, e, Zpos m)
  end.

Definition lex3 (a b : Z * Z * Z) : comparison :=
  let '(a1, a2, a3) := a in
  let '(b1, b2, b3) := b in
  match a1 ?= b1 with
  | Eq => match a2 ?= b2 with
          | Eq => a3 ?= b3
          | c => c
          end
  | c => c
  end.

Definition neg3 (a : Z * Z * Z) : Z * Z * Z :=
  let '(a1, a2, a3) := a in (- a1, - a2, - a3).

Definition nan (x : spec_float) : bool :=
  match x with
  | S754_nan => true
  | _ => false
  end.

(** A comparison of two numbers, false when either is NaN. *)
Definition cmpb (test : comparison -> bool) (x y : spec_float) : bool :=
  negb (nan x || nan y) && test (lex3 (rank x) (rank y)).

Definition is_lt (c : comparison) : bool :=
  match c with Lt => true | _ => false end.

Definition is_le (c : comparison) : bool :=
  match c with Gt => false | _ => true end.

Definition is_eq (c : comparison) : bool :=
  match c with Eq => true | _ => false end.

(** NaN, or a number whose sign bit is clear. *)
Definition nonneg (x : spec_float) : bool :=
  match x with
  | S754_nan => true
  | S754_zero s | S754_infinity s | S754_finite s _ _ => negb s
  end.

(** Neither a zero nor NaN. *)
Definition nonzero (x : spec_float) : bool :=
  match x with
  | S754_finite _ _ _ | S754_infinity _ => true
  | _ => false
  end.

End SF.

(** *** Sorted lists *)

Definition key_le {A : Type} (key : A -> float) (a b : A) : Prop :=
  (key a <=? key b)%float = true.

Definition key_ge {A : Type} (key : A -> float) (a b : A) : Prop :=
  (key b <=? key a)%float = true.

(** An element whose key is not NaN. *)
Definition comparable {A : Type} (key : A -> float) (a : A) : Prop :=
  is_nan (key a) = false.

(** A list in descending order of [change_percentage]: every element is at
    least as large as all the elements after it. *)
Definition descending (l : list RegressionResult) : Prop :=
  StronglySorted (key_ge change_percentage) l.

Definition ascending (l : list RegressionResult) : Prop :=
  StronglySorted (key_le change_percentage) l.

(** *** What the detector keeps *)

Section Kept.
Context {M : C.Libm}.

(** [r] is a record the loop body built for some pair. *)
Definition from_compare (t : float) (r : RegressionResult) : Prop :=
  exists b c, compare t b c = Ok (Some r).

Definition confident (r : RegressionResult) : Prop :=
  PyFloat.gt (confidence_level r) PyFloat.f0_5 = true.

Definition kept_regression (t : float) (r : RegressionResult) : Prop :=
  from_compare t r /\ is_regression r = true /\ confident r.

Definition kept_improvement (t : float) (r : RegressionResult) : Prop :=
  from_compare t r /\ is_improvement r = true /\ confident r.

Definition kept (t : float) (acc : list RegressionResult * list RegressionResult)
  : Prop :=
  Forall (kept_regression t) (fst acc) /\ Forall (kept_improvement t) (snd acc).

End Kept.

(** *** The specification's formulas

    The formulas of the specification for the coefficient of variation and
    the scores, in its own words, to compare with what [compare] computes. *)
Module Spec.

Local Open Scope float_scope.

(** "stdev/mean, 0 when mean is 0" *)
Definition cv (std mean : float) : float :=
  if mean =? 0 then 0 else std / mean.

(** "sqrt(cv_baseline² + cv_current²)" *)
Definition combined_cv (cv_baseline cv_current : float) : float :=
  sqrt (cv_baseline * cv_baseline + cv_current * cv_current).

(** "significance = |change| / (combined_cv + ε)" *)
Definition significance (change combined : float) : float :=
  abs change / (combined + PyFloat.f1em10).

(** "confidence = min(0.99, significance/3)" *)
Definition confidence (significance : float) : float :=
  PyFloat.min PyFloat.f0_99 (significance / PyFloat.f3).

(** "average_time_us ≥ 0; if min/max both present, min ≤ average ≤ max" *)
Definition invariant (r : PerformanceResult) : Prop :=
  (0 <=? average_time_us r) = true /\
  (min_time_us r <=? average_time_us r) = true /\
  (average_time_us r <=? max_time_us r) = true.

End Spec.

(** *** What the loader does with one entry *)

Definition is_object (item : json) : bool :=
  match item with
  | JDict _ => true
  | _ => false
  end.

(** The keys whose values the loader converts with [int] or [float]. *)
Definition numeric_keys : list string :=
  ["entity_count"; "real_time"; "average_time_us"; "min_time"; "min_time_us";
   "max_time"; "max_time_us"; "stddev"; "std_deviation_us";
   "entities_per_second"; "memory_usage"; "peak_memory_usage";
   "cache_hit_ratio"]%string.

(** The classes the inner [except] names. *)
Definition item_errors : list exn := [KeyError; ValueError; TypeError].

Section Entries.
Context {B : Builtins}.
Variable w : World.

(** The entry is skipped with a warning. *)
Definition skipped (item : json) : bool :=
  match parse_item w item with
  | Raise e => catches item_errors e
  | Ok _ => false
  end.

(** The entry raises something the inner [except] does not catch. *)
Definition escapes (item : json) : bool :=
  match parse_item w item with
  | Raise e => negb (catches item_errors e)
  | Ok _ => false
  end.

(** The warning an entry prints, if any. *)
Definition item_log (item : json) : list event :=
  match parse_item w item with
  | Raise e => [WarningFailedItem item e]
  | Ok _ => []
  end.

(** The record an entry yields, if any. *)
Definition item_records (item : json) : list PerformanceResult :=
  match parse_item w item with
  | Ok r => [r]
  | Raise _ => []
  end.

End Entries.

(** The exception a conversion raises, if any. *)
Definition failure {A : Type} (c : result A) : option exn :=
  match c with
  | Ok _ => None
  | Raise e => Some e
  end.

(** The conversions the loader makes on an object, in the order of the
    keyword arguments: [int] or [float] of the value [get] selects for each
    numeric field, which is the value of the first key when the object has
    it, else that of the second key, else the default. *)
Definition conversion_failures {B : Builtins} (members : dict json)
  : list (option exn) :=
  let field := PyValue.field members in
  [failure (PyValue.py_int (field "entity_count" (JInt 0)));
   failure (PyValue.py_float (field "real_time" (field "average_time_us" (JInt 0))));
   failure (PyValue.py_float (field "min_time" (field "min_time_us" (JInt 0))));
   failure (PyValue.py_float (field "max_time" (field "max_time_us" (JInt 0))));
   failure (PyValue.py_float (field "stddev" (field "std_deviation_us" (JInt 0))));
   failure (PyValue.py_float (field "entities_per_second" (JInt 0)));
   failure (PyValue.py_int (field "memory_usage" (field "peak_memory_usage" (JInt 0))));
   failure (PyValue.py_float (field "cache_hit_ratio" (JFloat 0)))]%string.

(** The first conversion that fails decides. *)
Fixpoint first_failure (l : list (option exn)) : option exn :=
  match l with
  | [] => None
  | Some e :: _ => Some e
  | None :: l' => first_failure l'
  end.

(** [data] has one of the three array shapes, with entries [items]. *)
Definition array_shaped (data : json) (items : list json) : Prop :=
  data = JList items \/
  (exists members, data = JDict members /\
     dict_get "benchmarks"%string members = Some (JList items)) \/
  (exists members, data = JDict members /\
     dict_get "benchmarks"%string members = None /\
     dict_get "results"%string members = Some (JList items)).

(** *** Events *)

(** An event of the loader: a logged error or a warning. *)
Definition loader_event (ev : event) : Prop :=
  match ev with
  | ErrorLoading _ _ | WarningFailedItem _ _ => True
  | _ => False
  end.

(** *** When a power overflows *)

Section Overflow.
Context {M : C.Libm}.

(** Python reports the call [pow(x, y)] as an overflow: [pow] returns an
    infinity, or sets [ERANGE] with a result other than zero. *)
Definition range_error (x y : float) : bool :=
  match C.pow_errno x y with
  | None => is_infinity (C.pow x y)
  | Some C.ERANGE => negb (C.pow x y =? 0)%float
  | Some C.EDOM => false
  end.

End Overflow.

(** *** What [compare] computes, step by step *)

(** The value of [cv_of]. *)
Definition cv_value (std perf : float) : float :=
  if PyFloat.gt perf 0 then (std / perf)%float else 0%float.

(** One of the three powers of [compare] raises: a square, or the root of the
    sum of the squares. *)
Definition power_overflows {M : C.Libm} (b c : PerformanceResult) : bool :=
  match PyFloat.pow2 (cv_value (std_deviation_us b) (average_time_us b)),
        PyFloat.pow2 (cv_value (std_deviation_us c) (average_time_us c)) with
  | Ok baseline_sq, Ok current_sq =>
      match PyFloat.pow_half (baseline_sq + current_sq)%float with
      | Ok _ => false
      | Raise _ => true
      end
  | _, _ => true
  end.

(** The record [compare] builds once the combined variance is known. *)
Definition regression_result (threshold : float)
    (baseline_result current_result : PerformanceResult) (combined_variance : float)
  : RegressionResult :=
  let baseline_perf := average_time_us baseline_result in
  let current_perf := average_time_us current_result in
  let change := ((current_perf - baseline_perf) / baseline_perf)%float in
  let significance := (abs change / (combined_variance + PyFloat.f1em10))%float in
  {| rr_test_name := test_name current_result;
     baseline_performance := baseline_perf;
     current_performance := current_perf;
     change_percentage := change;
     is_regression := PyFloat.gt change threshold;
     is_improvement := PyFloat.lt change (- threshold)%float;
     statistical_significance := significance;
     confidence_level := PyFloat.min PyFloat.f0_99 (significance / PyFloat.f3)%float |}.

(** * Facts about binary64 numbers *)

Unset Implicit Arguments.

Module SFFacts.
Import SF.
Local Open Scope Z_scope.

Lemma compare_rank x y :
  SFcompare x y =
  if nan x || nan y then None else Some (lex3 (rank x) (rank y)).
Proof.
  destruct x as [sx|sx| |sx mx ex], y as [sy|sy| |sy my ey]; simpl;
    try destruct sx; try destruct sy; simpl; try reflexivity.
  rewrite Z.compare_opp, (Z.compare_antisym ex ey).
  destruct (ex ?= ey); reflexivity.
Qed.

Lemma SFltb_cmpb x y : SFltb x y = cmpb is_lt x y.
Proof.
  unfold SFltb, cmpb. rewrite compare_rank.
  destruct (nan x || nan y); simpl; [reflexivity|].
  destruct (lex3 (rank x) (rank y)); reflexivity.
Qed.

Lemma SFleb_cmpb x y : SFleb x y = cmpb is_le x y.
Proof.
  unfold SFleb, cmpb. rewrite compare_rank.
  destruct (nan x || nan y); simpl; [reflexivity|].
  destruct (lex3 (rank x) (rank y)); reflexivity.
Qed.

Lemma SFeqb_cmpb x y : SFeqb x y = cmpb is_eq x y.
Proof.
  unfold SFeqb, cmpb. rewrite compare_rank.
  destruct (nan x || nan y); simpl; [reflexivity|].
  destruct (lex3 (rank x) (rank y)); reflexivity.
Qed.

Lemma rank_opp x : rank (SFopp x) = neg3 (rank x).
Proof.
  destruct x as [[]|[]| |[] m e]; simpl; try reflexivity.
  now rewrite Z.opp_involutive.
Qed.

Lemma nan_opp x : nan (SFopp x) = nan x.
Proof. now destruct x. Qed.

Lemma nan_abs x : nan (SFabs x) = nan x.
Proof. now destruct x. Qed.

Lemma rank_abs x :
  rank (SFabs x) = if is_lt (lex3 (rank x) (0, 0, 0)) then neg3 (rank x) else rank x.
Proof.
  destruct x as [[]|[]| |[] m e]; simpl; try reflexivity.
  now rewrite Z.opp_involutive.
Qed.

Lemma lex3_refl a : lex3 a a = Eq.
Proof. destruct a as [[a1 a2] a3]; simpl. now rewrite !Z.compare_refl. Qed.

(** *** Rounding keeps what is above the subnormal range away from zero *)

Lemma digits2_size m : digits2_pos m = Pos.size m.
Proof. induction m; simpl; congruence. Qed.

Lemma Zdigits2_log2 m : Zdigits2 (Zpos m) = Z.log2 (Zpos m) + 1.
Proof.
  unfold Zdigits2. rewrite digits2_size.
  destruct m; simpl; lia.
Qed.

Lemma Zdigits2_pos_log2 a : 0 < a -> Zdigits2 a = Z.log2 a + 1.
Proof. destruct a; try lia. intros _. apply Zdigits2_log2. Qed.

Lemma Zdigits2_mono a b : 0 < a -> a <= b -> Zdigits2 a <= Zdigits2 b.
Proof.
  intros Ha Hab. rewrite !Zdigits2_pos_log2 by lia.
  apply Z.add_le_mono_r, Z.log2_le_mono, Hab.
Qed.

Lemma shr_1_m mrs : 0 <= shr_m mrs -> shr_m (shr_1 mrs) = Z.shiftr (shr_m mrs) 1.
Proof.
  destruct mrs as [m r s]; simpl. intros Hm.
  rewrite <- Z.div2_spec.
  destruct m as [|[p|p|]|p]; try reflexivity; lia.
Qed.

Lemma shr_iter_m p : forall mrs, 0 <= shr_m mrs ->
  shr_m (iter_pos shr_1 p mrs) = Z.shiftr (shr_m mrs) (Zpos p).
Proof.
  induction p as [p IH|p IH|]; intros mrs Hm; simpl.
  - assert (H1 : 0 <= shr_m (shr_1 mrs)).
    { rewrite shr_1_m by assumption. apply Z.shiftr_nonneg, Hm. }
    assert (H2 : 0 <= shr_m (iter_pos shr_1 p (shr_1 mrs))).
    { rewrite IH by assumption. apply Z.shiftr_nonneg, H1. }
    rewrite (IH _ H2), (IH _ H1), shr_1_m by assumption.
    rewrite !Z.shiftr_shiftr by lia. f_equal. lia.
  - assert (H2 : 0 <= shr_m (iter_pos shr_1 p mrs)).
    { rewrite IH by assumption. apply Z.shiftr_nonneg, Hm. }
    rewrite (IH _ H2), (IH _ Hm).
    rewrite !Z.shiftr_shiftr by lia. f_equal. lia.
  - apply shr_1_m, Hm.
Qed.

Lemma shiftr_pos a n : 0 < a -> 0 <= n < Zdigits2 a -> 0 < Z.shiftr a n.
Proof.
  intros Ha Hn. rewrite Zdigits2_pos_log2 in Hn by assumption.
  rewrite Z.shiftr_div_pow2 by lia.
  apply Z.div_str_pos. split; [apply Z.pow_pos_nonneg; lia|].
  apply Z.le_trans with (2 ^ Z.log2 a).
  - apply Z.pow_le_mono_r; lia.
  - apply Z.log2_spec, Ha.
Qed.

Lemma shiftr_digits a n : 0 < a -> 0 <= n < Zdigits2 a ->
  Zdigits2 (Z.shiftr a n) + n = Zdigits2 a.
Proof.
  intros Ha Hn. pose proof (@shiftr_pos a n Ha Hn) as Hp.
  rewrite (@Zdigits2_pos_log2 _ Hp). rewrite Zdigits2_pos_log2 in Hn |- * by assumption.
  rewrite Z.log2_shiftr by assumption. lia.
Qed.

Lemma fexp_eq e : fexp prec emax e = Z.max (e - 53) (-1074).
Proof. reflexivity. Qed.

Lemma shr_record_of_loc_m m l : shr_m (shr_record_of_loc m l) = m.
Proof. destruct l as [|[]]; reflexivity. Qed.

(** Above the subnormal range a right shift to the format's exponent keeps the
    leading digits of the mantissa. *)
Lemma shr_fexp_pos m e l :
  0 < m -> -1074 < Zdigits2 m + e ->
  0 < shr_m (fst (shr_fexp prec emax m e l)) /\
  Zdigits2 (shr_m (fst (shr_fexp prec emax m e l))) + snd (shr_fexp prec emax m e l)
    = Zdigits2 m + e.
Proof.
  intros Hm Hd. unfold shr_fexp, shr. rewrite fexp_eq.
  assert (Hdig : 0 < Zdigits2 m) by (rewrite Zdigits2_pos_log2 by assumption;
    pose proof (Z.log2_nonneg m); lia).
  destruct (Z.max (Zdigits2 m + e - 53) (-1074) - e) as [|p|p] eqn:Hn; simpl;
    rewrite ?shr_record_of_loc_m; try (split; [assumption|reflexivity]).
  rewrite shr_iter_m by (rewrite shr_record_of_loc_m; lia).
  rewrite shr_record_of_loc_m.
  assert (Hp : 0 <= Zpos p < Zdigits2 m) by lia.
  split; [apply shiftr_pos; assumption|].
  pose proof (@shiftr_digits m (Zpos p) Hm Hp). lia.
Qed.

Lemma round_nearest_even_ge m l : m <= round_nearest_even m l.
Proof.
  destruct l as [|[]]; simpl; try lia. destruct (Z.even m); lia.
Qed.

Lemma binary_round_aux_nonzero s m e l :
  0 < m -> -1074 < Zdigits2 m + e ->
  nonzero (binary_round_aux prec emax s m e l) = true.
Proof.
  intros Hm Hd. unfold binary_round_aux.
  destruct (@shr_fexp_pos m e l Hm Hd) as [H1 H2].
  destruct (shr_fexp prec emax m e l) as [mrs' e']; simpl in H1, H2.
  set (m2 := round_nearest_even (shr_m mrs') (loc_of_shr_record mrs')).
  assert (Hle : shr_m mrs' <= m2) by apply round_nearest_even_ge.
  assert (Hm2 : 0 < m2) by lia.
  assert (Hd2 : -1074 < Zdigits2 m2 + e').
  { pose proof (@Zdigits2_mono _ _ H1 Hle). lia. }
  destruct (@shr_fexp_pos m2 e' loc_Exact Hm2 Hd2) as [H3 _].
  destruct (shr_fexp prec emax m2 e' loc_Exact) as [mrs'' e'']; simpl in H3.
  destruct (shr_m mrs'') as [|q|q]; try lia.
  destruct (e'' <=? emax - prec); reflexivity.
Qed.

Lemma iter_xO_digits m d : digits2_pos (Pos.iter xO m d) = (digits2_pos m + d)%positive.
Proof.
  induction d as [|d IH] using Pos.peano_ind.
  - simpl. lia.
  - rewrite Pos.iter_succ. simpl. rewrite IH. lia.
Qed.

Lemma shl_align_digits m e e' :
  Zdigits2 (Zpos (fst (shl_align m e e'))) + snd (shl_align m e e')
  = Zdigits2 (Zpos m) + e.
Proof.
  unfold shl_align, Zdigits2.
  destruct (e' - e) as [|p|p] eqn:He; cbn [fst snd]; try reflexivity.
  rewrite iter_xO_digits. lia.
Qed.

Lemma shl_align_snd_le m e e' : e' <= e -> snd (shl_align m e e') = e'.
Proof.
  unfold shl_align. destruct (e' - e) as [|p|p] eqn:He; cbn [fst snd]; lia.
Qed.

Lemma binary_round_nonzero s m e :
  -1074 < Zdigits2 (Zpos m) + e ->
  nonzero (binary_round prec emax s m e) = true.
Proof.
  intros Hd. unfold binary_round.
  pose proof (shl_align_digits m e (fexp prec emax (Zpos (digits2_pos m) + e))) as H.
  destruct (shl_align m e (fexp prec emax (Zpos (digits2_pos m) + e))) as [mz ez].
  cbn [fst snd] in H. apply binary_round_aux_nonzero; [reflexivity|]. lia.
Qed.

(** Adding a float that is not negative to a positive normal float never
    gives zero. *)
Lemma SFadd_pos_nonzero mx ex my ey :
  -1074 < Zdigits2 (Zpos my) + ey ->
  nonzero (SF64add (S754_finite false mx ex) (S754_finite false my ey)) = true.
Proof.
  intros Hd. unfold SF64add, SFadd. simpl cond_Zopp.
  set (ez := Z.min ex ey).
  pose proof (shl_align_digits my ey ez) as Hy.
  rewrite (shl_align_snd_le my) in Hy by (unfold ez; lia).
  set (a := fst (shl_align mx ex ez)) in *.
  set (b := fst (shl_align my ey ez)) in *.
  change (Zpos a + Zpos b) with (Zpos (a + b)). simpl binary_normalize.
  apply binary_round_nonzero.
  assert (Zdigits2 (Zpos b) <= Zdigits2 (Zpos (a + b))) by (apply Zdigits2_mono; lia).
  lia.
Qed.

(** *** Signs of results *)

Lemma binary_round_aux_nonneg m e l :
  nonneg (binary_round_aux prec emax false m e l) = true.
Proof.
  unfold binary_round_aux.
  destruct (shr_fexp prec emax m e l) as [mrs' e'].
  destruct (shr_fexp prec emax _ e' loc_Exact) as [mrs'' e''].
  destruct (shr_m mrs''); try reflexivity.
  destruct (e'' <=? emax - prec); reflexivity.
Qed.

Lemma SFmul_self_nonneg x : nonneg (SF64mul x x) = true.
Proof.
  destruct x as [[]|[]| |[] m e]; try reflexivity;
    exact (binary_round_aux_nonneg _ _ _).
Qed.

Lemma SFadd_nonneg x y :
  nonneg x = true -> nonneg y = true -> nonneg (SF64add x y) = true.
Proof.
  destruct x as [sx|sx| |sx mx ex], y as [sy|sy| |sy my ey]; simpl;
    try destruct sx; try destruct sy; simpl; try reflexivity; try discriminate.
  intros _ _. unfold binary_round.
  destruct (shl_align _ _ _) as [mz ez]. apply binary_round_aux_nonneg.
Qed.

Lemma SFsqrt_nonneg x : nonneg x = true -> nonneg (SF64sqrt x) = true.
Proof.
  destruct x as [s|s| |s m e]; simpl; try destruct s; simpl;
    try reflexivity; try discriminate.
  intros _. destruct (SFsqrt_core_binary prec emax (Z.pos m) e) as [[mz ez] lz].
  apply binary_round_aux_nonneg.
Qed.

Lemma SFsub_diag_div x : rank (SF64div (SF64sub x x) x) = (0, 0, 0).
Proof.
  destruct x as [[]|[]| |s m e]; try reflexivity.
  unfold SF64sub, SFsub.
  generalize (cond_Zopp s (Z.pos (fst (shl_align m e (IntDef.Z.min e e))))).
  intros a. assert (E : IntDef.Z.sub a a = 0) by apply Z.sub_diag.
  rewrite E. destruct s; reflexivity.
Qed.

Lemma nonneg_not_lt_zero x :
  nonneg x = true -> cmpb is_lt x (S754_zero false) = false.
Proof. destruct x as [[]|[]| |[] m e]; simpl; try reflexivity; discriminate. Qed.

Lemma nonzero_not_eq_zero x :
  nonzero x = true -> cmpb is_eq x (S754_zero false) = false.
Proof. destruct x as [[]|[]| |[] m e]; simpl; try reflexivity; discriminate. Qed.

(** A sum of a number that is not negative and a positive number above the
    subnormal range is not zero. *)
Lemma SFadd_eps_nonzero x my ey :
  nonneg x = true -> -1074 < Zdigits2 (Zpos my) + ey ->
  cmpb is_eq (SF64add x (S754_finite false my ey)) (S754_zero false) = false.
Proof.
  intros Hx Hd.
  destruct x as [[]|[]| |[] m e]; try reflexivity; try discriminate.
  apply nonzero_not_eq_zero. apply SFadd_pos_nonzero. exact Hd.
Qed.

End SFFacts.

Module FloatFacts.
Import SF SFFacts.
Local Open Scope float_scope.

Lemma Prim2SF_zero : Prim2SF 0 = S754_zero false.
Proof. reflexivity. Qed.

Lemma is_nan_SF x : is_nan x = nan (Prim2SF x).
Proof.
  unfold is_nan. rewrite eqb_spec, SFeqb_cmpb. unfold cmpb.
  rewrite lex3_refl, orb_diag. simpl. now rewrite andb_true_r, negb_involutive.
Qed.

(** Float comparisons become comparisons of integer triples. *)
Ltac to_sf :=
  unfold PyFloat.gt, PyFloat.lt, is_nan;
  rewrite ?ltb_spec, ?leb_spec, ?eqb_spec;
  rewrite ?opp_spec, ?abs_spec, ?Prim2SF_zero;
  rewrite ?SFltb_cmpb, ?SFleb_cmpb, ?SFeqb_cmpb;
  unfold cmpb;
  rewrite ?rank_opp, ?nan_opp, ?rank_abs, ?nan_abs.

Ltac sf_solve :=
  repeat match goal with
         | |- context [Prim2SF ?x] => generalize (Prim2SF x); intro
         end;
  cbn [rank nan];
  repeat match goal with
         | |- context [nan ?X] => destruct (nan X)
         end;
  repeat match goal with
         | |- context [rank ?X] => generalize (rank X); intros [[? ?] ?]
         end;
  repeat (cbn [lex3 neg3 is_lt is_le is_eq negb orb andb];
          match goal with
          | |- context [(?a ?= ?b)%Z] => destruct (Z.compare_spec a b)
          end);
  cbn [lex3 neg3 is_lt is_le is_eq negb orb andb];
  intros; repeat split; try congruence; try lia.

Lemma ltb_leb x y : (x <? y) = true -> (x <=? y) = true.
Proof. to_sf. sf_solve. Qed.

Lemma ltb_not_nan x y : (x <? y) = true -> is_nan x = false /\ is_nan y = false.
Proof. to_sf. sf_solve. Qed.

Lemma leb_total x y :
  is_nan x = false -> is_nan y = false -> (x <? y) = false -> (y <=? x) = true.
Proof. to_sf. sf_solve. Qed.

Lemma leb_refl x : is_nan x = false -> (x <=? x) = true.
Proof. to_sf. sf_solve. Qed.

Lemma leb_trans x y z : (x <=? y) = true -> (y <=? z) = true -> (x <=? z) = true.
Proof. to_sf. sf_solve. Qed.

Lemma gt_zero_eqb x : (0 <? x) = true -> (x =? 0) = false.
Proof. to_sf. sf_solve. Qed.

(** With a threshold that is not negative, no change is both above the
    threshold and below its opposite. *)
Lemma above_below_exclusive t c :
  (0 <=? t) = true -> (t <? c) = true -> (c <? - t) = true -> False.
Proof. to_sf. sf_solve. Qed.

Lemma within_threshold t c :
  (abs c <=? t) = true -> (t <? c) = false /\ (c <? - t) = false.
Proof. to_sf. sf_solve. Qed.

End FloatFacts.

(** * Facts about [**] and [/] *)

Module PowFacts.
Import SF SFFacts FloatFacts.
Local Open Scope float_scope.

Lemma is_nan_true x : is_nan x = true -> Prim2SF x = S754_nan.
Proof. rewrite is_nan_SF. now destruct (Prim2SF x). Qed.

Lemma mul_nonneg x : nonneg (Prim2SF (x * x)) = true.
Proof. rewrite mul_spec. apply SFmul_self_nonneg. Qed.

Lemma add_nonneg x y :
  nonneg (Prim2SF x) = true -> nonneg (Prim2SF y) = true ->
  nonneg (Prim2SF (x + y)) = true.
Proof. rewrite add_spec. apply SFadd_nonneg. Qed.

Lemma sqrt_nonneg x :
  nonneg (Prim2SF x) = true -> nonneg (Prim2SF (sqrt x)) = true.
Proof. rewrite sqrt_spec. apply SFsqrt_nonneg. Qed.

(** A number has no sign when it is left alone by [abs]. *)
Lemma abs_fixed_nonneg x : abs x = x -> nonneg (Prim2SF x) = true.
Proof. intros <-. rewrite abs_spec. now destruct (Prim2SF x). Qed.

Lemma nonneg_abs_fixed x : nonneg (Prim2SF x) = true -> abs x = x.
Proof.
  intros H. apply Prim2SF_inj. rewrite abs_spec.
  destruct (Prim2SF x) as [[]|[]| |[] m e]; try reflexivity; discriminate.
Qed.

Lemma positive_nonneg x : (0 <? x) = true -> nonneg (Prim2SF x) = true.
Proof.
  rewrite ltb_spec, Prim2SF_zero.
  destruct (Prim2SF x) as [[]|[]| |[] m e]; try reflexivity; discriminate.
Qed.

Lemma nonneg_positive x :
  nonneg (Prim2SF x) = true -> is_nan x = false -> (x =? 0) = false ->
  (0 <? x) = true.
Proof.
  rewrite is_nan_SF, eqb_spec, ltb_spec, Prim2SF_zero.
  destruct (Prim2SF x) as [[]|[]| |[] m e]; try reflexivity; discriminate.
Qed.

Lemma nonneg_ltb_zero x : nonneg (Prim2SF x) = true -> (x <? 0) = false.
Proof.
  intros H. rewrite ltb_spec, SFltb_cmpb, Prim2SF_zero.
  now apply nonneg_not_lt_zero.
Qed.

(** The base [float_pow] hands to [pow] for an even exponent is positive. *)
Lemma positive_base x :
  is_nan x = false -> (x =? 0) = false ->
  (0 <? (if x <? 0 then - x else x)) = true.
Proof.
  destruct (x <? 0) eqn:E; revert E; to_sf; sf_solve.
Qed.

Lemma positive_base_abs x :
  is_nan x = false -> (x =? 0) = false -> (if x <? 0 then - x else x) = abs x.
Proof.
  intros Hn Hz. apply Prim2SF_inj. revert Hn Hz.
  destruct (x <? 0) eqn:E; revert E;
    rewrite ?opp_spec, abs_spec, is_nan_SF, eqb_spec, ltb_spec, Prim2SF_zero;
    destruct (Prim2SF x) as [[]|[]| |[] m e]; try reflexivity; discriminate.
Qed.

Section Pow.
Context {M : C.Libm}.

(** What [pow] returns for a positive base, when Python lets it through, has
    no sign; and Python reports nothing but an overflow. *)
Lemma libm_pow_nonneg x y r :
  (0 <? x) = true -> PyFloat.libm_pow x y = Ok r -> nonneg (Prim2SF r) = true.
Proof.
  intros Hx. unfold PyFloat.libm_pow.
  destruct (C.pow_errno x y) as [[]|];
    repeat match goal with
           | |- context [if ?c then _ else _] => destruct c
           end; try discriminate;
    intros [= <-]; apply abs_fixed_nonneg, C.pow_sign, Hx.
Qed.

Lemma libm_pow_raise x y e :
  (0 <? x) = true -> PyFloat.libm_pow x y = Raise e -> e = OverflowError.
Proof.
  intros Hx. unfold PyFloat.libm_pow.
  pose proof (@C.pow_range _ x y Hx) as Hr.
  destruct (C.pow_errno x y) as [[]|]; [| congruence |];
    repeat match goal with
           | |- context [if ?c then _ else _] => destruct c
           end; try discriminate; now intros [= <-].
Qed.

(** [Python reports an overflow] for a positive base, spelled out. *)
Lemma libm_pow_raises x y :
  (0 <? x) = true ->
  ((exists e, PyFloat.libm_pow x y = Raise e) <-> range_error x y = true).
Proof.
  intros Hx. unfold PyFloat.libm_pow, range_error.
  pose proof (@C.pow_range _ x y Hx) as Hr.
  destruct (C.pow_errno x y) as [[]|]; [| congruence |].
  - destruct (C.pow x y =? 0); simpl; split; intros H;
      try discriminate; try reflexivity;
      [destruct H as [e H]; discriminate|now exists OverflowError].
  - destruct (is_infinity (C.pow x y)); simpl; split; intros H;
      try discriminate; try reflexivity;
      [now exists OverflowError|destruct H as [e H]; discriminate].
Qed.

Lemma pow2_raise x e : PyFloat.pow2 x = Raise e -> e = OverflowError.
Proof.
  unfold PyFloat.pow2.
  destruct (is_nan x) eqn:Hn; [discriminate|].
  destruct (is_infinity x); [discriminate|].
  destruct (x =? 0) eqn:Hz; [discriminate|].
  destruct ((if x <? 0 then - x else x) =? 1); [discriminate|].
  apply libm_pow_raise, positive_base; assumption.
Qed.

Lemma pow2_nonneg x y : PyFloat.pow2 x = Ok y -> nonneg (Prim2SF y) = true.
Proof.
  unfold PyFloat.pow2.
  destruct (is_nan x) eqn:Hn.
  { intros [= <-]. now rewrite (is_nan_true _ Hn). }
  destruct (is_infinity x).
  { intros [= <-]. rewrite abs_spec. now destruct (Prim2SF x). }
  destruct (x =? 0) eqn:Hz; [now intros [= <-]|].
  destruct ((if x <? 0 then - x else x) =? 1); [now intros [= <-]|].
  apply libm_pow_nonneg, positive_base; assumption.
Qed.

(** [v ** 2] raises exactly when [v] is finite, neither 0 nor 1 nor -1, and
    [pow] overflows on its absolute value. *)
Lemma pow2_raises x :
  (exists e, PyFloat.pow2 x = Raise e) <->
  is_nan x = false /\ is_infinity x = false /\ (x =? 0) = false /\
  (abs x =? 1) = false /\ range_error (abs x) 2 = true.
Proof.
  unfold PyFloat.pow2.
  destruct (is_nan x) eqn:Hn.
  { split; [now intros [e [=]]|intros (? & _); discriminate]. }
  destruct (is_infinity x).
  { split; [now intros [e [=]]|intros (_ & ? & _); discriminate]. }
  destruct (x =? 0) eqn:Hz.
  { split; [now intros [e [=]]|intros (_ & _ & ? & _); discriminate]. }
  rewrite (positive_base_abs _ Hn Hz).
  destruct (abs x =? 1).
  { split; [now intros [e [=]]|intros (_ & _ & _ & ? & _); discriminate]. }
  rewrite libm_pow_raises.
  - tauto.
  - rewrite <- (positive_base_abs _ Hn Hz). now apply positive_base.
Qed.

Lemma pow_half_raise x e :
  nonneg (Prim2SF x) = true -> PyFloat.pow_half x = Raise e -> e = OverflowError.
Proof.
  intros Hx. unfold PyFloat.pow_half. rewrite (nonneg_ltb_zero _ Hx).
  destruct (is_nan x) eqn:Hn; [discriminate|].
  destruct (is_infinity x); [discriminate|].
  destruct (x =? 0) eqn:Hz; [discriminate|].
  destruct (x =? 1); [discriminate|].
  apply libm_pow_raise, nonneg_positive; assumption.
Qed.

Lemma pow_half_nonneg x y :
  nonneg (Prim2SF x) = true -> PyFloat.pow_half x = Ok y ->
  nonneg (Prim2SF y) = true.
Proof.
  intros Hx. unfold PyFloat.pow_half. rewrite (nonneg_ltb_zero _ Hx).
  destruct (is_nan x) eqn:Hn.
  { intros [= <-]. now rewrite (is_nan_true _ Hn). }
  destruct (is_infinity x).
  { intros [= <-]. rewrite abs_spec. now destruct (Prim2SF x). }
  destruct (x =? 0) eqn:Hz; [now intros [= <-]|].
  destruct (x =? 1); [now intros [= <-]|].
  apply libm_pow_nonneg, nonneg_positive; assumption.
Qed.

(** [s ** 0.5], for [s] without a sign, raises exactly when [s] is finite,
    neither 0 nor 1, and [pow] overflows on it. *)
Lemma pow_half_raises x :
  nonneg (Prim2SF x) = true ->
  ((exists e, PyFloat.pow_half x = Raise e) <->
   is_nan x = false /\ is_infinity x = false /\ (x =? 0) = false /\
   (x =? 1) = false /\ range_error x 0.5 = true).
Proof.
  intros Hx. unfold PyFloat.pow_half. rewrite (nonneg_ltb_zero _ Hx).
  destruct (is_nan x) eqn:Hn.
  { split; [now intros [e [=]]|intros (? & _); discriminate]. }
  destruct (is_infinity x).
  { split; [now intros [e [=]]|intros (_ & ? & _); discriminate]. }
  destruct (x =? 0) eqn:Hz.
  { split; [now intros [e [=]]|intros (_ & _ & ? & _); discriminate]. }
  destruct (x =? 1).
  { split; [now intros [e [=]]|intros (_ & _ & _ & ? & _); discriminate]. }
  rewrite libm_pow_raises by (now apply nonneg_positive). tauto.
Qed.

End Pow.

(** The divisor of the significance is never zero. *)
Lemma add_eps_not_zero x :
  nonneg (Prim2SF x) = true -> (x + PyFloat.f1em10 =? 0) = false.
Proof.
  intros Hx. rewrite eqb_spec, add_spec, SFeqb_cmpb, Prim2SF_zero.
  change (Prim2SF PyFloat.f1em10) with (S754_finite false 7737125245533627 (-86)).
  apply SFadd_eps_nonzero; [assumption|reflexivity].
Qed.

Lemma truediv_ok x y : (y =? 0) = false -> PyFloat.truediv x y = Ok (x / y).
Proof. unfold PyFloat.truediv. now intros ->. Qed.

End PowFacts.

(** * A C library for the examples *)

Module SampleLibm.
Import SF SFFacts FloatFacts PowFacts.
Local Open Scope float_scope.

(** A [pow] that is correctly rounded at the exponents 2 and 0.5, the two the
    script uses; at any other exponent it answers 1, which nothing looks
    at. *)
Definition rounded_pow (x y : float) : float :=
  if y =? 2 then x * x else if y =? 0.5 then sqrt x else 1.

(** [errno] as glibc sets it: [ERANGE] for an overflow and for an underflow
    to zero. *)
Definition rounded_pow_errno (x y : float) : option C.errno :=
  if is_infinity (rounded_pow x y) || (rounded_pow x y =? 0)
  then Some C.ERANGE else None.

Lemma rounded_pow_sign (x y : float) :
  (0 <? x) = true -> abs (rounded_pow x y) = rounded_pow x y.
Proof.
  intros Hx. unfold rounded_pow. apply nonneg_abs_fixed.
  destruct (y =? 2); [apply mul_nonneg|].
  destruct (y =? 0.5); [|reflexivity].
  apply sqrt_nonneg, positive_nonneg, Hx.
Qed.

Lemma rounded_pow_range (x y : float) :
  (0 <? x) = true -> rounded_pow_errno x y <> Some C.EDOM.
Proof.
  intros _. unfold rounded_pow_errno.
  destruct (is_infinity _ || _); discriminate.
Qed.

Definition libm : C.Libm :=
  {| C.pow := rounded_pow;
     C.pow_errno := rounded_pow_errno;
     C.pow_sign := rounded_pow_sign;
     C.pow_range := rounded_pow_range |}.

End SampleLibm.

(** * The loop body of the detector *)

Module CompareFacts.
Import SF SFFacts FloatFacts PowFacts.
Local Open Scope float_scope.

Section Compare.
Context {M : C.Libm}.

Lemma cv_of_ok std perf : cv_of std perf = Ok (cv_value std perf).
Proof.
  unfold cv_of, cv_value, PyFloat.gt. destruct (0 <? perf) eqn:H; [|reflexivity].
  apply truediv_ok, gt_zero_eqb, H.
Qed.

(** With a baseline that is not zero, no division of [compare] raises: what
    is left is the two squares and the square root. *)
Lemma compare_unfold t b c :
  (average_time_us b =? 0) = false ->
  compare t b c =
  (baseline_sq <- PyFloat.pow2 (cv_value (std_deviation_us b) (average_time_us b)) ;;
   current_sq <- PyFloat.pow2 (cv_value (std_deviation_us c) (average_time_us c)) ;;
   combined_variance <- PyFloat.pow_half (baseline_sq + current_sq) ;;
   Ok (Some (regression_result t b c combined_variance))).
Proof.
  intros Hb. unfold compare. rewrite Hb, (truediv_ok _ _ Hb), !cv_of_ok.
  cbn [bind].
  destruct (PyFloat.pow2 (cv_value (std_deviation_us b) _)) as [bsq|] eqn:Eb;
    [|reflexivity].
  destruct (PyFloat.pow2 (cv_value (std_deviation_us c) _)) as [csq|] eqn:Ec;
    [|reflexivity].
  cbn [bind].
  assert (Hsum : nonneg (Prim2SF (bsq + csq)) = true).
  { apply add_nonneg; eapply pow2_nonneg; eassumption. }
  destruct (PyFloat.pow_half (bsq + csq)) as [comb|] eqn:Eh; [|reflexivity].
  cbn [bind].
  rewrite truediv_ok by (apply add_eps_not_zero; eapply pow_half_nonneg; eassumption).
  cbn [bind]. rewrite truediv_ok by reflexivity. reflexivity.
Qed.

Lemma compare_zero t b c :
  (average_time_us b =? 0) = true -> compare t b c = Ok None.
Proof. intros Hb. unfold compare. now rewrite Hb. Qed.

Lemma compare_raise t b c e : compare t b c = Raise e -> e = OverflowError.
Proof.
  destruct (average_time_us b =? 0) eqn:Hb.
  { rewrite (compare_zero _ _ _ Hb). discriminate. }
  rewrite (compare_unfold _ _ _ Hb).
  destruct (PyFloat.pow2 (cv_value (std_deviation_us b) _)) as [bsq|e1] eqn:Eb;
    [|intros [= <-]; exact (pow2_raise _ _ Eb)].
  destruct (PyFloat.pow2 (cv_value (std_deviation_us c) _)) as [csq|e2] eqn:Ec;
    [|intros [= <-]; exact (pow2_raise _ _ Ec)].
  cbn [bind].
  destruct (PyFloat.pow_half (bsq + csq)) as [comb|e3] eqn:Eh; [discriminate|].
  intros [= <-]. apply (pow_half_raise (bsq + csq)); [|assumption].
  apply add_nonneg; eapply pow2_nonneg; eassumption.
Qed.

(** What a produced record holds: the three powers returned, and the last
    one has no sign. *)
Lemma compare_some t b c r :
  compare t b c = Ok (Some r) ->
  (average_time_us b =? 0) = false /\
  exists baseline_sq current_sq combined,
    PyFloat.pow2 (cv_value (std_deviation_us b) (average_time_us b))
    = Ok baseline_sq /\
    PyFloat.pow2 (cv_value (std_deviation_us c) (average_time_us c))
    = Ok current_sq /\
    PyFloat.pow_half (baseline_sq + current_sq) = Ok combined /\
    nonneg (Prim2SF combined) = true /\
    r = regression_result t b c combined.
Proof.
  destruct (average_time_us b =? 0) eqn:Hb.
  { rewrite (compare_zero _ _ _ Hb). discriminate. }
  rewrite (compare_unfold _ _ _ Hb). intros H. split; [reflexivity|].
  destruct (PyFloat.pow2 (cv_value (std_deviation_us b) _)) as [bsq|e1] eqn:Eb;
    [|discriminate].
  destruct (PyFloat.pow2 (cv_value (std_deviation_us c) _)) as [csq|e2] eqn:Ec;
    [|discriminate].
  cbn [bind] in H.
  destruct (PyFloat.pow_half (bsq + csq)) as [comb|e3] eqn:Eh; [|discriminate].
  cbn [bind] in H. injection H as <-.
  exists bsq, csq, comb. repeat split; try assumption.
  apply (pow_half_nonneg (bsq + csq)); [|assumption].
  apply add_nonneg; eapply pow2_nonneg; eassumption.
Qed.

(** With a baseline that is not zero, [compare] raises exactly when one of
    its powers does. *)
Lemma compare_raises t b c :
  (exists e, compare t b c = Raise e) <->
  (average_time_us b =? 0) = false /\ power_overflows b c = true.
Proof.
  destruct (average_time_us b =? 0) eqn:Hb.
  { rewrite (compare_zero _ _ _ Hb).
    split; [intros [e H]; discriminate|intros [H _]; discriminate]. }
  rewrite (compare_unfold _ _ _ Hb). unfold power_overflows.
  destruct (PyFloat.pow2 (cv_value (std_deviation_us b) _)) as [bsq|e1];
    [|split; [tauto|now exists e1]].
  destruct (PyFloat.pow2 (cv_value (std_deviation_us c) _)) as [csq|e2];
    [|split; [tauto|now exists e2]].
  cbn [bind].
  destruct (PyFloat.pow_half (bsq + csq)) as [comb|e3];
    [|split; [tauto|now exists e3]].
  cbn [bind]. split; [intros [e H]; discriminate|intros [_ H]; discriminate].
Qed.

End Compare.

Lemma min_le a b : is_nan a = false -> (PyFloat.min a b <=? a) = true.
Proof.
  intros Ha. unfold PyFloat.min. destruct (b <? a) eqn:H.
  - now apply ltb_leb.
  - now apply leb_refl.
Qed.

Lemma no_change_neutral t x :
  (0 <=? t) = true ->
  (t <? (x - x) / x) = false /\ ((x - x) / x <? - t) = false.
Proof.
  rewrite !ltb_spec, leb_spec, opp_spec, div_spec, sub_spec, Prim2SF_zero.
  rewrite !SFltb_cmpb, SFleb_cmpb. unfold cmpb.
  rewrite rank_opp, nan_opp, SFsub_diag_div.
  generalize (nan (SF64div (SF64sub (Prim2SF x) (Prim2SF x)) (Prim2SF x))).
  intros n. sf_solve.
Qed.

End CompareFacts.

(** * [list.sort] *)

Module SortFacts.
Import FloatFacts.
Local Open Scope float_scope.

Section Sort.
Variable A : Type.
Variable key : A -> float.

Lemma insert_perm x l : Permutation (insert key x l) (x :: l).
Proof.
  induction l as [|y l IH]; simpl; [reflexivity|].
  destruct (PyFloat.lt (key y) (key x)); [|reflexivity].
  rewrite IH. apply perm_swap.
Qed.

Lemma sort_ascending_perm l : Permutation (sort_ascending key l) l.
Proof.
  induction l as [|x l IH]; simpl; [reflexivity|].
  rewrite insert_perm. now constructor.
Qed.

Lemma list_sort_perm reverse l : Permutation (list_sort key reverse l) l.
Proof.
  unfold list_sort. destruct reverse; [|apply sort_ascending_perm].
  rewrite <- Permutation_rev, sort_ascending_perm. symmetry. apply Permutation_rev.
Qed.

Lemma list_sort_Forall (P : A -> Prop) reverse l :
  Forall P l -> Forall P (list_sort key reverse l).
Proof.
  intros H. eapply Permutation_Forall; [|exact H].
  symmetry. apply list_sort_perm.
Qed.

Lemma insert_sorted x l :
  comparable key x -> Forall (comparable key) l ->
  StronglySorted (key_le key) l -> StronglySorted (key_le key) (insert key x l).
Proof.
  intros Hx Hl Hs. induction Hs as [|y l Hs IH Hy]; simpl.
  - repeat constructor.
  - inversion Hl as [|? ? Hcy Hcl]; subst.
    destruct (PyFloat.lt (key y) (key x)) eqn:Hlt.
    + constructor; [now apply IH|].
      eapply Permutation_Forall; [symmetry; apply insert_perm|].
      constructor; [|assumption]. now apply ltb_leb.
    + assert (Hxy : key_le key x y) by now apply leb_total.
      constructor; [now constructor|].
      constructor; [assumption|].
      eapply Forall_impl; [|exact Hy]. intros z Hz.
      exact (leb_trans _ _ _ Hxy Hz).
Qed.

Lemma sort_ascending_sorted l :
  Forall (comparable key) l -> StronglySorted (key_le key) (sort_ascending key l).
Proof.
  induction l as [|x l IH]; intros Hl; simpl; [constructor|].
  inversion Hl; subst. apply insert_sorted; auto.
  eapply Permutation_Forall; [symmetry; apply sort_ascending_perm|assumption].
Qed.

Lemma sorted_snoc (R : A -> A -> Prop) l x :
  StronglySorted R l -> Forall (fun y => R y x) l -> StronglySorted R (l ++ [x]).
Proof.
  induction 1 as [|y l Hs IH Hy]; intros Hx; simpl.
  - repeat constructor.
  - inversion Hx; subst. constructor; [now apply IH|].
    apply Forall_app. split; [assumption|now constructor].
Qed.

Lemma sorted_rev l : StronglySorted (key_le key) l -> StronglySorted (key_ge key) (rev l).
Proof.
  induction 1 as [|y l Hs IH Hy]; simpl; [constructor|].
  apply sorted_snoc; [assumption|]. now apply Forall_rev.
Qed.

(** On keys that are not NaN the sort orders the list, upwards or, with
    [reverse=True], downwards. *)
Lemma list_sort_sorted l :
  Forall (comparable key) l ->
  StronglySorted (key_ge key) (list_sort key true l) /\
  StronglySorted (key_le key) (list_sort key false l).
Proof.
  intros Hl. split; simpl.
  - apply sorted_rev, sort_ascending_sorted. now apply Forall_rev.
  - now apply sort_ascending_sorted.
Qed.

End Sort.
End SortFacts.

(** * The detector *)

Module DetectFacts.
Import FloatFacts PowFacts CompareFacts SortFacts.
Local Open Scope float_scope.

Section Detect.
Context {B : Builtins}.
Context {M : C.Libm}.
Variable t : float.

Lemma classify_kept acc r : from_compare t r -> kept t acc -> kept t (classify acc r).
Proof.
  intros Hr [Hregs Himps]. unfold classify.
  destruct (is_regression r && PyFloat.gt (confidence_level r) PyFloat.f0_5) eqn:E1.
  { apply andb_true_iff in E1. split; simpl; [|assumption].
    apply Forall_app. split; [assumption|]. repeat constructor; tauto. }
  destruct (is_improvement r && PyFloat.gt (confidence_level r) PyFloat.f0_5) eqn:E2.
  { apply andb_true_iff in E2. split; simpl; [assumption|].
    apply Forall_app. split; [assumption|]. repeat constructor; tauto. }
  now split.
Qed.

Lemma detect_step_kept lookup acc c acc' :
  detect_step t lookup acc c = Ok acc' -> kept t acc -> kept t acc'.
Proof.
  unfold detect_step. destruct (dict_get (key_of c) lookup) as [b|].
  - destruct (compare t b c) as [[r|]|e] eqn:E; cbn [bind]; try discriminate.
    + intros [= <-] H. apply classify_kept; [now exists b, c|assumption].
    + now intros [= <-].
  - now intros [= <-].
Qed.

Lemma detect_step_raise lookup acc c e :
  detect_step t lookup acc c = Raise e -> e = OverflowError.
Proof.
  unfold detect_step. destruct (dict_get (key_of c) lookup) as [b|]; [|discriminate].
  destruct (compare t b c) as [[r|]|e'] eqn:E; cbn [bind]; try discriminate.
  intros [= <-]. exact (compare_raise _ _ _ _ E).
Qed.

Lemma detect_loop_kept lookup current : forall acc acc',
  detect_loop t lookup current acc = Ok acc' -> kept t acc -> kept t acc'.
Proof.
  induction current as [|c rest IH]; intros acc acc'; simpl.
  - now intros [= <-].
  - destruct (detect_step t lookup acc c) as [acc1|e] eqn:E; cbn [bind]; [|discriminate].
    intros H Hacc. eapply IH; [exact H|]. eapply detect_step_kept; eassumption.
Qed.

Lemma detect_loop_raise lookup current : forall acc e,
  detect_loop t lookup current acc = Raise e -> e = OverflowError.
Proof.
  induction current as [|c rest IH]; intros acc e; simpl; [discriminate|].
  destruct (detect_step t lookup acc c) as [acc1|e'] eqn:E; cbn [bind].
  - apply IH.
  - intros [= <-]. exact (detect_step_raise _ _ _ _ E).
Qed.

Lemma detect_regressions_raise baseline current e :
  detect_regressions t baseline current = Raise e -> e = OverflowError.
Proof.
  unfold detect_regressions.
  destruct (detect_loop t (baseline_lookup baseline) current ([], [])) as [found|e']
    eqn:E; cbn [bind]; [discriminate|].
  intros [= <-]. exact (detect_loop_raise _ _ _ _ E).
Qed.

Lemma detect_regressions_kept baseline current regs imps :
  detect_regressions t baseline current = Ok (regs, imps) ->
  exists found,
    kept t found /\
    regs = list_sort change_percentage true (fst found) /\
    imps = list_sort change_percentage false (snd found).
Proof.
  unfold detect_regressions.
  destruct (detect_loop t (baseline_lookup baseline) current ([], [])) as [found|e']
    eqn:E; cbn [bind]; [|discriminate].
  intros [= <- <-]. exists found. split; [|split; reflexivity].
  eapply detect_loop_kept; [exact E|]. split; constructor.
Qed.

(** The loop raises exactly when the comparison of some current result with
    its baseline record does. *)
Lemma detect_loop_raises lookup current : forall acc,
  (exists e, detect_loop t lookup current acc = Raise e) <->
  exists c b, In c current /\ dict_get (key_of c) lookup = Some b /\
              exists e, compare t b c = Raise e.
Proof.
  induction current as [|c0 rest IH]; intros acc; simpl.
  - split; [intros [e H]; discriminate|intros (c & b & [] & _)].
  - unfold detect_step.
    destruct (dict_get (key_of c0) lookup) as [b0|] eqn:Hb; cbn [bind].
    + destruct (compare t b0 c0) as [o|e0] eqn:Hc; cbn [bind].
      * assert (Hstep : exists acc1,
                  match o with None => Ok acc | Some r => Ok (classify acc r) end
                  = Ok acc1) by (destruct o; eexists; reflexivity).
        destruct Hstep as [acc1 ->]. cbn [bind]. rewrite IH. split.
        -- intros (c & b & Hin & H). exists c, b. split; [now right|exact H].
        -- intros (c & b & [<- | Hin] & Hl & e & He).
           ++ rewrite Hb in Hl. injection Hl as <-. rewrite Hc in He. discriminate.
           ++ exists c, b. repeat split; try assumption. now exists e.
      * split; [|intros _; now exists e0].
        intros _. exists c0, b0. split; [now left|]. split; [assumption|].
        now exists e0.
    + rewrite IH. split.
      * intros (c & b & Hin & H). exists c, b. split; [now right|exact H].
      * intros (c & b & [<- | Hin] & Hl & He).
        -- rewrite Hb in Hl. discriminate.
        -- now exists c, b.
Qed.

Lemma detect_regressions_raises baseline current :
  (exists e, detect_regressions t baseline current = Raise e) <->
  exists c b, In c current /\
              dict_get (key_of c) (baseline_lookup baseline) = Some b /\
              (average_time_us b =? 0) = false /\ power_overflows b c = true.
Proof.
  transitivity (exists c b, In c current /\
                  dict_get (key_of c) (baseline_lookup baseline) = Some b /\
                  exists e, compare t b c = Raise e).
  - rewrite <- (detect_loop_raises (baseline_lookup baseline) current ([], [])).
    unfold detect_regressions.
    destruct (detect_loop t (baseline_lookup baseline) current ([], []))
      as [found|e]; cbn [bind].
    + split; intros [e H]; discriminate.
    + split; intros _; now exists e.
  - split; intros (c & b & Hin & Hl & H); exists c, b;
      (split; [assumption|split; [assumption|]]).
    + exact (proj1 (compare_raises t b c) H).
    + exact (proj2 (compare_raises t b c) H).
Qed.

Lemma from_compare_flags r :
  from_compare t r ->
  is_regression r = PyFloat.gt (change_percentage r) t /\
  is_improvement r = PyFloat.lt (change_percentage r) (- t) /\
  (baseline_performance r =? 0) = false.
Proof.
  intros (b & c & H).
  destruct (compare_some _ _ _ _ H) as (Hb & bsq & csq & comb & _ & _ & _ & _ & ->).
  repeat split; assumption.
Qed.

Lemma kept_regression_comparable r :
  kept_regression t r -> is_nan (change_percentage r) = false.
Proof.
  intros (Hr & Hreg & _). destruct (from_compare_flags _ Hr) as (E & _ & _).
  rewrite E in Hreg. exact (proj2 (ltb_not_nan _ _ Hreg)).
Qed.

Lemma kept_improvement_comparable r :
  kept_improvement t r -> is_nan (change_percentage r) = false.
Proof.
  intros (Hr & Himp & _). destruct (from_compare_flags _ Hr) as (_ & E & _).
  rewrite E in Himp. exact (proj1 (ltb_not_nan _ _ Himp)).
Qed.

End Detect.
End DetectFacts.

(** * The loader *)

Module LoaderFacts.
Import PyValue.

Section Entries.
Context {B : Builtins}.
Variable w : World.

Lemma py_int_raise v e :
  py_int v = Raise e -> e = ValueError \/ e = TypeError \/ e = OverflowError.
Proof.
  destruct v as [ |b|n|x|s|l|m]; simpl; try discriminate;
    try (intros [= <-]; tauto).
  - destruct (is_nan x); [intros [= <-]; tauto|].
    destruct (is_infinity x); [intros [= <-]; tauto|discriminate].
  - destruct (int_of_str s); [discriminate|intros [= <-]; tauto].
Qed.

Lemma py_float_raise v e :
  py_float v = Raise e -> e = ValueError \/ e = TypeError \/ e = OverflowError.
Proof.
  destruct v as [ |b|n|x|s|l|m]; simpl; try discriminate;
    try (intros [= <-]; tauto).
  - destruct (is_infinity (nearest_float n)); [intros [= <-]; tauto|discriminate].
  - destruct (float_of_str s); [discriminate|intros [= <-]; tauto].
Qed.

(** A conversion that fails was given a value the entry holds: the defaults
    convert. *)
Lemma py_int_field_raise members k e :
  py_int (field members k (JInt 0)) = Raise e ->
  exists v, dict_get k members = Some v /\ py_int v = Raise e.
Proof.
  unfold field. destruct (dict_get k members) as [v|]; [|discriminate].
  intros H. now exists v.
Qed.

Lemma py_float_field_raise members k d e :
  py_float d = Ok 0%float ->
  py_float (field members k d) = Raise e ->
  exists v, dict_get k members = Some v /\ py_float v = Raise e.
Proof.
  intros Hd. unfold field. destruct (dict_get k members) as [v|].
  - intros H. now exists v.
  - rewrite Hd. discriminate.
Qed.

Lemma py_float_default_int : py_float (JInt 0) = Ok 0%float.
Proof. reflexivity. Qed.

Lemma py_float_default_float : py_float (JFloat 0) = Ok 0%float.
Proof. reflexivity. Qed.

Lemma py_int_field2_raise members k1 k2 e :
  py_int (field members k1 (field members k2 (JInt 0))) = Raise e ->
  exists k v, (k = k1 \/ k = k2) /\ dict_get k members = Some v /\
              py_int v = Raise e.
Proof.
  unfold field at 1. destruct (dict_get k1 members) as [v|] eqn:E1.
  - intros H. exists k1, v. tauto.
  - intros H. destruct (py_int_field_raise _ _ _ H) as (v & Hv & Hr).
    exists k2, v. tauto.
Qed.

Lemma py_float_field2_raise members k1 k2 e :
  py_float (field members k1 (field members k2 (JInt 0))) = Raise e ->
  exists k v, (k = k1 \/ k = k2) /\ dict_get k members = Some v /\
              py_float v = Raise e.
Proof.
  unfold field at 1. destruct (dict_get k1 members) as [v|] eqn:E1.
  - intros H. exists k1, v. tauto.
  - intros H. destruct (py_float_field_raise _ _ _ _ py_float_default_int H) as (v & Hv & Hr).
    exists k2, v. tauto.
Qed.

Lemma parse_item_not_object item :
  is_object item = false -> parse_item w item = Raise AttributeError.
Proof. destruct item; try reflexivity. discriminate. Qed.

(** On an object only the eight conversions can fail. *)
Lemma parse_item_object members :
  parse_item w (JDict members) =
  (v_entity_count <- py_int (field members "entity_count" (JInt 0)) ;;
   v_average_time_us <-
     py_float (field members "real_time" (field members "average_time_us" (JInt 0))) ;;
   v_min_time_us <-
     py_float (field members "min_time" (field members "min_time_us" (JInt 0))) ;;
   v_max_time_us <-
     py_float (field members "max_time" (field members "max_time_us" (JInt 0))) ;;
   v_std_deviation_us <-
     py_float (field members "stddev" (field members "std_deviation_us" (JInt 0))) ;;
   v_entities_per_second <- py_float (field members "entities_per_second" (JInt 0)) ;;
   v_memory_usage <-
     py_int (field members "memory_usage" (field members "peak_memory_usage" (JInt 0))) ;;
   v_cache_hit_ratio <- py_float (field members "cache_hit_ratio" (JFloat 0)) ;;
   Ok {| test_name := field members "name" (field members "test_name" (JStr "Unknown"));
         category := field members "category" (JStr "Unknown");
         architecture :=
           field members "architecture"
             (field members "architecture_type" (JStr "Unknown"));
         entity_count := v_entity_count;
         average_time_us := v_average_time_us;
         min_time_us := v_min_time_us;
         max_time_us := v_max_time_us;
         std_deviation_us := v_std_deviation_us;
         entities_per_second := v_entities_per_second;
         memory_usage := v_memory_usage;
         cache_hit_ratio := v_cache_hit_ratio;
         timestamp := field members "timestamp" (JStr (clock w));
         platform := field members "platform" (JStr "unknown");
         build_config := field members "build_config" (JStr "unknown") |}).
Proof. reflexivity. Qed.

Ltac numeric_key := unfold numeric_keys; simpl; tauto.

(** When an object fails to parse, one of its own numeric fields failed to
    convert: an absent field never makes an entry fail. *)
Lemma parse_item_object_raise members e :
  parse_item w (JDict members) = Raise e ->
  exists k v, In k numeric_keys /\ dict_get k members = Some v /\
              (py_int v = Raise e \/ py_float v = Raise e).
Proof.
  rewrite parse_item_object.
  destruct (py_int (field members "entity_count" (JInt 0))) as [v1|e1] eqn:E1;
    cbn [bind].
  2:{ intros [= <-]. destruct (py_int_field_raise _ _ _ E1) as (v & Hv & Hr).
      exists "entity_count"%string, v. split; [numeric_key|tauto]. }
  destruct (py_float (field members "real_time" _)) as [v2|e2] eqn:E2; cbn [bind].
  2:{ intros [= <-]. destruct (py_float_field2_raise _ _ _ _ E2) as (k & v & [-> | ->] & Hv & Hr);
      eexists; exists v; (split; [|split; [exact Hv|tauto]]); numeric_key. }
  destruct (py_float (field members "min_time" _)) as [v3|e3] eqn:E3; cbn [bind].
  2:{ intros [= <-]. destruct (py_float_field2_raise _ _ _ _ E3) as (k & v & [-> | ->] & Hv & Hr);
      eexists; exists v; (split; [|split; [exact Hv|tauto]]); numeric_key. }
  destruct (py_float (field members "max_time" _)) as [v4|e4] eqn:E4; cbn [bind].
  2:{ intros [= <-]. destruct (py_float_field2_raise _ _ _ _ E4) as (k & v & [-> | ->] & Hv & Hr);
      eexists; exists v; (split; [|split; [exact Hv|tauto]]); numeric_key. }
  destruct (py_float (field members "stddev" _)) as [v5|e5] eqn:E5; cbn [bind].
  2:{ intros [= <-]. destruct (py_float_field2_raise _ _ _ _ E5) as (k & v & [-> | ->] & Hv & Hr);
      eexists; exists v; (split; [|split; [exact Hv|tauto]]); numeric_key. }
  destruct (py_float (field members "entities_per_second" _)) as [v6|e6] eqn:E6;
    cbn [bind].
  2:{ intros [= <-].
      destruct (py_float_field_raise _ _ _ _ py_float_default_int E6) as (v & Hv & Hr).
      exists "entities_per_second"%string, v. split; [numeric_key|tauto]. }
  destruct (py_int (field members "memory_usage" _)) as [v7|e7] eqn:E7; cbn [bind].
  2:{ intros [= <-]. destruct (py_int_field2_raise _ _ _ _ E7) as (k & v & [-> | ->] & Hv & Hr);
      eexists; exists v; (split; [|split; [exact Hv|tauto]]); numeric_key. }
  destruct (py_float (field members "cache_hit_ratio" _)) as [v8|e8] eqn:E8;
    cbn [bind]; [discriminate|].
  intros [= <-].
  destruct (py_float_field_raise _ _ _ _ py_float_default_float E8) as (v & Hv & Hr).
  exists "cache_hit_ratio"%string, v. split; [numeric_key|tauto].
Qed.

Lemma parse_item_raise item e :
  parse_item w item = Raise e ->
  (is_object item = false /\ e = AttributeError) \/
  (is_object item = true /\ (e = ValueError \/ e = TypeError \/ e = OverflowError)).
Proof.
  destruct (is_object item) eqn:Ho.
  - destruct item; try discriminate. intros H. right. split; [reflexivity|].
    destruct (parse_item_object_raise _ _ H) as (k & v & _ & _ & [Hr | Hr]).
    + exact (py_int_raise _ _ Hr).
    + exact (py_float_raise _ _ Hr).
  - rewrite (parse_item_not_object _ Ho). intros [= <-]. now left.
Qed.

(** What the inner [except] lets through. *)
Lemma escapes_true item :
  escapes w item = true ->
  parse_item w item = Raise AttributeError \/ parse_item w item = Raise OverflowError.
Proof.
  unfold escapes. destruct (parse_item w item) as [r|e] eqn:E; [discriminate|].
  destruct (parse_item_raise _ _ E) as [[_ ->] | [_ [-> | [-> | ->]]]];
    simpl; try discriminate; tauto.
Qed.

Lemma escapes_object members :
  escapes w (JDict members) = true ->
  parse_item w (JDict members) = Raise OverflowError.
Proof.
  intros H. destruct (escapes_true _ H) as [E | E]; [|assumption].
  destruct (parse_item_raise _ _ E) as [[Ho _] | [_ [? | [? | ?]]]]; discriminate.
Qed.

(** One turn of the loop. *)
Lemma load_item_ok results item r :
  parse_item w item = Ok r ->
  load_item w results item = ([], Ok (results ++ [r])).
Proof. intros E. unfold load_item. rewrite E. reflexivity. Qed.

Lemma load_item_raise results item e :
  parse_item w item = Raise e ->
  load_item w results item =
  if catches item_errors e then ([WarningFailedItem item e], Ok results)
  else ([], Raise e).
Proof. intros E. unfold load_item. rewrite E. reflexivity. Qed.

Lemma load_item_contained results item :
  escapes w item = false ->
  load_item w results item = (item_log w item, Ok (results ++ item_records w item)).
Proof.
  unfold escapes, item_log, item_records.
  destruct (parse_item w item) as [r|e] eqn:E; intros H.
  - apply load_item_ok, E.
  - rewrite (load_item_raise _ _ _ E), app_nil_r.
    destruct (catches item_errors e); [reflexivity|discriminate H].
Qed.

Lemma load_item_escapes results item e :
  parse_item w item = Raise e -> escapes w item = true ->
  load_item w results item = ([], Raise e).
Proof.
  intros E. unfold escapes. rewrite (load_item_raise _ _ _ E), E.
  destruct (catches item_errors e); [discriminate|reflexivity].
Qed.

(** The whole loop when nothing escapes: the warnings of the skipped entries
    and the records of the others, each in the order of the entries. *)
Lemma load_items_contained items : forall results,
  Forall (fun item => escapes w item = false) items ->
  load_items w items results =
  (flat_map (item_log w) items, Ok (results ++ flat_map (item_records w) items)).
Proof.
  induction items as [|item rest IH]; intros results H; simpl.
  - now rewrite app_nil_r.
  - inversion H as [|? ? Hi Hrest]; subst.
    rewrite (load_item_contained _ _ Hi). unfold io_bind.
    rewrite (IH _ Hrest). simpl. now rewrite <- app_assoc.
Qed.

Lemma load_items_raise items : forall results log e,
  load_items w items results = (log, Raise e) ->
  e = AttributeError \/ e = OverflowError.
Proof.
  induction items as [|item rest IH]; intros results log e; simpl; [discriminate|].
  destruct (escapes w item) eqn:Hesc.
  - destruct (escapes_true _ Hesc) as [E | E];
      rewrite (load_item_escapes results _ _ E Hesc); simpl;
      intros [= _ <-]; tauto.
  - rewrite (load_item_contained _ _ Hesc). unfold io_bind.
    destruct (load_items w rest _) as [log' [rs|e']] eqn:E; simpl; [discriminate|].
    intros [= _ <-]. exact (IH _ _ _ E).
Qed.

(** Every entry is loaded or skipped, never both. *)
Lemma loaded_or_skipped item :
  escapes w item = false ->
  (exists r, parse_item w item = Ok r /\ item_records w item = [r] /\
             item_log w item = [] /\ skipped w item = false) \/
  (exists e, parse_item w item = Raise e /\ item_records w item = [] /\
             item_log w item = [WarningFailedItem item e] /\ skipped w item = true).
Proof.
  unfold escapes, item_records, item_log, skipped.
  destruct (parse_item w item) as [r|e]; intros H.
  - left. now exists r.
  - right. exists e. destruct (catches item_errors e); [tauto|discriminate H].
Qed.

Lemma records_and_skips items :
  Forall (fun item => escapes w item = false) items ->
  (List.length (flat_map (item_records w) items)
   + List.length (filter (skipped w) items) = List.length items)%nat /\
  List.length (flat_map (item_log w) items) = List.length (filter (skipped w) items).
Proof.
  induction 1 as [|item rest Hi Hrest [IH1 IH2]]; simpl; [now split|].
  rewrite !length_app.
  destruct (loaded_or_skipped _ Hi) as [(r & _ & -> & -> & ->) | (e & _ & -> & -> & ->)];
    simpl; split; lia.
Qed.

Lemma item_records_In items r :
  In r (flat_map (item_records w) items) ->
  exists item, In item items /\ parse_item w item = Ok r.
Proof.
  rewrite in_flat_map. intros (item & Hin & Hr). exists item. split; [assumption|].
  unfold item_records in Hr. destruct (parse_item w item) as [r'|e]; [|destruct Hr].
  destruct Hr as [-> | []]. reflexivity.
Qed.

Lemma io_bind_lift_ok (A C : Type) (a : A) (k : A -> io C) :
  io_bind (lift (Ok a)) k = k a.
Proof. unfold io_bind, lift. simpl. now destruct (k a). Qed.

Lemma benchmark_data_of_object members :
  benchmark_data_of (JDict members) =
  Ok (match dict_get "benchmarks" members with
      | Some b => b
      | None =>
          match dict_get "results" members with
          | Some r => r
          | None => JList [JDict members]
          end
      end).
Proof.
  unfold benchmark_data_of, contains, subscript. cbn [bind].
  destruct (dict_get "benchmarks" members); [reflexivity|]. cbn [bind].
  destruct (dict_get "results" members); reflexivity.
Qed.

Lemma benchmark_data_of_raise data e :
  benchmark_data_of data = Raise e -> e = TypeError.
Proof.
  destruct data as [ |b|n|x|s|l|m]; try (now intros [= <-]).
  - unfold benchmark_data_of, contains, subscript. cbn [bind].
    destruct (is_substring "benchmarks" s); [now intros [= <-]|]. cbn [bind].
    destruct (is_substring "results" s); [now intros [= <-]|discriminate].
  - rewrite benchmark_data_of_object. discriminate.
Qed.

Lemma iterate_raise v e : iterate v = Raise e -> e = TypeError.
Proof. destruct v; try discriminate; now intros [= <-]. Qed.

Lemma load_document_shaped data items :
  array_shaped data items -> load_document w data = load_items w items [].
Proof.
  unfold load_document.
  intros [-> | [(m & -> & Hb) | (m & -> & Hb & Hr)]].
  - cbn [benchmark_data_of]. rewrite io_bind_lift_ok. cbn [iterate].
    now rewrite io_bind_lift_ok.
  - rewrite benchmark_data_of_object, Hb, io_bind_lift_ok. cbn [iterate].
    now rewrite io_bind_lift_ok.
  - rewrite benchmark_data_of_object, Hb, Hr, io_bind_lift_ok. cbn [iterate].
    now rewrite io_bind_lift_ok.
Qed.

(** What can leave the loader once the document is parsed. *)
Lemma load_document_raise data log e :
  load_document w data = (log, Raise e) ->
  e = TypeError \/ e = AttributeError \/ e = OverflowError.
Proof.
  unfold load_document.
  destruct (benchmark_data_of data) as [bd|e1] eqn:E1.
  2:{ intros [= _ <-]. left. exact (benchmark_data_of_raise _ _ E1). }
  rewrite io_bind_lift_ok.
  destruct (iterate bd) as [items|e2] eqn:E2.
  2:{ intros [= _ <-]. left. exact (iterate_raise _ _ E2). }
  rewrite io_bind_lift_ok. intros H. right. exact (load_items_raise _ _ _ _ H).
Qed.

Lemma load_results_missing file_path :
  fs w file_path = Missing ->
  load_results w file_path = ([ErrorLoading file_path FileNotFoundError], Ok []).
Proof. intros H. unfold load_results, json_load. now rewrite H. Qed.

Lemma load_results_malformed file_path :
  fs w file_path = Malformed ->
  load_results w file_path = ([ErrorLoading file_path JSONDecodeError], Ok []).
Proof. intros H. unfold load_results, json_load. now rewrite H. Qed.

Lemma load_results_unreadable file_path e :
  fs w file_path = Unreadable e ->
  load_results w file_path =
  if catches [FileNotFoundError; JSONDecodeError] e
  then ([ErrorLoading file_path e], Ok [])
  else ([], Raise e).
Proof. intros H. unfold load_results, json_load. now rewrite H. Qed.

Lemma load_results_document file_path data :
  fs w file_path = Document data ->
  load_results w file_path = load_document w data.
Proof.
  intros H. unfold load_results, json_load. rewrite H, io_bind_lift_ok.
  destruct (load_document w data) as [log [rs|e]] eqn:E; [reflexivity|].
  destruct (load_document_raise _ _ _ E) as [-> | [-> | ->]]; reflexivity.
Qed.

(** What [parse_item] puts in the time fields of a record. *)
Lemma parse_item_object_times members r :
  parse_item w (JDict members) = Ok r ->
  py_float (field members "real_time" (field members "average_time_us" (JInt 0)))
    = Ok (average_time_us r) /\
  py_float (field members "min_time" (field members "min_time_us" (JInt 0)))
    = Ok (min_time_us r) /\
  py_float (field members "max_time" (field members "max_time_us" (JInt 0)))
    = Ok (max_time_us r).
Proof.
  rewrite parse_item_object.
  destruct (py_int (field members "entity_count" _)); cbn [bind]; [|discriminate].
  destruct (py_float (field members "real_time" _)); cbn [bind]; [|discriminate].
  destruct (py_float (field members "min_time" _)); cbn [bind]; [|discriminate].
  destruct (py_float (field members "max_time" _)); cbn [bind]; [|discriminate].
  destruct (py_float (field members "stddev" _)); cbn [bind]; [|discriminate].
  destruct (py_float (field members "entities_per_second" _)); cbn [bind];
    [|discriminate].
  destruct (py_int (field members "memory_usage" _)); cbn [bind]; [|discriminate].
  destruct (py_float (field members "cache_hit_ratio" _)); cbn [bind];
    [|discriminate].
  intros [= <-]. repeat split.
Qed.

Lemma parse_item_ok_object item r :
  parse_item w item = Ok r -> exists members, item = JDict members.
Proof.
  destruct item as [ |b|n|x|s|l|m]; try discriminate. intros _. now exists m.
Qed.

(** An object without numeric fields is loaded with zeros. *)
Lemma parse_item_defaults members :
  (forall k, In k numeric_keys -> dict_get k members = None) ->
  exists r, parse_item w (JDict members) = Ok r /\
            entity_count r = 0%Z /\ average_time_us r = 0%float /\
            min_time_us r = 0%float /\ max_time_us r = 0%float /\
            std_deviation_us r = 0%float /\ memory_usage r = 0%Z.
Proof.
  intros H. rewrite parse_item_object. unfold field.
  repeat match goal with
         | |- context [dict_get ?k members] =>
             rewrite (H k) by numeric_key
         end.
  eexists. split; [reflexivity|]. repeat split.
Qed.

(** An object raises what its first failing conversion raises, and is parsed
    when none fails. *)
Lemma parse_item_first_failure members :
  match first_failure (conversion_failures members) with
  | Some e => parse_item w (JDict members) = Raise e
  | None => exists r, parse_item w (JDict members) = Ok r
  end.
Proof.
  rewrite parse_item_object. unfold conversion_failures.
  repeat match goal with
         | |- context [bind ?x _] =>
             destruct x; cbn [bind failure first_failure]; [|reflexivity]
         end.
  eexists. reflexivity.
Qed.

Lemma skipped_first_failure members :
  skipped w (JDict members) = true <->
  exists e, first_failure (conversion_failures members) = Some e /\
            (e = ValueError \/ e = TypeError).
Proof.
  pose proof (parse_item_first_failure members) as H. unfold skipped.
  destruct (first_failure (conversion_failures members)) as [e|].
  - rewrite H.
    destruct (parse_item_raise _ _ H) as [[Ho _] | [_ [-> | [-> | ->]]]];
      try discriminate; simpl; split; try discriminate; try tauto.
    + intros _. exists ValueError. tauto.
    + intros _. exists TypeError. tauto.
    + intros (e & [= <-] & [? | ?]); discriminate.
  - destruct H as [r ->]. split; [discriminate|now intros (e & ? & _)].
Qed.

Lemma load_items_ok items : forall results log rs,
  load_items w items results = (log, Ok rs) ->
  Forall (fun item => escapes w item = false) items.
Proof.
  induction items as [|item rest IH]; intros results log rs; simpl; [constructor|].
  destruct (escapes w item) eqn:Hesc.
  - destruct (escapes_true _ Hesc) as [E | E];
      rewrite (load_item_escapes results _ _ E Hesc); discriminate.
  - rewrite (load_item_contained _ _ Hesc). unfold io_bind.
    destruct (load_items w rest _) as [log' [rs'|e']] eqn:E; simpl; [|discriminate].
    intros _. constructor; [assumption|]. exact (IH _ _ _ E).
Qed.

Lemma object_escapes_only_on_overflow item :
  is_object item = true -> parse_item w item <> Raise OverflowError ->
  escapes w item = false.
Proof.
  intros Ho Hn. destruct (escapes w item) eqn:E; [|reflexivity].
  destruct item; try discriminate. destruct Hn. now apply escapes_object.
Qed.

End Entries.
End LoaderFacts.

(** * [run_analysis] and [main] *)

Module MainFacts.
Import PyValue LoaderFacts.

Lemma io_bind_ok (A C : Type) (c : io A) (k : A -> io C) log (b : C) :
  io_bind c k = (log, Ok b) ->
  exists log1 a log2,
    c = (log1, Ok a) /\ k a = (log2, Ok b) /\ log = log1 ++ log2.
Proof.
  destruct c as [log1 [a|e]]; simpl; [|discriminate].
  destruct (k a) as [log2 r] eqn:E. simpl. intros [= <- ->].
  now exists log1, a, log2.
Qed.

Lemma io_bind_log (A C : Type) (P : event -> Prop) (c : io A) (k : A -> io C) :
  Forall P (fst c) -> (forall a, Forall P (fst (k a))) ->
  Forall P (fst (io_bind c k)).
Proof.
  intros Hc Hk. destruct c as [log [a|e]]; simpl in *; [|assumption].
  apply Forall_app. split; [assumption|apply Hk].
Qed.

Lemma try_except_log (A : Type) (P : event -> Prop) (c : io A) classes handler :
  Forall P (fst c) -> (forall e, Forall P (fst (handler e))) ->
  Forall P (fst (try_except c classes handler)).
Proof.
  intros Hc Hh. destruct c as [log [a|e]]; simpl in *; [assumption|].
  destruct (catches classes e); simpl; [|assumption].
  apply Forall_app. split; [assumption|apply Hh].
Qed.

Section Run.
Context {B : Builtins}.
Context {M : C.Libm}.
Variable w : World.

Lemma load_items_log items : forall results,
  Forall loader_event (fst (load_items w items results)).
Proof.
  induction items as [|item rest IH]; intros results; simpl; [constructor|].
  apply io_bind_log; [|intros a; apply IH].
  unfold load_item. apply try_except_log.
  - apply io_bind_log; [constructor|]. intros r. constructor.
  - intros e. repeat constructor.
Qed.

Lemma load_results_log file_path :
  Forall loader_event (fst (load_results w file_path)).
Proof.
  unfold load_results. apply try_except_log.
  - apply io_bind_log; [constructor|]. intros data. unfold load_document.
    apply io_bind_log; [constructor|]. intros bd.
    apply io_bind_log; [constructor|]. intros items. apply load_items_log.
  - intros e. repeat constructor.
Qed.

Lemma load_all_log files : forall acc,
  Forall loader_event (fst (load_all w files acc)).
Proof.
  induction files as [|f rest IH]; intros acc; simpl; [constructor|].
  apply io_bind_log; [apply load_results_log|]. intros rs. apply IH.
Qed.

(** When every current file loads to nothing, nothing is accumulated. *)
Lemma load_all_empty files : forall acc,
  (forall p, In p files -> snd (load_results w p) = Ok []) ->
  snd (load_all w files acc) = Ok acc.
Proof.
  induction files as [|f rest IH]; intros acc H; simpl; [reflexivity|].
  pose proof (H f (or_introl eq_refl)) as Hf.
  destruct (load_results w f) as [log r]. simpl in Hf. subst r. simpl.
  rewrite app_nil_r. apply IH. intros p Hp. apply H. now right.
Qed.

Lemma compare_with_baseline_log threshold baseline_file current_results :
  Forall loader_event
    (fst (compare_with_baseline w threshold baseline_file current_results)).
Proof.
  unfold compare_with_baseline. destruct baseline_file as [p|]; [|constructor].
  destruct (truthy (Some p) && path_exists w p); [|constructor].
  apply io_bind_log; [apply load_results_log|].
  intros [|b rest]; [constructor|].
  apply io_bind_log; [constructor|]. intros found. constructor.
Qed.

Lemma run_analysis_log threshold current_files baseline_file :
  Forall loader_event (fst (run_analysis w threshold current_files baseline_file)).
Proof.
  unfold run_analysis. apply io_bind_log; [apply load_all_log|].
  intros [|r rest]; [constructor|].
  apply io_bind_log; [apply compare_with_baseline_log|]. intros compared.
  apply io_bind_log; [constructor|]. intros _. constructor.
Qed.

Lemma run_analysis_no_results threshold current_files baseline_file :
  (forall p, In p current_files -> snd (load_results w p) = Ok []) ->
  snd (run_analysis w threshold current_files baseline_file) = Raise ValueError.
Proof.
  intros H. unfold run_analysis.
  pose proof (load_all_empty current_files [] H) as Hl.
  destruct (load_all w current_files []) as [log r]. simpl in Hl. subst r.
  reflexivity.
Qed.

Lemma run_analysis_counts threshold current_files baseline_file log analysis :
  run_analysis w threshold current_files baseline_file = (log, Ok analysis) ->
  regressions_detected analysis = List.length (regressions analysis) /\
  improvements_detected analysis = List.length (improvements analysis) /\
  (0 < total_tests analysis)%nat.
Proof.
  unfold run_analysis. intros H.
  apply io_bind_ok in H. destruct H as (log1 & current & log2 & _ & H & _).
  destruct current as [|r rest]; [discriminate|].
  apply io_bind_ok in H. destruct H as (log3 & compared & log4 & _ & H & _).
  apply io_bind_ok in H. destruct H as (log5 & u & log6 & _ & H & _).
  injection H as _ <-. simpl. repeat split. lia.
Qed.

(** The three ways the writes can go. *)
Lemma write_outputs_export_fails args analysis e :
  write w (arg_output args) = Some e ->
  write_outputs w args analysis
  = ([WriteAttempt (arg_output args) (Some e)], Raise e).
Proof.
  intros H. unfold write_outputs, export_analysis, write_file. rewrite H.
  reflexivity.
Qed.

Lemma write_outputs_report_fails args analysis p e :
  write w (arg_output args) = None ->
  arg_report args = Some p -> truthy (Some p) = true -> write w p = Some e ->
  write_outputs w args analysis
  = ([WriteAttempt (arg_output args) None; Exported (arg_output args);
      WriteAttempt p (Some e)], Raise e).
Proof.
  intros Ho Hr Ht Hp.
  unfold write_outputs, export_analysis, generate_report, write_file.
  rewrite Ho, Hr, Ht, Hp. reflexivity.
Qed.

Lemma write_outputs_both args analysis p :
  write w (arg_output args) = None ->
  arg_report args = Some p -> truthy (Some p) = true -> write w p = None ->
  write_outputs w args analysis
  = ([WriteAttempt (arg_output args) None; Exported (arg_output args);
      WriteAttempt p None; ReportGenerated p;
      Summary (total_tests analysis) (regressions_detected analysis)
              (improvements_detected analysis)], Ok analysis).
Proof.
  intros Ho Hr Ht Hp.
  unfold write_outputs, export_analysis, generate_report, write_file.
  rewrite Ho, Hr, Ht, Hp. reflexivity.
Qed.

Lemma write_outputs_no_report args analysis :
  write w (arg_output args) = None -> truthy (arg_report args) = false ->
  write_outputs w args analysis
  = ([WriteAttempt (arg_output args) None; Exported (arg_output args);
      Summary (total_tests analysis) (regressions_detected analysis)
              (improvements_detected analysis)], Ok analysis).
Proof.
  intros Ho Ht. unfold write_outputs, export_analysis, write_file.
  rewrite Ho. destruct (arg_report args) as [p|]; [rewrite Ht|]; reflexivity.
Qed.

Lemma write_outputs_ok args analysis log a :
  write_outputs w args analysis = (log, Ok a) ->
  a = analysis /\ In (WriteAttempt (arg_output args) None) log.
Proof.
  destruct (write w (arg_output args)) as [e|] eqn:Ho.
  { rewrite (write_outputs_export_fails _ _ _ Ho). discriminate. }
  destruct (truthy (arg_report args)) eqn:Ht.
  - destruct (arg_report args) as [p|] eqn:Hr; [|discriminate].
    destruct (write w p) as [e|] eqn:Hp.
    + rewrite (write_outputs_report_fails _ _ _ _ Ho Hr Ht Hp). discriminate.
    + rewrite (write_outputs_both _ _ _ Ho Hr Ht Hp). intros [= <- <-].
      split; [reflexivity|now left].
  - rewrite (write_outputs_no_report _ _ Ho Ht). intros [= <- <-].
    split; [reflexivity|now left].
Qed.

Lemma main_body_unfold args :
  main_body w args =
  match run_analysis w (arg_threshold args) (arg_current args) (arg_baseline args) with
  | (log0, Ok analysis) =>
      (Running :: log0 ++ fst (write_outputs w args analysis),
       snd (write_outputs w args analysis))
  | (log0, Raise e) => (Running :: log0, Raise e)
  end.
Proof.
  unfold main_body.
  destruct (run_analysis w _ _ _) as [log0 [analysis|e]]; reflexivity.
Qed.

End Run.
End MainFacts.

(** * The properties of the specification *)

Module DetectorClaims.
Import FloatFacts PowFacts CompareFacts SortFacts DetectFacts.
Import Sample SampleLibm.
Local Open Scope float_scope.

(** C1, as the code has it.  For a matched pair with a positive baseline
    average and any threshold, the detector either raises [OverflowError]
    and sets no flag, which it does exactly when one of the powers of the
    significance overflows, or builds a record.  The record has
    [is_regression] exactly when the change
    [(current.avg - baseline.avg) / baseline.avg] is strictly above the
    threshold, and [is_improvement] exactly when it is strictly below the
    opposite of the threshold.  With a threshold that is not negative the two
    flags are never both set; both are clear when [|change| <= threshold], and
    in particular when the two averages are equal. *)
Theorem flags_follow_threshold {M : C.Libm} (threshold : float)
    (b c : PerformanceResult) :
  (0 <? average_time_us b) = true ->
  (power_overflows b c = true -> compare threshold b c = Raise OverflowError) /\
  (power_overflows b c = false -> exists r, compare threshold b c = Ok (Some r)) /\
  forall r,
    compare threshold b c = Ok (Some r) ->
    let change := (average_time_us c - average_time_us b) / average_time_us b in
    change_percentage r = change /\
    is_regression r = PyFloat.gt change threshold /\
    is_improvement r = PyFloat.lt change (- threshold) /\
    ((0 <=? threshold) = true -> is_regression r && is_improvement r = false) /\
    ((abs change <=? threshold) = true ->
       is_regression r = false /\ is_improvement r = false) /\
    ((0 <=? threshold) = true -> average_time_us c = average_time_us b ->
       is_regression r = false /\ is_improvement r = false).
Proof.
  intros Hb. pose proof (gt_zero_eqb _ Hb) as Hz.
  pose proof (compare_raises threshold b c) as Hraises.
  split; [|split].
  - intros Ho. destruct (proj2 Hraises (conj Hz Ho)) as [e He].
    now rewrite He, (compare_raise _ _ _ _ He).
  - intros Ho. destruct (compare threshold b c) as [[r|]|e] eqn:Hc.
    + now exists r.
    + rewrite (compare_unfold _ _ _ Hz) in Hc. revert Hc.
      repeat match goal with
             | |- context [bind ?x _] => destruct x; cbn [bind]
             end; discriminate.
    + destruct (proj1 Hraises (ex_intro _ e eq_refl)) as [_ Ho']. congruence.
  - intros r H change.
    destruct (compare_some _ _ _ _ H) as (_ & bsq & csq & comb & _ & _ & _ & _ & ->).
    cbn [regression_result change_percentage is_regression is_improvement].
    fold change. unfold PyFloat.gt, PyFloat.lt.
    split; [reflexivity|]. split; [reflexivity|]. split; [reflexivity|].
    split; [|split].
    + intros Ht. destruct (threshold <? change) eqn:E1; [|reflexivity].
      destruct (change <? - threshold) eqn:E2; [|reflexivity].
      destruct (above_below_exclusive _ _ Ht E1 E2).
    + intros Hw. apply within_threshold, Hw.
    + intros Ht Heq. unfold change. rewrite Heq. apply no_change_neutral, Ht.
Qed.

Lemma flags_follow_threshold_witness :
  exists slower faster,
    (0 <? average_time_us baseline_45) = true /\
    (0 <? average_time_us current_54) = true /\
    compare (M := libm) threshold baseline_45 current_54 = Ok (Some slower) /\
    is_regression slower = true /\ is_improvement slower = false /\
    compare (M := libm) threshold current_54 baseline_45 = Ok (Some faster) /\
    is_regression faster = false /\ is_improvement faster = true.
Proof.
  eexists. eexists. split; [reflexivity|]. split; [reflexivity|].
  split; [vm_compute; reflexivity|].
  destruct (proj2 (proj2 (flags_follow_threshold (M := libm) threshold
                            baseline_45 current_54 eq_refl)) _ eq_refl)
    as (_ & Hreg & Himp & _).
  split; [exact (eq_trans Hreg eq_refl)|].
  split; [exact (eq_trans Himp eq_refl)|].
  split; [vm_compute; reflexivity|].
  destruct (proj2 (proj2 (flags_follow_threshold (M := libm) threshold
                            current_54 baseline_45 eq_refl)) _ eq_refl)
    as (_ & Hreg' & Himp' & _).
  split; [exact (eq_trans Hreg' eq_refl)|exact (eq_trans Himp' eq_refl)].
Defined.

(** C1 as stated fails: a change above the threshold does not always set a
    flag.  Baseline mean 1 with deviation 1e200, current mean 2: the change
    is 1, above 0.05, but the coefficient of variation is 1e200 and squaring
    it raises [OverflowError]; no record is built, nothing is flagged, and
    detection as a whole raises. *)
Lemma overflow_sets_no_flag :
  (0 <? average_time_us wild) = true /\
  PyFloat.gt ((average_time_us doubled - average_time_us wild)
              / average_time_us wild) threshold = true /\
  compare (M := libm) threshold wild doubled = Raise OverflowError /\
  detect_regressions (B := builtins) (M := libm) threshold [wild] [doubled]
  = Raise OverflowError.
Proof. repeat split; vm_compute; reflexivity. Qed.

(** C2, as the code has it.  For a matched pair with a positive baseline
    average that yields a record, each side's coefficient of variation is
    [stdev / mean] when the mean is greater than 0 and 0 otherwise (so also
    for a negative or NaN current mean); the two are combined as
    [(cv_baseline ** 2 + cv_current ** 2) ** 0.5], the powers being Python's,
    that is the C library's [pow] (which need not round as a product or a
    square root would); the significance is [|change| / (combined + 1e-10)],
    and the confidence is [min(0.99, significance / 3)], which never exceeds
    0.99. *)
Theorem scores_follow_formulas {M : C.Libm} (threshold : float)
    (b c : PerformanceResult) (r : RegressionResult) :
  (0 <? average_time_us b) = true ->
  compare threshold b c = Ok (Some r) ->
  let change := (average_time_us c - average_time_us b) / average_time_us b in
  let baseline_cv := std_deviation_us b / average_time_us b in
  let current_cv :=
    if 0 <? average_time_us c then std_deviation_us c / average_time_us c else 0 in
  exists baseline_sq current_sq combined,
    PyFloat.pow2 baseline_cv = Ok baseline_sq /\
    PyFloat.pow2 current_cv = Ok current_sq /\
    PyFloat.pow_half (baseline_sq + current_sq) = Ok combined /\
    statistical_significance r = Spec.significance change combined /\
    confidence_level r = Spec.confidence (statistical_significance r) /\
    (confidence_level r <=? PyFloat.f0_99) = true.
Proof.
  intros Hb H change baseline_cv current_cv.
  destruct (compare_some _ _ _ _ H)
    as (_ & bsq & csq & comb & Hbsq & Hcsq & Hcomb & _ & ->).
  unfold cv_value, PyFloat.gt in Hbsq, Hcsq. rewrite Hb in Hbsq.
  exists bsq, csq, comb.
  cbn [regression_result statistical_significance confidence_level].
  repeat split; try assumption.
  apply min_le. reflexivity.
Qed.

Lemma scores_follow_formulas_witness :
  exists r,
    (0 <? average_time_us baseline_45) = true /\
    compare (M := libm) threshold baseline_45 current_54 = Ok (Some r) /\
    PyFloat.pow2 (M := libm)
      (std_deviation_us baseline_45 / average_time_us baseline_45) = Ok 0 /\
    PyFloat.pow_half (M := libm) (0 + 0) = Ok 0 /\
    statistical_significance r
    = Spec.significance
        ((average_time_us current_54 - average_time_us baseline_45)
         / average_time_us baseline_45) 0 /\
    confidence_level r = PyFloat.f0_99 /\
    (confidence_level r <=? PyFloat.f0_99) = true.
Proof.
  eexists. split; [reflexivity|]. split; [vm_compute; reflexivity|].
  split; [reflexivity|]. split; [reflexivity|].
  destruct (scores_follow_formulas (M := libm) threshold baseline_45 current_54 _
              eq_refl eq_refl)
    as (bsq & csq & comb & _ & _ & _ & _ & _ & Hle).
  split; [reflexivity|]. split; [reflexivity|]. exact Hle.
Defined.

(** C2 as stated fails: with a negative current mean the code takes the
    coefficient of variation to be 0, not [stdev / mean].  Baseline 1 with
    deviation 0, current -1 with deviation 1: the code's significance is
    2e10 and its confidence 0.99, where the stated formulas give about 2 and
    about 0.67. *)
Lemma negative_mean_has_zero_cv :
  exists r,
    (0 <? average_time_us steady) = true /\
    compare (M := libm) threshold steady noisy_negative = Ok (Some r) /\
    let change :=
      (average_time_us noisy_negative - average_time_us steady)
      / average_time_us steady in
    let stated :=
      Spec.significance change
        (Spec.combined_cv
           (Spec.cv (std_deviation_us steady) (average_time_us steady))
           (Spec.cv (std_deviation_us noisy_negative)
                    (average_time_us noisy_negative))) in
    statistical_significance r = 20000000000 /\
    (stated <? 2) = true /\
    confidence_level r = PyFloat.f0_99 /\
    (Spec.confidence stated <? 0.75) = true.
Proof.
  eexists. split; [reflexivity|]. split; [vm_compute; reflexivity|].
  repeat split.
Qed.

(** C3.  Whatever the inputs, when [detect_regressions] returns, every element
    of its first list has [is_regression] set and a confidence above 0.5,
    every element of its second list has [is_improvement] set and a confidence
    above 0.5, the first list is in descending order of [change_percentage]
    and the second in ascending order. *)
Theorem returned_lists_filtered_and_sorted {B : Builtins} {M : C.Libm}
    (threshold : float) (baseline current : list PerformanceResult)
    (regressions improvements : list RegressionResult) :
  detect_regressions threshold baseline current = Ok (regressions, improvements) ->
  Forall (fun r => is_regression r = true /\ confident r) regressions /\
  Forall (fun r => is_improvement r = true /\ confident r) improvements /\
  descending regressions /\
  ascending improvements.
Proof.
  intros H.
  destruct (detect_regressions_kept _ _ _ _ _ H) as (found & [Hr Hi] & -> & ->).
  split; [|split; [|split]].
  - apply list_sort_Forall. eapply Forall_impl; [|exact Hr].
    intros r (_ & ? & ?). now split.
  - apply list_sort_Forall. eapply Forall_impl; [|exact Hi].
    intros r (_ & ? & ?). now split.
  - apply list_sort_sorted. eapply Forall_impl; [|exact Hr].
    intros r. apply kept_regression_comparable.
  - apply list_sort_sorted. eapply Forall_impl; [|exact Hi].
    intros r. apply kept_improvement_comparable.
Qed.

Lemma returned_lists_filtered_and_sorted_witness :
  exists regressions,
    detect_regressions (B := builtins) (M := libm) threshold
      [baseline_45] [current_54] = Ok (regressions, []) /\
    List.length regressions = 1%nat /\
    descending regressions.
Proof.
  eexists. split; [vm_compute; reflexivity|]. split; [reflexivity|].
  exact (proj1 (proj2 (proj2
    (returned_lists_filtered_and_sorted (B := builtins) (M := libm) threshold
       [baseline_45] [current_54] _ _ eq_refl)))).
Defined.

(** C7, as the code has it.  A matched pair whose baseline average equals 0
    is skipped before any division and without an error, so no element of
    either returned list comes from a zero baseline.  Detection never raises
    [ZeroDivisionError]: the one exception it raises is [OverflowError].  It
    is not total: it raises exactly when some current result has a baseline
    record with a non-zero average for which one of the three powers of the
    significance raises, and returns its two lists otherwise.  [v ** 2]
    raises exactly when [v] is finite, is none of 0, 1 and -1, and [pow]
    overflows on [|v|] (it returns an infinity, or sets [ERANGE] with a
    non-zero result); so an infinite or NaN coefficient of variation does
    not raise.  [s ** 0.5], on the sum of the squares, raises on the same
    condition. *)
Theorem zero_baseline_skipped {B : Builtins} {M : C.Libm} (threshold : float) :
  (forall b c, (average_time_us b =? 0) = true -> compare threshold b c = Ok None) /\
  (forall baseline current regressions improvements,
     detect_regressions threshold baseline current = Ok (regressions, improvements) ->
     Forall (fun r => (baseline_performance r =? 0) = false)
            (regressions ++ improvements)) /\
  (forall baseline current e,
     detect_regressions threshold baseline current = Raise e -> e = OverflowError) /\
  (forall baseline current,
     (exists e, detect_regressions threshold baseline current = Raise e) <->
     exists c b,
       In c current /\
       dict_get (key_of c) (baseline_lookup baseline) = Some b /\
       (average_time_us b =? 0) = false /\ power_overflows b c = true) /\
  (forall baseline current,
     (forall c b,
        In c current ->
        dict_get (key_of c) (baseline_lookup baseline) = Some b ->
        (average_time_us b =? 0) = false -> power_overflows b c = false) ->
     exists regressions improvements,
       detect_regressions threshold baseline current
       = Ok (regressions, improvements)) /\
  (forall v,
     (exists e, PyFloat.pow2 v = Raise e) <->
     is_nan v = false /\ is_infinity v = false /\ (v =? 0) = false /\
     (abs v =? 1) = false /\ range_error (abs v) 2 = true) /\
  (forall baseline_sq current_sq v w,
     PyFloat.pow2 v = Ok baseline_sq -> PyFloat.pow2 w = Ok current_sq ->
     let s := baseline_sq + current_sq in
     (exists e, PyFloat.pow_half s = Raise e) <->
     is_nan s = false /\ is_infinity s = false /\ (s =? 0) = false /\
     (s =? 1) = false /\ range_error s 0.5 = true).
Proof.
  split; [|split; [|split; [|split; [|split; [|split]]]]].
  - intros b c. apply compare_zero.
  - intros baseline current regs imps H.
    destruct (detect_regressions_kept _ _ _ _ _ H) as (found & [Hr Hi] & -> & ->).
    apply Forall_app. split; apply list_sort_Forall.
    + eapply Forall_impl; [|exact Hr]. intros r (Hc & _).
      apply (from_compare_flags _ _ Hc).
    + eapply Forall_impl; [|exact Hi]. intros r (Hc & _).
      apply (from_compare_flags _ _ Hc).
  - intros baseline current e. apply detect_regressions_raise.
  - intros baseline current. apply detect_regressions_raises.
  - intros baseline current Hnone.
    destruct (detect_regressions threshold baseline current) as [[regs imps]|e] eqn:E.
    + now exists regs, imps.
    + destruct (proj1 (detect_regressions_raises _ baseline current)
                  (ex_intro _ e E)) as (c & b & Hin & Hl & Hz & Ho).
      rewrite (Hnone c b Hin Hl Hz) in Ho. discriminate.
  - intros v. apply pow2_raises.
  - intros bsq csq v w Hv Hw s. apply pow_half_raises.
    apply add_nonneg; eapply pow2_nonneg; eassumption.
Qed.

Lemma zero_baseline_skipped_witness :
  (average_time_us zero_baseline =? 0) = true /\
  compare (M := libm) threshold zero_baseline steady = Ok None /\
  detect_regressions (B := builtins) (M := libm) threshold [zero_baseline] [steady]
  = Ok ([], []) /\
  (forall c b,
     In c [steady] ->
     dict_get (key_of (B := builtins) c)
       (baseline_lookup (B := builtins) [zero_baseline]) = Some b ->
     (average_time_us b =? 0) = false ->
     power_overflows (M := libm) b c = false) /\
  (exists regressions improvements,
     detect_regressions (B := builtins) (M := libm) threshold [zero_baseline] [steady]
     = Ok (regressions, improvements)) /\
  PyFloat.pow2 (M := libm) infinity = Ok infinity /\
  ~ (exists e, PyFloat.pow2 (M := libm) infinity = Raise e).
Proof.
  pose proof (zero_baseline_skipped (B := builtins) (M := libm) threshold)
    as (Hzero & _ & _ & _ & Hreturns & Hpow & _).
  assert (Hnone : forall c b,
     In c [steady] ->
     dict_get (key_of (B := builtins) c)
       (baseline_lookup (B := builtins) [zero_baseline]) = Some b ->
     (average_time_us b =? 0) = false ->
     power_overflows (M := libm) b c = false).
  { intros c b [<- | []] Hb. vm_compute in Hb. injection Hb as <-. discriminate. }
  split; [reflexivity|]. split; [exact (Hzero zero_baseline steady eq_refl)|].
  split; [reflexivity|]. split; [exact Hnone|].
  split; [exact (Hreturns [zero_baseline] [steady] Hnone)|].
  split; [reflexivity|].
  intros H. apply (proj1 (Hpow infinity)) in H. destruct H as (_ & H & _).
  discriminate H.
Defined.

(** C7 as stated fails: detection is not total.  A baseline whose standard
    deviation is 1e200 for a mean of 1 has a coefficient of variation of
    1e200, and squaring it raises [OverflowError]. *)
Lemma detection_overflows :
  detect_regressions (B := builtins) (M := libm) threshold [wild] [steady]
  = Raise OverflowError.
Proof. vm_compute. reflexivity. Qed.

End DetectorClaims.

Module LoaderClaims.
Import PyValue LoaderFacts Sample.

(** C4, as the code has it.  A missing file or malformed JSON gives the empty
    sequence and one logged error.  A document of one of the three array
    shapes whose entries are all objects, none with a conversion that
    overflows, gives a sequence.  Whatever else goes wrong leaves the loader:
    the error of a file that cannot be read, or [TypeError], [AttributeError]
    or [OverflowError] from a document. *)
Theorem loader_contains_some_failures {B : Builtins} (w : World) (file_path : string) :
  (fs w file_path = Missing ->
   load_results w file_path = ([ErrorLoading file_path FileNotFoundError], Ok [])) /\
  (fs w file_path = Malformed ->
   load_results w file_path = ([ErrorLoading file_path JSONDecodeError], Ok [])) /\
  (forall data items,
     fs w file_path = Document data -> array_shaped data items ->
     Forall (fun item => is_object item = true) items ->
     Forall (fun item => parse_item w item <> Raise OverflowError) items ->
     exists log rs, load_results w file_path = (log, Ok rs)) /\
  (forall log e,
     load_results w file_path = (log, Raise e) ->
     catches [FileNotFoundError; JSONDecodeError] e = false /\
     (fs w file_path = Unreadable e \/
      (exists data, fs w file_path = Document data) /\
      (e = TypeError \/ e = AttributeError \/ e = OverflowError))).
Proof.
  split; [apply load_results_missing|]. split; [apply load_results_malformed|].
  split.
  - intros data items Hf Hs Hobj Hov.
    rewrite (load_results_document _ _ _ Hf), (load_document_shaped _ _ _ Hs).
    rewrite load_items_contained.
    + now eexists; eexists.
    + rewrite Forall_forall in *. intros item Hin.
      apply object_escapes_only_on_overflow; auto.
  - intros log e. destruct (fs w file_path) as [ |e'| |data] eqn:Hf.
    + rewrite (load_results_missing _ _ Hf). discriminate.
    + rewrite (load_results_unreadable _ _ _ Hf).
      destruct (catches _ e') eqn:Hc; [discriminate|].
      intros [= _ <-]. split; [assumption|now left].
    + rewrite (load_results_malformed _ _ Hf). discriminate.
    + rewrite (load_results_document _ _ _ Hf). intros H.
      destruct (load_document_raise _ _ _ _ H) as [-> | [-> | ->]];
        (split; [reflexivity|]); right; (split; [now exists data|tauto]).
Qed.

Lemma loader_contains_some_failures_witness :
  fs (current_only Malformed) "current.json" = Malformed /\
  load_results (B := builtins) (current_only Malformed) "current.json"
  = ([ErrorLoading "current.json" JSONDecodeError], Ok []).
Proof.
  split; [reflexivity|].
  exact (proj1 (proj2 (loader_contains_some_failures (B := builtins)
                         (current_only Malformed) "current.json")) eq_refl).
Defined.

(** C4 as stated fails: valid JSON can make the loader raise.  The document
    [[1]] raises [AttributeError] (a number has no [get]) and the document
    [42] raises [TypeError] (['benchmarks' in 42]); neither is caught. *)
Lemma loader_lets_exceptions_escape :
  load_results (B := builtins) (current_only (Document doc_number_entry))
    "current.json" = ([], Raise AttributeError) /\
  load_results (B := builtins) (current_only (Document doc_scalar))
    "current.json" = ([], Raise TypeError).
Proof. split; reflexivity. Qed.

(** C5, as the code has it.  An entry that lacks the numeric fields is not
    skipped: every absent field takes its default, 0.  An object is skipped,
    with one warning, exactly when the first conversion to fail, among those
    the loader makes in order on the values it selects (for each numeric
    field the value of the first key if the object has it, else that of the
    second key, else the default), raises [ValueError] or [TypeError]; an
    entry is parsed when no conversion fails.  So a skipped entry holds a
    value that cannot be converted, but an entry holding one is not always
    skipped: a value that another key shadows is never converted.  The
    entries around a skipped one are still loaded: for a benchmarks array, a
    results array or a bare array from which no exception escapes, the loader
    returns the records of the entries in order, their number being the
    number of entries minus the number of skipped ones, with one warning for
    each skipped entry. *)
Theorem entries_loaded_or_skipped {B : Builtins} (w : World) :
  (forall members,
     (forall k, In k numeric_keys -> dict_get k members = None) ->
     skipped w (JDict members) = false /\
     exists r, parse_item w (JDict members) = Ok r /\
               entity_count r = 0%Z /\ average_time_us r = 0%float /\
               min_time_us r = 0%float /\ max_time_us r = 0%float /\
               std_deviation_us r = 0%float /\ memory_usage r = 0%Z) /\
  (forall members,
     skipped w (JDict members) = true <->
     exists e, first_failure (conversion_failures members) = Some e /\
               (e = ValueError \/ e = TypeError)) /\
  (forall members,
     first_failure (conversion_failures members) = None <->
     exists r, parse_item w (JDict members) = Ok r) /\
  (forall members,
     skipped w (JDict members) = true ->
     exists k v e,
       In k numeric_keys /\ dict_get k members = Some v /\
       (py_int v = Raise e \/ py_float v = Raise e) /\
       (e = ValueError \/ e = TypeError)) /\
  (forall members k1 k2 v default,
     dict_get k1 members = Some v ->
     field members k1 (field members k2 default) = v) /\
  (forall data items,
     array_shaped data items ->
     Forall (fun item => escapes w item = false) items ->
     load_document w data =
       (flat_map (item_log w) items, Ok (flat_map (item_records w) items)) /\
     List.length (flat_map (item_records w) items) =
       (List.length items - List.length (filter (skipped w) items))%nat /\
     List.length (flat_map (item_log w) items) =
       List.length (filter (skipped w) items)).
Proof.
  split; [|split; [|split; [|split; [|split]]]].
  - intros members H.
    destruct (parse_item_defaults w members H) as (r & Hr & Hz).
    split; [unfold skipped; now rewrite Hr|]. now exists r.
  - intros members. apply skipped_first_failure.
  - intros members. pose proof (parse_item_first_failure w members) as H.
    destruct (first_failure (conversion_failures members)) as [e|].
    + rewrite H. split; [discriminate|intros [r Hr]; discriminate].
    + tauto.
  - intros members. unfold skipped.
    destruct (parse_item w (JDict members)) as [r|e] eqn:E; [discriminate|].
    intros Hc.
    destruct (parse_item_object_raise _ _ _ E) as (k & v & Hk & Hv & Hr).
    exists k, v, e. repeat split; try assumption.
    destruct (parse_item_raise _ _ _ E) as [[Ho _] | [_ [-> | [-> | ->]]]];
      try discriminate; tauto.
  - intros members k1 k2 v default Hv. unfold field at 1. now rewrite Hv.
  - intros data items Hs Hesc.
    rewrite (load_document_shaped _ _ _ Hs), (load_items_contained _ _ _ Hesc).
    destruct (records_and_skips _ _ Hesc) as [H1 H2].
    repeat split; [|assumption]. lia.
Qed.

Lemma entries_loaded_or_skipped_witness :
  array_shaped doc_one_bad_entry
    [JDict [("real_time"%string, JNull)]; JDict [("real_time"%string, JInt 3)]] /\
  List.length (filter (skipped (B := builtins) (current_only Missing))
                 [JDict [("real_time"%string, JNull)];
                  JDict [("real_time"%string, JInt 3)]]) = 1%nat /\
  (exists log r,
     load_document (B := builtins) (current_only Missing) doc_one_bad_entry
     = ([log], Ok [r]) /\ average_time_us r = 3%float) /\
  first_failure (conversion_failures (B := builtins) [("real_time"%string, JNull)])
  = Some TypeError /\
  skipped (B := builtins) (current_only Missing)
    (JDict [("real_time"%string, JNull)]) = true /\
  first_failure (conversion_failures (B := builtins) shadowed_text) = None /\
  exists r,
    parse_item (B := builtins) (current_only Missing) (JDict shadowed_text) = Ok r /\
    average_time_us r = 5%float.
Proof.
  pose proof (entries_loaded_or_skipped (B := builtins) (current_only Missing))
    as (_ & Hskip & Hparsed & _ & _ & Hcount).
  split; [now left|]. split; [reflexivity|]. split.
  { destruct (Hcount doc_one_bad_entry _ (or_introl eq_refl)) as (H & _).
    - repeat constructor.
    - eexists; eexists. split; [exact H|reflexivity]. }
  split; [reflexivity|]. split.
  { apply Hskip. exists TypeError. split; [reflexivity|now right]. }
  split; [reflexivity|].
  destruct (proj1 (Hparsed shadowed_text) eq_refl) as [r Hr].
  exists r. split; [exact Hr|].
  vm_compute in Hr. injection Hr as <-. reflexivity.
Defined.

(** C5 as stated fails: an entry that lacks the numeric fields is loaded, not
    skipped.  The document [[{}]] gives one record, all zeros, and no
    warning, where the claim counts no record. *)
Lemma entry_without_fields_is_loaded :
  exists r,
    load_results (B := builtins) (current_only (Document doc_empty_entry))
      "current.json" = ([], Ok [r]) /\
    average_time_us r = 0%float /\ entity_count r = 0%Z.
Proof. eexists. split; [reflexivity|]. split; reflexivity. Qed.

(** C9, as the code has it.  The loader checks no invariant.  Every record
    it returns, whatever the shape of the document (an array, the value of
    [benchmarks] or of [results], or a bare object taken as the one entry),
    comes from an object among the entries and carries the conversions to
    float of that object's [real_time] (else [average_time_us], else 0),
    [min_time] (else [min_time_us], else 0) and [max_time] (else
    [max_time_us], else 0), whatever their signs and order. *)
Theorem records_carry_entry_times {B : Builtins} (w : World) (file_path : string)
    (log : list event) (rs : list PerformanceResult) (r : PerformanceResult) :
  load_results w file_path = (log, Ok rs) ->
  In r rs ->
  exists data benchmark_data items members,
    fs w file_path = Document data /\
    benchmark_data_of data = Ok benchmark_data /\
    iterate benchmark_data = Ok items /\
    In (JDict members) items /\
    py_float (field members "real_time" (field members "average_time_us" (JInt 0)))
      = Ok (average_time_us r) /\
    py_float (field members "min_time" (field members "min_time_us" (JInt 0)))
      = Ok (min_time_us r) /\
    py_float (field members "max_time" (field members "max_time_us" (JInt 0)))
      = Ok (max_time_us r).
Proof.
  destruct (fs w file_path) as [ |e| |data] eqn:Hf.
  - rewrite (load_results_missing _ _ Hf). intros [= _ <-] [].
  - rewrite (load_results_unreadable _ _ _ Hf).
    destruct (catches _ e); [intros [= _ <-] []|discriminate].
  - rewrite (load_results_malformed _ _ Hf). intros [= _ <-] [].
  - rewrite (load_results_document _ _ _ Hf). unfold load_document.
    destruct (benchmark_data_of data) as [bd|e1] eqn:Hbd; [|discriminate].
    rewrite io_bind_lift_ok.
    destruct (iterate bd) as [items|e2] eqn:Hit; [|discriminate].
    rewrite io_bind_lift_ok. intros H Hin.
    pose proof (load_items_ok _ _ _ _ _ H) as Hesc.
    rewrite (load_items_contained _ _ _ Hesc) in H. injection H as _ <-.
    destruct (item_records_In _ _ _ Hin) as (item & Hitem & Hr).
    destruct (parse_item_ok_object _ _ _ Hr) as (members & ->).
    exists data, bd, items, members.
    split; [reflexivity|]. split; [exact Hbd|]. split; [exact Hit|].
    split; [assumption|]. exact (parse_item_object_times _ _ _ Hr).
Qed.

Lemma records_carry_entry_times_witness :
  exists r,
    load_results (B := builtins) (current_only (Document doc_bare_negative))
      "current.json" = ([], Ok [r]) /\
    In r [r] /\
    benchmark_data_of doc_bare_negative = Ok (JList [doc_bare_negative]) /\
    average_time_us r = (-1)%float.
Proof.
  eexists. split; [reflexivity|]. split; [now left|]. split; [reflexivity|].
  destruct (records_carry_entry_times (B := builtins)
              (current_only (Document doc_bare_negative)) "current.json"
              [] _ _ eq_refl (or_introl eq_refl))
    as (data & bd & items & members & _).
  reflexivity.
Defined.

(** C9 as stated fails: the document [[{"real_time": -1.0}]] gives a record
    whose [average_time_us] is -1, below 0 and above its [max_time_us] of 0. *)
Lemma negative_time_is_loaded :
  exists r,
    load_results (B := builtins) (current_only (Document doc_negative_time))
      "current.json" = ([], Ok [r]) /\
    (0 <=? average_time_us r)%float = false /\
    (average_time_us r <=? max_time_us r)%float = true /\
    ~ Spec.invariant r.
Proof.
  eexists. split; [reflexivity|]. split; [reflexivity|]. split; [reflexivity|].
  intros [H _]. discriminate H.
Qed.

(** C10.  The dispatch on the shape of an object is ordered.  When the object
    has a [benchmarks] key, what is loaded is that value alone, whether or not
    there is a [results] key.  When it has neither key it is loaded as a
    single entry, which yields at most one record. *)
Theorem dispatch_is_ordered {B : Builtins} (w : World) (file_path : string)
    (members : dict json) :
  fs w file_path = Document (JDict members) ->
  (forall b,
     dict_get "benchmarks" members = Some b ->
     load_results w file_path =
       (items <-- lift (iterate b) ;;; load_items w items [])) /\
  (dict_get "benchmarks" members = None ->
   dict_get "results" members = None ->
   load_results w file_path = load_items w [JDict members] [] /\
   forall log rs,
     load_results w file_path = (log, Ok rs) -> (List.length rs <= 1)%nat).
Proof.
  intros Hf. rewrite (load_results_document _ _ _ Hf). unfold load_document.
  rewrite benchmark_data_of_object, io_bind_lift_ok. split.
  - now intros b ->.
  - intros -> ->. cbn [iterate]. rewrite io_bind_lift_ok. split; [reflexivity|].
    intros log rs H. pose proof (load_items_ok _ _ _ _ _ H) as Hesc.
    rewrite (load_items_contained _ _ _ Hesc) in H. injection H as _ <-.
    simpl. rewrite app_nil_r. unfold item_records.
    destruct (parse_item w (JDict members)); simpl; lia.
Qed.

Lemma dispatch_is_ordered_witness :
  exists r,
    fs (current_only (Document doc_both_keys)) "current.json"
    = Document doc_both_keys /\
    load_results (B := builtins) (current_only (Document doc_both_keys))
      "current.json" = ([], Ok [r]) /\
    average_time_us r = 54%float.
Proof.
  eexists. split; [reflexivity|].
  rewrite (proj1 (dispatch_is_ordered (B := builtins)
                    (current_only (Document doc_both_keys)) "current.json" _
                    eq_refl) _ eq_refl).
  split; reflexivity.
Defined.

End LoaderClaims.

Module MainClaims.
Import MainFacts Sample SampleLibm.

(** C6.  The exit code follows the contract.  It is 0 when the body of [main]
    completes (the analysis ran and the JSON output was written) with an
    empty list of regressions, 1 when it completes with regressions, and 2
    when anything raises, the error being printed.  When every current file
    loads to an empty sequence the exit code is 2 and no file is written:
    no write is even attempted. *)
Theorem exit_code_contract {B : Builtins} {M : C.Libm} (w : World) (args : Args) :
  (forall log analysis,
     main_body w args = (log, Ok analysis) ->
     regressions_detected analysis = List.length (regressions analysis) /\
     In (WriteAttempt (arg_output args) None) log /\
     snd (main w args) =
       match regressions analysis with [] => 0%Z | _ :: _ => 1%Z end) /\
  (forall log e,
     main_body w args = (log, Raise e) ->
     main w args = (log ++ [ErrorDuringAnalysis e], 2%Z)) /\
  ((forall p, In p (arg_current args) -> snd (load_results w p) = Ok []) ->
   snd (main w args) = 2%Z /\
   forall path outcome, ~ In (WriteAttempt path outcome) (fst (main w args))).
Proof.
  split; [|split].
  - intros log analysis H. unfold main. rewrite H.
    rewrite main_body_unfold in H.
    destruct (run_analysis w _ _ _) as [log0 [a|e]] eqn:Hrun; [|discriminate].
    destruct (write_outputs w args a) as [log1 r] eqn:Hw. simpl in H.
    injection H as <- ->.
    destruct (write_outputs_ok _ _ _ _ _ Hw) as [-> Hin].
    destruct (run_analysis_counts _ _ _ _ _ _ Hrun) as (Hc & _ & _).
    split; [assumption|]. split.
    + right. apply in_or_app. now right.
    + rewrite Hc. destruct (regressions a); reflexivity.
  - intros log e H. unfold main. now rewrite H.
  - intros H. unfold main. rewrite main_body_unfold.
    pose proof (run_analysis_no_results w (arg_threshold args) _
                  (arg_baseline args) H) as Hrun.
    pose proof (run_analysis_log w (arg_threshold args) (arg_current args)
                  (arg_baseline args)) as Hlog.
    destruct (run_analysis w _ _ _) as [log0 r]. simpl in Hrun, Hlog. subst r.
    split; [reflexivity|]. intros path outcome Hin. simpl in Hin.
    destruct Hin as [Hin | Hin]; [discriminate|].
    apply in_app_or in Hin. destruct Hin as [Hin | [Hin | []]]; [|discriminate].
    rewrite Forall_forall in Hlog. exact (Hlog _ Hin).
Qed.

Lemma exit_code_contract_witness :
  (forall p, In p ["current.json"%string] ->
     snd (load_results (B := builtins) (current_only (Document (JList []))) p)
     = Ok []) /\
  main (B := builtins) (M := libm) (current_only (Document (JList []))) (args (Some "report.md"%string))
  = ([Running; ErrorDuringAnalysis ValueError], 2%Z) /\
  snd (main (B := builtins) (M := libm) (world scenario_a) (args (Some "report.md"%string))) = 1%Z.
Proof.
  assert (H : forall p, In p ["current.json"%string] ->
     snd (load_results (B := builtins) (current_only (Document (JList []))) p)
     = Ok []).
  { intros p [<- | []]. reflexivity. }
  split; [exact H|].
  pose proof (proj2 (proj2 (exit_code_contract (B := builtins) (M := libm)
                (current_only (Document (JList []))) (args (Some "report.md"%string)))) H)
    as [Hcode _].
  split; reflexivity.
Defined.

(** C8, as the code has it.  The two writes are in one [try] block, the JSON
    export first.  When the export fails the report is not attempted; when
    the export succeeds and a report is asked for, the report is attempted,
    and its failure leaves the JSON file written.  Either failure is printed
    and gives exit code 2. *)
Theorem report_follows_export {B : Builtins} {M : C.Libm} (w : World) (args : Args)
    (log0 : list event) (analysis : PerformanceAnalysis) :
  run_analysis w (arg_threshold args) (arg_current args) (arg_baseline args)
  = (log0, Ok analysis) ->
  (forall e,
     write w (arg_output args) = Some e ->
     main w args =
       (Running :: log0 ++ [WriteAttempt (arg_output args) (Some e);
                            ErrorDuringAnalysis e], 2%Z)) /\
  (forall p e,
     write w (arg_output args) = None ->
     arg_report args = Some p -> p <> ""%string -> write w p = Some e ->
     main w args =
       (Running :: log0 ++ [WriteAttempt (arg_output args) None;
                            Exported (arg_output args);
                            WriteAttempt p (Some e);
                            ErrorDuringAnalysis e], 2%Z)) /\
  (forall p,
     write w (arg_output args) = None ->
     arg_report args = Some p -> p <> ""%string -> write w p = None ->
     exists verdict,
       fst (main w args) =
         Running :: log0 ++ [WriteAttempt (arg_output args) None;
                             Exported (arg_output args);
                             WriteAttempt p None;
                             ReportGenerated p;
                             Summary (total_tests analysis)
                                     (regressions_detected analysis)
                                     (improvements_detected analysis);
                             verdict]).
Proof.
  intros Hrun.
  assert (Htruthy : forall p, p <> ""%string -> truthy (Some p) = true).
  { intros p Hp. simpl. destruct (String.eqb_spec p ""); [contradiction|reflexivity]. }
  split; [|split].
  - intros e Ho. unfold main. rewrite main_body_unfold, Hrun.
    rewrite (write_outputs_export_fails _ _ _ _ Ho). simpl.
    now rewrite <- app_assoc.
  - intros p e Ho Hr Hp Hw. unfold main. rewrite main_body_unfold, Hrun.
    rewrite (write_outputs_report_fails _ _ _ _ _ Ho Hr (Htruthy _ Hp) Hw). simpl.
    now rewrite <- app_assoc.
  - intros p Ho Hr Hp Hw. unfold main. rewrite main_body_unfold, Hrun.
    rewrite (write_outputs_both _ _ _ _ Ho Hr (Htruthy _ Hp) Hw). simpl.
    destruct (Nat.ltb 0 (regressions_detected analysis)); eexists; simpl;
      rewrite <- app_assoc; reflexivity.
Qed.

Lemma report_follows_export_witness :
  exists log0 analysis,
    run_analysis (B := builtins) (M := libm) (read_only_world scenario_a)
      threshold ["current.json"%string] (Some "baseline.json"%string)
    = (log0, Ok analysis) /\
    write (read_only_world scenario_a) "analysis.json" = Some PermissionError /\
    snd (main (B := builtins) (M := libm) (read_only_world scenario_a)
           (args (Some "report.md"%string))) = 2%Z.
Proof.
  eexists; eexists. split; [vm_compute; reflexivity|]. split; [reflexivity|].
  rewrite (proj1 (report_follows_export (B := builtins) (M := libm)
                    (read_only_world scenario_a) (args (Some "report.md"%string))
                    _ _ eq_refl) PermissionError eq_refl).
  reflexivity.
Defined.

(** C8 as stated fails: with the analysis done and a report asked for, a
    failed JSON export ends the run before the report is attempted.  On a
    read-only disk the only write attempted is the one of [analysis.json]. *)
Lemma failed_export_skips_report :
  main (B := builtins) (M := libm) (read_only_world scenario_a) (args (Some "report.md"%string))
  = ([Running;
      WriteAttempt "analysis.json" (Some PermissionError);
      ErrorDuringAnalysis PermissionError], 2%Z).
Proof. vm_compute. reflexivity. Qed.

End MainClaims.

(** * Further properties of the code

    What follows is not in the specification: properties of
    [detect_regressions], of the loader, of [run_analysis] and [main], and of
    what the insights and the report select, read off the code. *)

(** ** The detector *)

Module DetectorExtras.
Import SF SFFacts FloatFacts PowFacts CompareFacts SortFacts DetectFacts.
Local Open Scope float_scope.

Section Lookup.
Context {B : Builtins}.

Lemma fold_lookup baseline : forall d,
  fold_left (fun d r => dict_set (key_of r) r d) baseline d
  = rev (map (fun r => (key_of r, r)) baseline) ++ d.
Proof.
  induction baseline as [|b rest IH]; intros d; simpl; [reflexivity|].
  rewrite IH. unfold dict_set. now rewrite <- app_assoc.
Qed.

Lemma dict_get_pairs k (l : list PerformanceResult) :
  dict_get k (map (fun r => (key_of r, r)) l)
  = find (fun r => String.eqb k (key_of r)) l.
Proof.
  induction l as [|r rest IH]; simpl; [reflexivity|].
  destruct (String.eqb k (key_of r)); [reflexivity|assumption].
Qed.

Lemma baseline_lookup_find (baseline : list PerformanceResult) (k : string) :
  dict_get k (baseline_lookup baseline)
  = find (fun r => String.eqb k (key_of r)) (rev baseline).
Proof.
  unfold baseline_lookup. rewrite fold_lookup, app_nil_r, <- map_rev.
  apply dict_get_pairs.
Qed.

Lemma find_none_app (A : Type) (f : A -> bool) l1 l2 :
  (forall x, In x l1 -> f x = false) -> find f (l1 ++ l2) = find f l2.
Proof.
  induction l1 as [|x l1 IH]; intros H; simpl; [reflexivity|].
  rewrite (H x (or_introl eq_refl)). apply IH. intros y Hy. apply H. now right.
Qed.

(** X1.  The baseline index keeps, for each composite key, the last baseline
    record that has it: a record is what a lookup of its key finds whenever
    no later record of the baseline has the same key, whatever records come
    before it; and a key that no record has is not found. *)
Theorem baseline_lookup_last_wins (older : list PerformanceResult)
    (b : PerformanceResult) (newer : list PerformanceResult) :
  (forall b', In b' newer -> key_of b' <> key_of b) ->
  dict_get (key_of b) (baseline_lookup (older ++ b :: newer)) = Some b /\
  forall k,
    (forall b', In b' (older ++ b :: newer) -> key_of b' <> k) ->
    dict_get k (baseline_lookup (older ++ b :: newer)) = None.
Proof.
  intros H. split.
  - rewrite baseline_lookup_find, rev_app_distr. simpl. rewrite <- app_assoc.
    rewrite find_none_app.
    + simpl. now rewrite String.eqb_refl.
    + intros x Hx. apply in_rev in Hx. apply String.eqb_neq.
      intros E. exact (H x Hx (eq_sym E)).
  - intros k Hk. rewrite baseline_lookup_find.
    destruct (find _ _) as [x|] eqn:E; [|reflexivity].
    destruct (find_some _ _ E) as [Hin Hx]. apply in_rev in Hin.
    apply String.eqb_eq in Hx. destruct (Hk x Hin). now symmetry.
Qed.

End Lookup.

Section Loop.
Context {B : Builtins}.
Context {M : C.Libm}.
Variable t : float.

(** An invariant of the accumulators that every append keeps holds when the
    loop ends. *)
Lemma detect_loop_invariant (I : list RegressionResult * list RegressionResult -> Prop)
    lookup current :
  (forall acc c b r,
     I acc -> In c current -> dict_get (key_of c) lookup = Some b ->
     compare t b c = Ok (Some r) -> I (classify acc r)) ->
  forall acc acc',
    detect_loop t lookup current acc = Ok acc' -> I acc -> I acc'.
Proof.
  induction current as [|c rest IH]; intros Hstep acc acc'; simpl.
  - now intros [= <-].
  - unfold detect_step.
    destruct (dict_get (key_of c) lookup) as [b|] eqn:Hb.
    + destruct (compare t b c) as [[r|]|e] eqn:Hc; cbn [bind]; [| |discriminate].
      * intros H HI. eapply IH; [|exact H|].
        -- intros acc0 c0 b0 r0 H0 Hin. apply Hstep; [assumption|now right].
        -- apply (Hstep acc c b r); auto. now left.
      * intros H HI. eapply IH; [|exact H|exact HI].
        intros acc0 c0 b0 r0 H0 Hin. apply Hstep; [assumption|now right].
    + cbn [bind]. intros H HI. eapply IH; [|exact H|exact HI].
      intros acc0 c0 b0 r0 H0 Hin. apply Hstep; [assumption|now right].
Qed.

Lemma classify_cases acc r :
  (classify acc r = (fst acc ++ [r], snd acc) /\
   is_regression r = true /\ confident r) \/
  (classify acc r = (fst acc, snd acc ++ [r]) /\
   is_regression r = false /\ is_improvement r = true /\ confident r) \/
  classify acc r = acc.
Proof.
  unfold classify, confident.
  destruct (is_regression r) eqn:Hr, (PyFloat.gt (confidence_level r) PyFloat.f0_5) eqn:Hc;
    simpl; try tauto.
  - destruct (is_improvement r); simpl; tauto.
  - destruct (is_improvement r) eqn:Hi; simpl; [|tauto]. right. left. tauto.
  - destruct (is_improvement r); simpl; tauto.
Qed.

Lemma detect_loop_length lookup current : forall acc acc',
  detect_loop t lookup current acc = Ok acc' ->
  (List.length (fst acc') + List.length (snd acc')
   <= List.length (fst acc) + List.length (snd acc) + List.length current)%nat.
Proof.
  induction current as [|c rest IH]; intros acc acc'; simpl.
  - intros [= <-]. lia.
  - destruct (detect_step t lookup acc c) as [acc1|e] eqn:E; cbn [bind]; [|discriminate].
    intros H. apply IH in H.
    assert (List.length (fst acc1) + List.length (snd acc1)
            <= List.length (fst acc) + List.length (snd acc) + 1)%nat; [|lia].
    unfold detect_step in E.
    destruct (dict_get (key_of c) lookup) as [b|]; [|injection E as <-; lia].
    destruct (compare t b c) as [[r|]|e]; cbn [bind] in E; try discriminate;
      injection E as <-; [|lia].
    destruct (classify_cases acc r) as [[-> _] | [[-> _] | ->]]; simpl;
      rewrite ?length_app; simpl; lia.
Qed.

Lemma classify_incl acc r :
  incl (fst acc) (fst (classify acc r)) /\ incl (snd acc) (snd (classify acc r)).
Proof.
  unfold classify.
  destruct (is_regression r && _); [|destruct (is_improvement r && _)]; simpl;
    split; try apply incl_refl; apply incl_appl, incl_refl.
Qed.

Lemma classify_files acc r :
  confident r ->
  (is_regression r = true -> In r (fst (classify acc r))) /\
  (is_regression r = false -> is_improvement r = true ->
   In r (snd (classify acc r))).
Proof.
  unfold classify, confident. intros ->. split.
  - intros ->. simpl. apply in_or_app. right. now left.
  - intros -> ->. simpl. apply in_or_app. right. now left.
Qed.

Lemma detect_step_incl lookup acc c acc1 :
  detect_step t lookup acc c = Ok acc1 ->
  incl (fst acc) (fst acc1) /\ incl (snd acc) (snd acc1).
Proof.
  unfold detect_step.
  destruct (dict_get (key_of c) lookup) as [b|];
    [|intros [= <-]; split; apply incl_refl].
  destruct (compare t b c) as [[r|]|e]; cbn [bind]; try discriminate;
    intros [= <-]; [apply classify_incl|split; apply incl_refl].
Qed.

Lemma detect_loop_complete lookup current : forall acc acc',
  detect_loop t lookup current acc = Ok acc' ->
  (incl (fst acc) (fst acc') /\ incl (snd acc) (snd acc')) /\
  forall c b r,
    In c current -> dict_get (key_of c) lookup = Some b ->
    compare t b c = Ok (Some r) -> confident r ->
    (is_regression r = true -> In r (fst acc')) /\
    (is_regression r = false -> is_improvement r = true -> In r (snd acc')).
Proof.
  induction current as [|c0 rest IH]; intros acc acc'; simpl.
  - intros [= <-]. split; [split; apply incl_refl|]. intros c b r [].
  - destruct (detect_step t lookup acc c0) as [acc1|e] eqn:E; cbn [bind];
      [|discriminate].
    intros H. destruct (IH _ _ H) as [[I1 I2] Hrest].
    destruct (detect_step_incl _ _ _ _ E) as [J1 J2].
    split; [split; eapply incl_tran; eassumption|].
    intros c b r [<- | Hin] Hb Hc Hconf; [|now apply (Hrest c b r)].
    unfold detect_step in E. rewrite Hb, Hc in E. cbn [bind] in E.
    injection E as <-.
    destruct (classify_files acc r Hconf) as [F1 F2].
    split; [intros Hr; apply I1, F1, Hr|intros Hr Hi; apply I2, F2; assumption].
Qed.

(** X2.  Every record [detect_regressions] returns was built from one of the
    current results and the baseline record last written under the same
    composite key, and carries the name and the two averages of that pair. *)
Theorem returned_records_have_origin (baseline current : list PerformanceResult)
    (regressions improvements : list RegressionResult) (r : RegressionResult) :
  detect_regressions t baseline current = Ok (regressions, improvements) ->
  In r (regressions ++ improvements) ->
  exists c b,
    In c current /\ In b baseline /\ key_of b = key_of c /\
    find (fun x => String.eqb (key_of c) (key_of x)) (rev baseline) = Some b /\
    compare t b c = Ok (Some r) /\
    rr_test_name r = test_name c /\
    baseline_performance r = average_time_us b /\
    current_performance r = average_time_us c.
Proof.
  unfold detect_regressions.
  destruct (detect_loop t (baseline_lookup baseline) current ([], [])) as [found|e]
    eqn:E; cbn [bind]; [|discriminate].
  intros H Hin. injection H as <- <-.
  assert (Hfound : In r (fst found ++ snd found)).
  { apply in_app_or in Hin. apply in_or_app.
    destruct Hin as [Hin | Hin]; [left|right].
    - exact (Permutation_in _ (list_sort_perm _ change_percentage true (fst found)) Hin).
    - exact (Permutation_in _ (list_sort_perm _ change_percentage false (snd found)) Hin). }
  clear Hin.
  pose (origin := fun r => exists c b,
    In c current /\ dict_get (key_of c) (baseline_lookup baseline) = Some b /\
    compare t b c = Ok (Some r)).
  assert (Hall : forall x, In x (fst found ++ snd found) -> origin x).
  { apply (detect_loop_invariant
             (fun acc => forall x, In x (fst acc ++ snd acc) -> origin x)
             (baseline_lookup baseline) current) with (acc := ([], [])).
    - intros acc c b x HI Hc Hb Hx y Hy.
      destruct (classify_cases acc x) as [[Heq _] | [[Heq _] | Heq]];
        rewrite Heq in Hy; simpl in Hy.
      + apply in_app_or in Hy. destruct Hy as [Hy | Hy].
        * apply in_app_or in Hy. destruct Hy as [Hy | [<- | []]].
          -- apply HI. apply in_or_app. now left.
          -- now exists c, b.
        * apply HI. apply in_or_app. now right.
      + apply in_app_or in Hy. destruct Hy as [Hy | Hy].
        * apply HI. apply in_or_app. now left.
        * apply in_app_or in Hy. destruct Hy as [Hy | [<- | []]].
          -- apply HI. apply in_or_app. now right.
          -- now exists c, b.
      + now apply HI.
    - exact E.
    - intros x [].
  }
  destruct (Hall r Hfound) as (c & b & Hc & Hb & Hr).
  rewrite baseline_lookup_find in Hb.
  destruct (find_some _ _ Hb) as [Hinb Hkey].
  apply String.eqb_eq in Hkey. apply in_rev in Hinb.
  exists c, b. repeat split; try assumption; try (now symmetry).
  all: destruct (compare_some _ _ _ _ Hr)
    as (_ & bsq & csq & comb & _ & _ & _ & _ & ->); reflexivity.
Qed.

(** X3.  Nothing that qualifies is dropped: when detection returns, the
    record of every current result that meets its baseline record, is
    flagged and has a confidence above 0.5 is in the returned lists, in the
    first one if it is flagged as a regression and in the second otherwise. *)
Theorem confident_findings_are_returned (baseline current : list PerformanceResult)
    (regressions improvements : list RegressionResult)
    (c b : PerformanceResult) (r : RegressionResult) :
  detect_regressions t baseline current = Ok (regressions, improvements) ->
  In c current ->
  find (fun x => String.eqb (key_of c) (key_of x)) (rev baseline) = Some b ->
  compare t b c = Ok (Some r) ->
  confident r ->
  (is_regression r = true -> In r regressions) /\
  (is_regression r = false -> is_improvement r = true -> In r improvements).
Proof.
  unfold detect_regressions.
  destruct (detect_loop t (baseline_lookup baseline) current ([], [])) as [found|e]
    eqn:E; cbn [bind]; [|discriminate].
  intros H Hin Hb Hc Hconf. injection H as <- <-.
  rewrite <- baseline_lookup_find in Hb.
  destruct (proj2 (detect_loop_complete _ _ _ _ E) c b r Hin Hb Hc Hconf)
    as [F1 F2].
  split.
  - intros Hr. apply (Permutation_in _
      (Permutation_sym (list_sort_perm _ change_percentage true (fst found)))).
    now apply F1.
  - intros Hr Hi. apply (Permutation_in _
      (Permutation_sym (list_sort_perm _ change_percentage false (snd found)))).
    now apply F2.
Qed.

(** X4.  Each current result contributes at most one record: the two returned
    lists together are no longer than the list of current results. *)
Theorem at_most_one_record_per_result (baseline current : list PerformanceResult)
    (regressions improvements : list RegressionResult) :
  detect_regressions t baseline current = Ok (regressions, improvements) ->
  (List.length regressions + List.length improvements <= List.length current)%nat.
Proof.
  unfold detect_regressions.
  destruct (detect_loop t (baseline_lookup baseline) current ([], [])) as [found|e]
    eqn:E; cbn [bind]; [|discriminate].
  intros H. injection H as <- <-. apply detect_loop_length in E. simpl in E.
  pose proof (Permutation_length (list_sort_perm _ change_percentage true (fst found)))
    as Hr.
  pose proof (Permutation_length (list_sort_perm _ change_percentage false (snd found)))
    as Hi.
  unfold list_sort in Hr, Hi. lia.
Qed.

(** X5.  A record flagged both ways (possible with a negative threshold) is
    filed as a regression only: no record of the improvements list has
    [is_regression] set. *)
Theorem improvements_hold_no_regression (baseline current : list PerformanceResult)
    (regressions improvements : list RegressionResult) :
  detect_regressions t baseline current = Ok (regressions, improvements) ->
  Forall (fun r => is_regression r = false) improvements.
Proof.
  unfold detect_regressions.
  destruct (detect_loop t (baseline_lookup baseline) current ([], [])) as [found|e]
    eqn:E; cbn [bind]; [|discriminate].
  intros H. injection H as <- <-.
  apply (list_sort_Forall _ change_percentage _ false).
  apply (detect_loop_invariant
           (fun acc => Forall (fun r => is_regression r = false) (snd acc))
           (baseline_lookup baseline) current) with (acc := ([], []));
    [|exact E|constructor].
  intros acc c b r HI _ _ _.
  destruct (classify_cases acc r) as [[-> _] | [[-> (Hr & _)] | ->]]; simpl;
    try assumption.
  apply Forall_app. split; [assumption|]. now repeat constructor.
Qed.

(** X7.  When no current result meets a baseline record with a non-zero
    average (no key matches, the baseline or the current list is empty, or
    every matched baseline average is zero), detection returns two empty
    lists and raises nothing. *)
Theorem nothing_to_compare (baseline current : list PerformanceResult) :
  (forall c b,
     In c current ->
     dict_get (key_of c) (baseline_lookup baseline) = Some b ->
     (average_time_us b =? 0) = true) ->
  detect_regressions t baseline current = Ok ([], []).
Proof.
  intros H. unfold detect_regressions.
  assert (E : forall acc, detect_loop t (baseline_lookup baseline) current acc = Ok acc).
  { induction current as [|c rest IH]; intros acc; simpl; [reflexivity|].
    assert (Hc : detect_step t (baseline_lookup baseline) acc c = Ok acc).
    { unfold detect_step.
      destruct (dict_get (key_of c) (baseline_lookup baseline)) as [b|] eqn:Hb;
        [|reflexivity].
      rewrite (compare_zero _ _ _ (H c b (or_introl eq_refl) Hb)). reflexivity. }
    rewrite Hc. cbn [bind]. apply IH. intros c' b' Hin. apply H. now right. }
  rewrite E. reflexivity.
Qed.

End Loop.

(** Quotients and absolute values are not negative. *)
Lemma SFdiv_nonneg x y :
  nonneg x = true -> nonneg y = true -> nonneg (SF64div x y) = true.
Proof.
  destruct x as [[]|[]| |[] mx ex], y as [[]|[]| |[] my ey]; simpl;
    try reflexivity; try discriminate.
  intros _ _.
  destruct (SFdiv_core_binary prec emax (Z.pos mx) ex (Z.pos my) ey) as [[mz ez] lz].
  apply binary_round_aux_nonneg.
Qed.

Lemma SFabs_nonneg x : nonneg (SFabs x) = true.
Proof. now destruct x. Qed.

Lemma nonneg_zero_le x :
  nonneg x = true -> nan x = false -> cmpb is_le (S754_zero false) x = true.
Proof. destruct x as [[]|[]| |[] m e]; simpl; try reflexivity; discriminate. Qed.

(** X6.  The confidence of every record the detector builds is a number
    between 0 and 0.99, never NaN, whatever the inputs. *)
Theorem confidence_in_range {M : C.Libm} (t : float) (b c : PerformanceResult)
    (r : RegressionResult) :
  compare t b c = Ok (Some r) ->
  is_nan (confidence_level r) = false /\
  (0 <=? confidence_level r) = true /\
  (confidence_level r <=? PyFloat.f0_99) = true.
Proof.
  intros H.
  destruct (compare_some _ _ _ _ H) as (_ & bsq & csq & comb & _ & _ & _ & Hcomb & ->).
  cbn [regression_result confidence_level].
  set (change := (average_time_us c - average_time_us b) / average_time_us b).
  assert (Hscaled : nonneg (Prim2SF (abs change / (comb + PyFloat.f1em10) / PyFloat.f3)) = true).
  { rewrite div_spec. apply SFdiv_nonneg; [|reflexivity].
    rewrite div_spec. apply SFdiv_nonneg.
    - rewrite abs_spec. apply SFabs_nonneg.
    - apply add_nonneg; [assumption|reflexivity]. }
  unfold PyFloat.min.
  destruct (abs change / (comb + PyFloat.f1em10) / PyFloat.f3 <? PyFloat.f0_99) eqn:E.
  - destruct (ltb_not_nan _ _ E) as [Hn _]. split; [assumption|]. split.
    + rewrite leb_spec, SFleb_cmpb, Prim2SF_zero. apply nonneg_zero_le; [assumption|].
      now rewrite <- is_nan_SF.
    + now apply ltb_leb.
  - repeat split.
Qed.

(** X8.  With a threshold of zero every change that is a number other than
    zero is flagged, as a regression or as an improvement, and no other
    change is. *)
Theorem zero_threshold_flags_every_change {M : C.Libm} (t : float) (b c : PerformanceResult)
    (r : RegressionResult) :
  (t =? 0) = true ->
  compare t b c = Ok (Some r) ->
  is_regression r || is_improvement r
  = negb (is_nan (change_percentage r)) && negb (change_percentage r =? 0).
Proof.
  intros Ht H.
  destruct (compare_some _ _ _ _ H) as (_ & bsq & csq & comb & _ & _ & _ & _ & ->).
  cbn [regression_result change_percentage is_regression is_improvement].
  generalize ((average_time_us c - average_time_us b) / average_time_us b).
  intros x. revert Ht. to_sf. sf_solve.
Qed.

Import Sample SampleLibm.

Lemma baseline_lookup_last_wins_witness :
  (forall b', In b' [] -> key_of (B := builtins) b' <> key_of (B := builtins) current_54) /\
  dict_get (key_of (B := builtins) current_54)
    (baseline_lookup (B := builtins) ([baseline_45] ++ current_54 :: []))
  = Some current_54.
Proof.
  assert (H : forall b', In b' [] ->
            key_of (B := builtins) b' <> key_of (B := builtins) current_54)
    by (intros b' []).
  split; [exact H|].
  exact (proj1 (baseline_lookup_last_wins (B := builtins) [baseline_45]
                  current_54 [] H)).
Defined.

Lemma returned_records_have_origin_witness :
  exists r c b,
    detect_regressions (B := builtins) (M := libm) threshold [baseline_45] [current_54]
    = Ok ([r], []) /\
    In r ([r] ++ []) /\
    In c [current_54] /\ In b [baseline_45] /\
    compare (M := libm) threshold b c = Ok (Some r).
Proof.
  eexists.
  destruct (returned_records_have_origin (B := builtins) (M := libm) threshold
              [baseline_45] [current_54] _ _ _ eq_refl (or_introl eq_refl))
    as (c & b & Hc & Hb & _ & _ & Hr & _).
  exists c, b. split; [reflexivity|]. split; [now left|]. now repeat split.
Defined.

Lemma at_most_one_record_per_result_witness :
  exists regressions,
    detect_regressions (B := builtins) (M := libm) threshold [baseline_45; baseline_45]
      [current_54] = Ok (regressions, []) /\
    (List.length regressions + 0 <= 1)%nat.
Proof.
  eexists. split; [vm_compute; reflexivity|].
  exact (at_most_one_record_per_result (B := builtins) (M := libm) threshold
           [baseline_45; baseline_45] [current_54] _ [] eq_refl).
Defined.

Lemma improvements_hold_no_regression_witness :
  exists r,
    detect_regressions (B := builtins) (M := libm) threshold [current_54] [baseline_45]
    = Ok ([], [r]) /\
    Forall (fun r => is_regression r = false) [r].
Proof.
  eexists. split; [vm_compute; reflexivity|].
  exact (improvements_hold_no_regression (B := builtins) (M := libm) threshold
           [current_54] [baseline_45] [] _ eq_refl).
Defined.

Lemma nothing_to_compare_witness :
  (forall c b,
     In c [steady] ->
     dict_get (key_of (B := builtins) c) (baseline_lookup (B := builtins) [baseline_45])
     = Some b ->
     (average_time_us b =? 0) = true) /\
  detect_regressions (B := builtins) (M := libm) threshold [baseline_45] [steady] = Ok ([], []).
Proof.
  assert (H : forall c b,
     In c [steady] ->
     dict_get (key_of (B := builtins) c) (baseline_lookup (B := builtins) [baseline_45])
     = Some b ->
     (average_time_us b =? 0) = true).
  { intros c b [<- | []] Hb. vm_compute in Hb. discriminate Hb. }
  split; [exact H|].
  exact (nothing_to_compare (B := builtins) (M := libm) threshold [baseline_45] [steady] H).
Defined.

Lemma confidence_in_range_witness :
  exists r,
    compare (M := libm) threshold baseline_45 current_54 = Ok (Some r) /\
    (0 <=? confidence_level r) = true /\
    (confidence_level r <=? PyFloat.f0_99) = true.
Proof.
  eexists. split; [vm_compute; reflexivity|].
  exact (proj2 (confidence_in_range (M := libm) threshold baseline_45 current_54 _ eq_refl)).
Defined.

Lemma zero_threshold_flags_every_change_witness :
  exists r,
    (0 =? 0) = true /\
    compare (M := libm) 0 baseline_45 current_54 = Ok (Some r) /\
    is_regression r || is_improvement r
    = negb (is_nan (change_percentage r)) && negb (change_percentage r =? 0).
Proof.
  eexists. split; [reflexivity|]. split; [vm_compute; reflexivity|].
  exact (zero_threshold_flags_every_change (M := libm) 0 baseline_45 current_54 _
           eq_refl eq_refl).
Defined.

Lemma confident_findings_are_returned_witness :
  exists r,
    detect_regressions (B := builtins) (M := libm) threshold [baseline_45] [current_54]
    = Ok ([r], []) /\
    In current_54 [current_54] /\
    compare (M := libm) threshold baseline_45 current_54 = Ok (Some r) /\
    confident r /\ is_regression r = true /\ In r [r].
Proof.
  eexists. split; [vm_compute; reflexivity|]. split; [now left|].
  split; [vm_compute; reflexivity|]. split; [reflexivity|]. split; [reflexivity|].
  exact (proj1 (confident_findings_are_returned (B := builtins) (M := libm) threshold
                  [baseline_45] [current_54] _ _ current_54 baseline_45 _
                  eq_refl (or_introl eq_refl) eq_refl eq_refl eq_refl) eq_refl).
Defined.

End DetectorExtras.

(** ** The loader *)

Module LoaderExtras.
Import PyValue LoaderFacts.

Section Shapes.
Context {B : Builtins}.
Variable w : World.

Lemma parse_item_string s : parse_item w (JStr s) = Raise AttributeError.
Proof. reflexivity. Qed.

Lemma load_items_string s rest :
  load_items w (JStr s :: rest) [] = ([], Raise AttributeError).
Proof.
  cbn [load_items].
  rewrite (load_item_raise w [] (JStr s) AttributeError (parse_item_string s)).
  reflexivity.
Qed.

(** X9.  The value of [benchmarks] (or, without it, of [results]) has to be
    an array.  An object or a string there is walked key by key or character
    by character, and the first of them raises [AttributeError], which leaves
    the loader; empty, they give no record; any other value raises
    [TypeError].  In no case is a record returned. *)
Theorem entries_must_be_in_an_array (file_path : string) (members : dict json)
    (b : json) :
  fs w file_path = Document (JDict members) ->
  dict_get "benchmarks" members = Some b \/
  dict_get "benchmarks" members = None /\ dict_get "results" members = Some b ->
  (forall items, b <> JList items) ->
  load_results w file_path =
  ([], match b with
       | JDict [] | JStr EmptyString => Ok []
       | JDict (_ :: _) | JStr (String _ _) => Raise AttributeError
       | _ => Raise TypeError
       end).
Proof.
  intros Hf Hb Hl. rewrite (load_results_document _ _ _ Hf). unfold load_document.
  rewrite benchmark_data_of_object, io_bind_lift_ok.
  assert (E : match dict_get "benchmarks" members with
              | Some b0 => b0
              | None => match dict_get "results" members with
                        | Some r => r
                        | None => JList [JDict members]
                        end
              end = b).
  { destruct Hb as [-> | [-> ->]]; reflexivity. }
  rewrite E.
  destruct b as [ |x|n|x|s|l|m]; try reflexivity.
  - destruct s as [|c s]; [reflexivity|]. cbn [iterate]. rewrite io_bind_lift_ok.
    cbn [list_ascii_of_string map]. apply load_items_string.
  - destruct (Hl l eq_refl).
  - destruct m as [|[k v] m]; [reflexivity|]. cbn [iterate]. rewrite io_bind_lift_ok.
    cbn [map fst]. apply load_items_string.
Qed.

(** X10.  A document that is neither an array nor an object never loads:
    the loader raises [TypeError], or [AttributeError] for a string that
    holds neither the word [benchmarks] nor the word [results], and prints
    nothing. *)
Theorem scalar_document_raises (file_path : string) (data : json) :
  fs w file_path = Document data ->
  (forall items, data <> JList items) ->
  (forall members, data <> JDict members) ->
  load_results w file_path =
  ([], match data with
       | JStr s =>
           if is_substring "benchmarks" s || is_substring "results" s
           then Raise TypeError else Raise AttributeError
       | _ => Raise TypeError
       end).
Proof.
  intros Hf Hl Hd. rewrite (load_results_document _ _ _ Hf). unfold load_document.
  destruct data as [ |x|n|x|s|l|m]; try reflexivity.
  - unfold benchmark_data_of, contains, subscript. cbn [bind].
    destruct (is_substring "benchmarks" s); [reflexivity|]. cbn [bind orb].
    destruct (is_substring "results" s); [reflexivity|].
    rewrite io_bind_lift_ok. cbn [iterate]. rewrite io_bind_lift_ok.
    apply load_items_string.
  - destruct (Hl l eq_refl).
  - destruct (Hd m eq_refl).
Qed.

(** X11.  Records are returned all or none: when an entry of the array
    raises what the inner handler does not catch, the loader raises it, the
    records of the entries before it are lost and only their warnings have
    been printed; the entries after it are not looked at. *)
Theorem escaping_entry_discards_records (data : json) (before : list json)
    (item : json) (after : list json) (e : exn) :
  array_shaped data (before ++ item :: after) ->
  Forall (fun i => escapes w i = false) before ->
  parse_item w item = Raise e ->
  catches item_errors e = false ->
  load_document w data = (flat_map (item_log w) before, Raise e).
Proof.
  intros Hs Hb He Hc. rewrite (load_document_shaped _ _ _ Hs).
  assert (G : forall results,
            load_items w (before ++ item :: after) results
            = (flat_map (item_log w) before, Raise e)).
  { clear Hs. induction Hb as [|i rest Hi _ IH]; intros results.
    - cbn [app load_items flat_map]. rewrite (load_item_raise _ _ _ _ He), Hc.
      reflexivity.
    - cbn [app load_items flat_map].
      rewrite (load_item_contained _ _ _ Hi). unfold io_bind.
      rewrite IH. reflexivity. }
  apply G.
Qed.

End Shapes.

Import Sample SampleLibm.

Lemma entries_must_be_in_an_array_witness :
  fs (current_only (Document (JDict [("benchmarks"%string, JStr "none"%string)])))
     "current.json"
  = Document (JDict [("benchmarks"%string, JStr "none"%string)]) /\
  load_results (B := builtins)
    (current_only (Document (JDict [("benchmarks"%string, JStr "none"%string)])))
    "current.json"
  = ([], Raise AttributeError).
Proof.
  split; [reflexivity|].
  refine (entries_must_be_in_an_array (B := builtins)
            (current_only (Document (JDict [("benchmarks"%string, JStr "none"%string)])))
            "current.json" _ (JStr "none"%string) eq_refl (or_introl eq_refl) _).
  intros items. discriminate.
Defined.

Lemma scalar_document_raises_witness :
  fs (current_only (Document doc_scalar)) "current.json" = Document doc_scalar /\
  load_results (B := builtins) (current_only (Document doc_scalar)) "current.json"
  = ([], Raise TypeError).
Proof.
  split; [reflexivity|].
  refine (scalar_document_raises (B := builtins) (current_only (Document doc_scalar))
            "current.json" doc_scalar eq_refl _ _); intros x; discriminate.
Defined.

Lemma escaping_entry_discards_records_witness :
  array_shaped (JList [entry (JInt 54); JInt 1; entry (JInt 45)])
    ([entry (JInt 54)] ++ JInt 1 :: [entry (JInt 45)]) /\
  parse_item (B := builtins) (current_only Missing) (JInt 1) = Raise AttributeError /\
  load_document (B := builtins) (current_only Missing)
    (JList [entry (JInt 54); JInt 1; entry (JInt 45)])
  = ([], Raise AttributeError).
Proof.
  split; [now left|]. split; [reflexivity|].
  refine (escaping_entry_discards_records (B := builtins) (current_only Missing)
            (JList [entry (JInt 54); JInt 1; entry (JInt 45)])
            [entry (JInt 54)] (JInt 1) [entry (JInt 45)] AttributeError
            (or_introl eq_refl) _ eq_refl eq_refl).
  repeat constructor.
Defined.

End LoaderExtras.

(** ** [run_analysis] and [main] *)

Module RunExtras.
Import PyValue LoaderFacts MainFacts.

Lemma io_bind_snd (A C : Type) (c c' : io A) (k : A -> io C) :
  snd c = snd c' -> snd (io_bind c k) = snd (io_bind c' k).
Proof.
  destruct c as [log r], c' as [log' r']. simpl. intros ->.
  destruct r' as [a|e]; reflexivity.
Qed.

Section Run.
Context {B : Builtins}.
Context {M : C.Libm}.
Variable w : World.

Lemma load_all_passes_over files1 p files2 :
  snd (load_results w p) = Ok [] ->
  forall acc,
    snd (load_all w (files1 ++ p :: files2) acc)
    = snd (load_all w (files1 ++ files2) acc).
Proof.
  intros Hp. induction files1 as [|f rest IH]; intros acc; simpl.
  - destruct (load_results w p) as [log r]. simpl in Hp. subst r. simpl.
    now rewrite app_nil_r.
  - destruct (load_results w f) as [log [rs|e]]; simpl; [apply IH|reflexivity].
Qed.

(** X12.  A current file that is missing or is not JSON is passed over: the
    analysis is the one of the other files, in their order, whatever the
    position of the file in the list. *)
Theorem unusable_current_file_is_passed_over (threshold : float)
    (files1 : list string) (p : string) (files2 : list string)
    (baseline_file : option string) :
  fs w p = Missing \/ fs w p = Malformed ->
  snd (run_analysis w threshold (files1 ++ p :: files2) baseline_file)
  = snd (run_analysis w threshold (files1 ++ files2) baseline_file).
Proof.
  intros Hp. unfold run_analysis. apply io_bind_snd. apply load_all_passes_over.
  destruct Hp as [Hp | Hp];
    [rewrite (load_results_missing _ _ Hp)|rewrite (load_results_malformed _ _ Hp)];
    reflexivity.
Qed.

Lemma compare_with_baseline_unusable threshold baseline_file current_results :
  baseline_file = None \/ baseline_file = Some ""%string \/
  (exists p, baseline_file = Some p /\
             (fs w p = Missing \/ snd (load_results w p) = Ok [])) ->
  snd (compare_with_baseline w threshold baseline_file current_results)
  = Ok ([], ([], [])).
Proof.
  unfold compare_with_baseline.
  intros [-> | [-> | (p & -> & [Hp | Hp])]]; try reflexivity.
  - unfold path_exists. rewrite Hp, andb_false_r. reflexivity.
  - destruct (truthy (Some p) && path_exists w p); [|reflexivity].
    destruct (load_results w p) as [log r]. simpl in Hp. subst r. reflexivity.
Qed.

Lemma run_analysis_unusable threshold files baseline_file log a :
  baseline_file = None \/ baseline_file = Some ""%string \/
  (exists p, baseline_file = Some p /\
             (fs w p = Missing \/ snd (load_results w p) = Ok [])) ->
  run_analysis w threshold files baseline_file = (log, Ok a) ->
  regressions a = [] /\ improvements a = [] /\ has_baseline a = false /\
  regressions_detected a = 0%nat.
Proof.
  intros Hb H. unfold run_analysis in H.
  apply io_bind_ok in H. destruct H as (log1 & current & log2 & _ & H & _).
  destruct current as [|r rest]; [discriminate|].
  apply io_bind_ok in H. destruct H as (log3 & compared & log4 & Hc & H & _).
  apply io_bind_ok in H. destruct H as (log5 & u & log6 & _ & H & _).
  injection H as _ <-.
  pose proof (compare_with_baseline_unusable threshold baseline_file (r :: rest) Hb)
    as Hu.
  rewrite Hc in Hu. simpl in Hu. injection Hu as ->. simpl.
  repeat split. now destruct baseline_file.
Qed.

(** X13.  Without a usable baseline (none given, an empty path, a path that
    does not exist, or a file that loads to nothing) an analysis that
    completes holds no regression and no improvement and reports no
    baseline, and the exit code of [main] is never 1. *)
Theorem unusable_baseline_finds_nothing (args : Args) :
  arg_baseline args = None \/ arg_baseline args = Some ""%string \/
  (exists p, arg_baseline args = Some p /\
             (fs w p = Missing \/ snd (load_results w p) = Ok [])) ->
  (forall log a,
     run_analysis w (arg_threshold args) (arg_current args) (arg_baseline args)
     = (log, Ok a) ->
     regressions a = [] /\ improvements a = [] /\ has_baseline a = false) /\
  snd (main w args) <> 1%Z.
Proof.
  intros Hb. split.
  - intros log a H.
    destruct (run_analysis_unusable _ _ _ _ _ Hb H) as (? & ? & ? & _). tauto.
  - unfold main. rewrite main_body_unfold.
    destruct (run_analysis w _ _ _) as [log0 [a|e]] eqn:Hrun; [|discriminate].
    destruct (run_analysis_unusable _ _ _ _ _ Hb Hrun) as (_ & _ & _ & Hn).
    destruct (write_outputs w args a) as [log1 [a'|e]] eqn:Hw; simpl;
      [|discriminate].
    destruct (write_outputs_ok _ _ _ _ _ Hw) as [-> _]. rewrite Hn. discriminate.
Qed.

Lemma loader_event_not_write log path outcome :
  Forall loader_event log -> ~ In (WriteAttempt path outcome) log.
Proof.
  intros H Hin. rewrite Forall_forall in H. exact (H _ Hin).
Qed.

(** X14.  Nothing is written unless the analysis completes: when
    [run_analysis] raises, whatever the exception, [main] prints it, exits
    with 2 and attempts no write. *)
Theorem failed_analysis_writes_nothing (args : Args) (log : list event) (e : exn) :
  run_analysis w (arg_threshold args) (arg_current args) (arg_baseline args)
  = (log, Raise e) ->
  main w args = (Running :: log ++ [ErrorDuringAnalysis e], 2%Z) /\
  forall path outcome, ~ In (WriteAttempt path outcome) (fst (main w args)).
Proof.
  intros H.
  assert (Hm : main w args = (Running :: log ++ [ErrorDuringAnalysis e], 2%Z)).
  { unfold main. now rewrite main_body_unfold, H. }
  split; [exact Hm|]. rewrite Hm. intros path outcome [Hin | Hin]; [discriminate|].
  apply in_app_or in Hin. destruct Hin as [Hin | [Hin | []]]; [|discriminate].
  pose proof (run_analysis_log w (arg_threshold args) (arg_current args)
                (arg_baseline args)) as Hlog.
  rewrite H in Hlog. exact (loader_event_not_write _ _ _ Hlog Hin).
Qed.

Lemma write_outputs_targets args analysis path outcome :
  In (WriteAttempt path outcome) (fst (write_outputs w args analysis)) ->
  outcome = write w path /\
  (path = arg_output args \/ arg_report args = Some path /\ path <> ""%string).
Proof.
  assert (Ht : forall p, truthy (Some p) = true -> p <> ""%string).
  { intros p. simpl. destruct (String.eqb_spec p ""); [discriminate|auto]. }
  destruct (write w (arg_output args)) as [e|] eqn:Ho.
  { rewrite (write_outputs_export_fails _ _ _ _ Ho). simpl.
    intros [[= <- <-] | []]. rewrite Ho. tauto. }
  destruct (truthy (arg_report args)) eqn:Hr.
  - destruct (arg_report args) as [p|] eqn:Hp; [|discriminate].
    destruct (write w p) as [e|] eqn:Hw.
    + rewrite (write_outputs_report_fails _ _ _ _ _ Ho Hp Hr Hw). simpl.
      intros [[= <- <-] | [[=] | [[= <- <-] | []]]].
      * rewrite Ho. tauto.
      * rewrite Hw. split; [reflexivity|]. right. split; [reflexivity|]. now apply Ht.
    + rewrite (write_outputs_both _ _ _ _ Ho Hp Hr Hw). simpl.
      intros [[= <- <-] | [[=] | [[= <- <-] | [[=] | [[=] | []]]]]].
      * rewrite Ho. tauto.
      * rewrite Hw. split; [reflexivity|]. right. split; [reflexivity|]. now apply Ht.
  - rewrite (write_outputs_no_report _ _ _ Ho Hr). simpl.
    intros [[= <- <-] | [[=] | [[=] | []]]]. rewrite Ho. tauto.
Qed.

(** X15.  [main] writes nowhere else than to the output path and to the
    report path: every write it attempts targets one of the two, and the
    report path only when it is not the empty string. *)
Theorem writes_go_to_named_paths (args : Args) (path : string)
    (outcome : option exn) :
  In (WriteAttempt path outcome) (fst (main w args)) ->
  outcome = write w path /\
  (path = arg_output args \/ arg_report args = Some path /\ path <> ""%string).
Proof.
  unfold main. rewrite main_body_unfold.
  pose proof (run_analysis_log w (arg_threshold args) (arg_current args)
                (arg_baseline args)) as Hlog.
  destruct (run_analysis w _ _ _) as [log0 [a|e]]; simpl in Hlog.
  - assert (Hbody : In (WriteAttempt path outcome)
                      (Running :: log0 ++ fst (write_outputs w args a)) ->
                    outcome = write w path /\
                    (path = arg_output args \/
                     arg_report args = Some path /\ path <> ""%string)).
    { intros [Hin | Hin]; [discriminate|].
      apply in_app_or in Hin. destruct Hin as [Hin | Hin].
      - destruct (loader_event_not_write _ _ _ Hlog Hin).
      - exact (write_outputs_targets _ _ _ _ Hin). }
    destruct (snd (write_outputs w args a)) as [a'|e].
    + destruct (Nat.ltb 0 (regressions_detected a')); cbn [fst]; intros Hin;
        apply in_app_or in Hin; destruct Hin as [Hin | [Hin | []]];
        try discriminate; now apply Hbody.
    + cbn [fst]. intros Hin.
      apply in_app_or in Hin; destruct Hin as [Hin | [Hin | []]];
        try discriminate; now apply Hbody.
  - cbn [fst]. intros Hin.
    apply in_app_or in Hin. destruct Hin as [[Hin | Hin] | [Hin | []]];
      try discriminate.
    destruct (loader_event_not_write _ _ _ Hlog Hin).
Qed.

End Run.

Import Sample SampleLibm.

Lemma unusable_current_file_is_passed_over_witness :
  (fs (world scenario_a) "absent.json" = Missing \/
   fs (world scenario_a) "absent.json" = Malformed) /\
  snd (run_analysis (B := builtins) (M := libm) (world scenario_a) threshold
         (["absent.json"%string] ++ "absent.json"%string :: ["current.json"%string])
         (Some "baseline.json"%string))
  = snd (run_analysis (B := builtins) (M := libm) (world scenario_a) threshold
           ["current.json"%string] (Some "baseline.json"%string)).
Proof.
  split; [now left|].
  rewrite (unusable_current_file_is_passed_over (B := builtins) (M := libm) (world scenario_a)
             threshold ["absent.json"%string] "absent.json" ["current.json"%string]
             (Some "baseline.json"%string) (or_introl eq_refl)).
  exact (unusable_current_file_is_passed_over (B := builtins) (M := libm) (world scenario_a)
           threshold [] "absent.json" ["current.json"%string]
           (Some "baseline.json"%string) (or_introl eq_refl)).
Defined.

Lemma unusable_baseline_finds_nothing_witness :
  (exists p, arg_baseline (args None) = Some p /\
             (fs (current_only (Document (JList [entry (JInt 54)]))) p = Missing \/
              snd (load_results (B := builtins)
                     (current_only (Document (JList [entry (JInt 54)]))) p) = Ok [])) /\
  snd (main (B := builtins) (M := libm) (current_only (Document (JList [entry (JInt 54)])))
         (args None)) <> 1%Z.
Proof.
  assert (H : exists p, arg_baseline (args None) = Some p /\
             (fs (current_only (Document (JList [entry (JInt 54)]))) p = Missing \/
              snd (load_results (B := builtins)
                     (current_only (Document (JList [entry (JInt 54)]))) p) = Ok [])).
  { exists "baseline.json"%string. split; [reflexivity|]. now left. }
  split; [exact H|].
  exact (proj2 (unusable_baseline_finds_nothing (B := builtins) (M := libm)
                  (current_only (Document (JList [entry (JInt 54)]))) (args None)
                  (or_intror (or_intror H)))).
Defined.

Lemma failed_analysis_writes_nothing_witness :
  run_analysis (B := builtins) (M := libm) (current_only (Document doc_scalar))
    (arg_threshold (args None)) (arg_current (args None)) (arg_baseline (args None))
  = ([], Raise TypeError) /\
  main (B := builtins) (M := libm) (current_only (Document doc_scalar)) (args None)
  = ([Running; ErrorDuringAnalysis TypeError], 2%Z).
Proof.
  split; [reflexivity|].
  exact (proj1 (failed_analysis_writes_nothing (B := builtins) (M := libm)
                  (current_only (Document doc_scalar)) (args None) [] TypeError
                  eq_refl)).
Defined.

Lemma writes_go_to_named_paths_witness :
  In (WriteAttempt "report.md" None)
     (fst (main (B := builtins) (M := libm) (world scenario_a) (args (Some "report.md"%string)))) /\
  arg_report (args (Some "report.md"%string)) = Some "report.md"%string.
Proof.
  assert (H : In (WriteAttempt "report.md" None)
     (fst (main (B := builtins) (M := libm) (world scenario_a) (args (Some "report.md"%string))))).
  { vm_compute. tauto. }
  split; [exact H|].
  destruct (writes_go_to_named_paths (B := builtins) (M := libm) (world scenario_a)
              (args (Some "report.md"%string)) "report.md" None H)
    as [_ [Hout | [Hrep _]]]; [discriminate Hout|exact Hrep].
Defined.

End RunExtras.

(** ** What the insights and the report select *)

Module InsightExtras.
Import SF SFFacts FloatFacts SortFacts DetectFacts.

Lemma leb_not_ltb x y : (x <=? y)%float = true -> (y <? x)%float = false.
Proof. to_sf. sf_solve. Qed.

Section Selection.
Variable A : Type.
Variable key : A -> float.

Lemma max_from_first best l :
  Forall (key_ge key best) l -> max_from key best l = best.
Proof.
  induction 1 as [|x l Hx _ IH]; simpl; [reflexivity|].
  unfold PyFloat.gt. now rewrite (leb_not_ltb _ _ Hx).
Qed.

Lemma min_from_first best l :
  Forall (key_le key best) l -> min_from key best l = best.
Proof.
  induction 1 as [|x l Hx _ IH]; simpl; [reflexivity|].
  unfold PyFloat.lt. now rewrite (leb_not_ltb _ _ Hx).
Qed.

Lemma sorted_firstn_skipn (R : A -> A -> Prop) n : forall l a b,
  StronglySorted R l -> In a (firstn n l) -> In b (skipn n l) -> R a b.
Proof.
  induction n as [|n IH]; intros l a b Hs Ha Hb; [destruct Ha|].
  destruct l as [|x l]; [destruct Ha|].
  apply StronglySorted_inv in Hs. destruct Hs as [Hs Hx]. simpl in Ha, Hb.
  destruct Ha as [<- | Ha].
  - rewrite Forall_forall in Hx. apply Hx.
    rewrite <- (firstn_skipn n l). apply in_or_app. now right.
  - now apply (IH l).
Qed.

End Selection.

Section Detected.
Context {B : Builtins}.
Context {M : C.Libm}.
Variable t : float.

Lemma detect_regressions_sorted baseline current regs imps :
  detect_regressions t baseline current = Ok (regs, imps) ->
  descending regs /\ ascending imps.
Proof.
  intros H.
  destruct (detect_regressions_kept _ _ _ _ _ H) as (found & [Hr Hi] & -> & ->).
  split.
  - apply list_sort_sorted. eapply Forall_impl; [|exact Hr].
    intros r. apply kept_regression_comparable.
  - apply list_sort_sorted. eapply Forall_impl; [|exact Hi].
    intros r. apply kept_improvement_comparable.
Qed.

(** X16.  The regression the insights single out with [max] is the first
    record of the list [detect_regressions] returned, and the improvement
    they single out with [min] the first record of the other list: on lists
    sorted this way the two searches change nothing. *)
Theorem alerts_name_first_records (baseline current : list PerformanceResult)
    (regressions improvements : list RegressionResult) :
  detect_regressions t baseline current = Ok (regressions, improvements) ->
  worst_regression regressions = head regressions /\
  best_improvement improvements = head improvements.
Proof.
  intros H. destruct (detect_regressions_sorted _ _ _ _ H) as [Hr Hi]. split.
  - destruct regressions as [|r rest]; [reflexivity|]. simpl.
    apply StronglySorted_inv in Hr. now rewrite (max_from_first _ _ _ _ (proj2 Hr)).
  - destruct improvements as [|r rest]; [reflexivity|]. simpl.
    apply StronglySorted_inv in Hi. now rewrite (min_from_first _ _ _ _ (proj2 Hi)).
Qed.

(** X17.  The rows of the two tables of the report are the extreme ones: a
    regression that is shown has a change at least as large as any regression
    left out, and an improvement that is shown a change at most as large as
    any improvement left out; at most ten rows are shown. *)
Theorem tables_show_extreme_changes (baseline current : list PerformanceResult)
    (regressions improvements : list RegressionResult) :
  detect_regressions t baseline current = Ok (regressions, improvements) ->
  (forall shown hidden,
     In shown (table_rows regressions) -> In hidden (skipn 10 regressions) ->
     (change_percentage hidden <=? change_percentage shown)%float = true) /\
  (forall shown hidden,
     In shown (table_rows improvements) -> In hidden (skipn 10 improvements) ->
     (change_percentage shown <=? change_percentage hidden)%float = true) /\
  (List.length (table_rows regressions) <= 10)%nat /\
  (List.length (table_rows improvements) <= 10)%nat.
Proof.
  intros H. destruct (detect_regressions_sorted _ _ _ _ H) as [Hr Hi].
  split; [|split; [|split]].
  - intros shown hidden Hs Hh.
    exact (sorted_firstn_skipn _ _ 10 _ _ _ Hr Hs Hh).
  - intros shown hidden Hs Hh.
    exact (sorted_firstn_skipn _ _ 10 _ _ _ Hi Hs Hh).
  - apply firstn_le_length.
  - apply firstn_le_length.
Qed.

End Detected.

(** ** Entity counts *)

Local Open Scope Z_scope.

Lemma insert_unique_In x l n : In n (insert_unique x l) <-> n = x \/ In n l.
Proof.
  induction l as [|y l IH]; simpl; [intuition|].
  destruct (Z.ltb_spec x y); [simpl; intuition|].
  destruct (Z.eqb_spec x y); simpl; [subst; intuition|].
  rewrite IH. intuition.
Qed.

Lemma insert_unique_sorted x l :
  StronglySorted Z.lt l -> StronglySorted Z.lt (insert_unique x l).
Proof.
  induction 1 as [|y l Hs IH Hy]; simpl; [repeat constructor|].
  destruct (Z.ltb_spec x y).
  - constructor; [now constructor|]. constructor; [assumption|].
    eapply Forall_impl; [|exact Hy]. intros z Hz. simpl in Hz. lia.
  - destruct (Z.eqb_spec x y); [now constructor|].
    constructor; [assumption|]. rewrite Forall_forall in *.
    intros z Hz. apply insert_unique_In in Hz. destruct Hz as [-> | Hz]; [lia|auto].
Qed.

Lemma sorted_set_In xs n : In n (sorted_set xs) <-> In n xs.
Proof.
  induction xs as [|x xs IH]; simpl; [reflexivity|].
  rewrite insert_unique_In, IH. intuition.
Qed.

Lemma sorted_set_sorted xs : StronglySorted Z.lt (sorted_set xs).
Proof.
  induction xs as [|x xs IH]; simpl; [constructor|now apply insert_unique_sorted].
Qed.

(** X18.  The entity counts the insights, the recommendations and the
    summary work on are in strictly increasing order, so without repetition,
    and are exactly the positive entity counts of the results. *)
Theorem entity_counts_increasing (results : list PerformanceResult) :
  StronglySorted Z.lt (entity_counts results) /\
  (forall n,
     In n (entity_counts results) <->
     0 < n /\ exists r, In r results /\ entity_count r = n).
Proof.
  split; [apply sorted_set_sorted|]. intros n. unfold entity_counts.
  rewrite sorted_set_In, filter_In, in_map_iff. split.
  - intros [(r & <- & Hr) Hn]. split; [now apply Z.ltb_lt|now exists r].
  - intros [Hn (r & Hr & <-)]. split; [now exists r|now apply Z.ltb_lt].
Qed.

Lemma fold_add l : forall a, fold_left Z.add l a = a + fold_left Z.add l 0.
Proof.
  induction l as [|x l IH]; intros a; simpl; [lia|].
  rewrite (IH (a + x)), (IH x). lia.
Qed.

Lemma sum_int_cons x l : sum_int (x :: l) = x + sum_int l.
Proof. unfold sum_int. simpl. now rewrite fold_add. Qed.

Lemma sum_squared_distances a l :
  sum_int (map (fun x => (a - x) * (a - x)) l)
  = Z.of_nat (List.length l) * (a * a) - 2 * a * sum_int l
    + sum_int (map (fun x => x * x) l).
Proof.
  induction l as [|x l IH]; [unfold sum_int; simpl; ring|].
  cbn [map List.length]. rewrite !sum_int_cons, IH, Nat2Z.inj_succ. ring.
Qed.

Lemma slope_divisor_cons a l :
  slope_divisor (a :: l)
  = slope_divisor l + sum_int (map (fun x => (a - x) * (a - x)) l).
Proof.
  rewrite sum_squared_distances. unfold slope_divisor.
  cbn [map List.length]. rewrite !sum_int_cons, Nat2Z.inj_succ. ring.
Qed.

Lemma squared_distances_nonneg a l :
  0 <= sum_int (map (fun x => (a - x) * (a - x)) l).
Proof.
  induction l as [|x l IH]; [reflexivity|].
  cbn [map]. rewrite sum_int_cons.
  pose proof (Z.square_nonneg (a - x)). lia.
Qed.

Lemma squared_distances_pos a x l :
  a < x -> 0 < sum_int (map (fun y => (a - y) * (a - y)) (x :: l)).
Proof.
  intros H. cbn [map]. rewrite sum_int_cons.
  pose proof (squared_distances_nonneg a l).
  assert (0 < (a - x) * (a - x)) by nia. lia.
Qed.

Lemma slope_divisor_nonneg l : 0 <= slope_divisor l.
Proof.
  induction l as [|a l IH]; [reflexivity|].
  rewrite slope_divisor_cons. pose proof (squared_distances_nonneg a l). lia.
Qed.

(** X19.  The least-squares slope never divides by zero: as soon as there
    are two entity counts, and the slope is computed only with more than
    two, its divisor [n * sum_x2 - sum_x * sum_x] is a positive integer. *)
Theorem slope_divisor_positive (results : list PerformanceResult) :
  (2 <= List.length (entity_counts results))%nat ->
  0 < slope_divisor (entity_counts results).
Proof.
  assert (Hs : StronglySorted Z.lt (entity_counts results))
    by apply sorted_set_sorted.
  destruct (entity_counts results) as [|a [|x l]]; simpl; try lia. intros _.
  apply StronglySorted_inv in Hs. destruct Hs as [_ Ha].
  apply Forall_inv in Ha. rewrite slope_divisor_cons.
  pose proof (slope_divisor_nonneg (x :: l)).
  pose proof (squared_distances_pos a x l Ha). lia.
Qed.

Import Sample SampleLibm.

Lemma alerts_name_first_records_witness :
  exists r,
    detect_regressions (B := builtins) (M := libm) threshold [baseline_45] [current_54]
    = Ok ([r], []) /\
    worst_regression [r] = Some r.
Proof.
  eexists. split; [vm_compute; reflexivity|].
  exact (proj1 (alerts_name_first_records (B := builtins) (M := libm) threshold
                  [baseline_45] [current_54] _ [] eq_refl)).
Defined.

Lemma tables_show_extreme_changes_witness :
  exists regressions shown hidden,
    detect_regressions (B := builtins) (M := libm) threshold baseline_run current_run
    = Ok (regressions, []) /\
    List.length regressions = 11%nat /\
    In shown (table_rows regressions) /\ In hidden (skipn 10 regressions) /\
    (change_percentage hidden <=? change_percentage shown)%float = true.
Proof.
  eexists. eexists. eexists.
  split; [vm_compute; reflexivity|]. split; [reflexivity|].
  assert (Hs : forall (x : RegressionResult) l, In x (x :: l))
    by (intros x l; now left).
  split; [apply Hs|]. split; [apply Hs|].
  match goal with
  | |- (change_percentage ?h <=? change_percentage ?s)%float = true =>
      refine (proj1 (tables_show_extreme_changes (B := builtins) (M := libm) threshold
                       baseline_run current_run _ [] eq_refl) s h _ _)
  end; vm_compute; left; reflexivity.
Defined.

Lemma slope_divisor_positive_witness :
  (2 <= List.length (entity_counts current_run))%nat /\
  0 < slope_divisor (entity_counts current_run).
Proof.
  assert (H : (2 <= List.length (entity_counts current_run))%nat)
    by (vm_compute; lia).
  split; [exact H|]. exact (slope_divisor_positive current_run H).
Defined.

End InsightExtras.
